(** * Eltek Flatpack2 HE CAN controller: a shallow embedding of [main.py]

    The development follows the class [EltekFlatpack] of [src/main.py]:
    the arbitration identifiers computed by [__init__], the login
    credential built by [set_serial_number], the control frame of
    [set_voltage_and_current], the default-voltage frame of
    [set_default_voltage] and the status decoding of [read_status]; then
    the loop of [monitor] and the command line entry point [main].

    Python values are modelled as the interpreter has them:
    - [int] is an unbounded integer, here [Z], with [&], [|], [<<], [>>] as
      [Z.land], [Z.lor], [Z.shiftl], [Z.shiftr];
    - [float] is an IEEE 754 binary64 number, here [spec_float] with the
      operations of [SpecFloat] at precision 53 and maximal exponent 1024;
    - [bytes] and [bytearray] are lists of [byte];
    - [str] is [string];
    - a raised exception is the [Raise] branch of [result]. *)

From Stdlib Require Import ZArith QArith Qabs Lia Lqa List Bool String Ascii.
From Stdlib Require Import Strings.Byte.
From Stdlib Require Import Floats.SpecFloat.
Import ListNotations.

Local Open Scope Z_scope.

(** ** Python exceptions and results *)

Module Py.

Inductive exn : Type :=
| ValueError
| IndexError
| OverflowError
| SystemExit.

Inductive result (A : Type) : Type :=
| Ok (a : A)
| Raise (e : exn).

Arguments Ok {A} a.
Arguments Raise {A} e.

Definition bind {A B : Type} (r : result A) (k : A -> result B) : result B :=
  match r with
  | Ok a => k a
  | Raise e => Raise e
  end.

Fixpoint mapM {A B : Type} (f : A -> result B) (l : list A) : result (list B) :=
  match l with
  | [] => Ok []
  | x :: t => bind (f x) (fun y => bind (mapM f t) (fun ys => Ok (y :: ys)))
  end.

(** [d[k]] on a byte sequence: the byte as an [int], or [IndexError]. *)
Definition index (d : list byte) (k : nat) : result Z :=
  match nth_error d k with
  | Some b => Ok (Z.of_N (Byte.to_N b))
  | None => Raise IndexError
  end.

(** One element of [bytes(...)] / [bytearray(...)]: an [int] of [range(256)],
    otherwise [ValueError]. *)
Definition byte_of_int (z : Z) : result byte :=
  if (0 <=? z) && (z <? 256) then
    match Byte.of_N (Z.to_N z) with
    | Some b => Ok b
    | None => Raise ValueError
    end
  else Raise ValueError.

Definition bytes_of_ints (l : list Z) : result (list byte) := mapM byte_of_int l.

(** [n.to_bytes(2, 'little')]: [OverflowError] unless [0 <= n < 65536]. *)
Definition to_bytes2_little (n : Z) : result (list byte) :=
  if (0 <=? n) && (n <? 65536) then
    bytes_of_ints [Z.land n 255; Z.land (Z.shiftr n 8) 255]
  else Raise OverflowError.

End Py.

Export Py.

Declare Scope py_scope.
Notation "x <- c1 ;; c2" := (Py.bind c1 (fun x => c2))
  (at level 61, c1 at next level, right associativity) : py_scope.
Local Open Scope py_scope.

(** ** Python floats: IEEE 754 binary64 *)

Module F64.

Definition prec : Z := 53.
Definition emax : Z := 1024.

Definition float : Type := spec_float.

Definition valid (x : float) : bool := valid_binary prec emax x.

Definition mul (x y : float) : float := SFmul prec emax x y.
Definition div (x y : float) : float := SFdiv prec emax x y.

(** [x < y], [x > y], [x <= y] and [x == y]; all false on NaN. *)
Definition ltb (x y : float) : bool := SFltb x y.
Definition gtb (x y : float) : bool := ltb y x.
Definition leb (x y : float) : bool := SFleb x y.
Definition eqb (x y : float) : bool := SFeqb x y.

(** The conversion of an [int] operand in mixed arithmetic ([int * float]):
    round to nearest even.  It is exact below [2^53], which covers every
    integer converted by the driver (literals 10 and 100, 16-bit fields). *)
Definition of_int (z : Z) : float := binary_normalize prec emax z 0 false.

(** A decimal literal [num/den] such as [43.5] is read as the nearest
    binary64 number; the correctly rounded quotient of two exactly
    represented integers is that number. *)
Definition lit (num den : Z) : float := div (of_int num) (of_int den).

(** [int(x)]: truncation toward zero; [ValueError] on NaN and
    [OverflowError] on an infinity. *)
Definition to_int (x : float) : result Z :=
  match x with
  | S754_zero _ => Ok 0
  | S754_nan => Raise ValueError
  | S754_infinity _ => Raise OverflowError
  | S754_finite s m e =>
      Ok (cond_Zopp s (if 0 <=? e then Zpos m * 2 ^ e else Zpos m / 2 ^ (- e)))
  end.

(** Python's two-argument [min(a, b)] and [max(a, b)]: the first argument
    is kept unless the second is strictly smaller (larger). *)
Definition min (a b : float) : float := if ltb b a then b else a.
Definition max (a b : float) : float := if gtb b a then b else a.

(** The rational value of a finite float (0 for NaN and infinities, which
    have none). *)
Definition to_Q (x : float) : Q :=
  match x with
  | S754_finite s m e =>
      if 0 <=? e then inject_Z (cond_Zopp s (Zpos m * 2 ^ e))
      else Qmake (cond_Zopp s (Zpos m)) (Z.to_pos (2 ^ (- e)))
  | _ => 0%Q
  end.

(** The [int] literal [0] where a float is expected, as in [max(0, ...)]:
    comparing the integer 0 with a float is comparing [+0.0] with it, and
    [0 * 10] converts to the integer 0 as [+0.0 * 10] does. *)
Definition zero : float := S754_zero false.

Definition is_finite (x : float) : bool :=
  match x with
  | S754_zero _ | S754_finite _ _ _ => true
  | _ => false
  end.

End F64.

(** ** Strings: [str.zfill] and [int(str)] *)

Module Str.

Fixpoint to_list (s : string) : list ascii :=
  match s with
  | EmptyString => []
  | String c t => c :: to_list t
  end.

Fixpoint of_list (l : list ascii) : string :=
  match l with
  | [] => EmptyString
  | c :: t => String c (of_list t)
  end.

Definition is_digit (c : ascii) : bool :=
  let n := N_of_ascii c in ((48 <=? n) && (n <=? 57))%N.

Definition digit_value (c : ascii) : Z := Z.of_N (N_of_ascii c) - 48.

Definition is_sign (c : ascii) : bool :=
  (Ascii.eqb c "+" || Ascii.eqb c "-")%bool.

(** The characters [int()] strips from both ends of a [str]: tab, line
    feed, vertical tab, form feed, carriage return and space, and of the
    characters from 128 on those that are whitespace, NEL (133) and the
    no-break space (160).  The separators 28 to 31, which [str.strip]
    removes, are not among them: [int] raises ValueError on them. *)
Definition is_space (c : ascii) : bool :=
  let n := N_of_ascii c in
  (((9 <=? n) && (n <=? 13)) || (n =? 32) || (n =? 133) || (n =? 160))%N.

(** [s.zfill(width)]: zeros are inserted on the left, after a leading sign
    if there is one, until the string has [width] characters; a string that
    is already that long is returned as it is. *)
Definition zfill (width : nat) (s : string) : string :=
  let l := to_list s in
  let pad := repeat "0"%char (width - List.length l) in
  match l with
  | c :: t => if is_sign c then of_list (c :: pad ++ t) else of_list (pad ++ l)
  | [] => of_list pad
  end.

Fixpoint lstrip (l : list ascii) : list ascii :=
  match l with
  | c :: t => if is_space c then lstrip t else l
  | [] => []
  end.

Definition strip (l : list ascii) : list ascii :=
  rev (lstrip (rev (lstrip l))).

(** Decimal digits with single underscores allowed between digits;
    [acc] is the value read so far and [after_digit] tells whether the
    previous character was a digit. *)
Fixpoint digits (l : list ascii) (acc : Z) (after_digit : bool) : option Z :=
  match l with
  | [] => if after_digit then Some acc else None
  | c :: t =>
      if is_digit c then digits t (10 * acc + digit_value c) true
      else if (Ascii.eqb c "_" && after_digit)%bool then
        match t with
        | d :: _ => if is_digit d then digits t acc false else None
        | [] => None
        end
      else None
  end.

(** [int(s)] in base 10: surrounding whitespace is dropped, one sign is
    accepted, and the rest must be decimal digits; otherwise [ValueError]. *)
Definition to_int (s : string) : result Z :=
  let body := strip (to_list s) in
  let '(neg, ds) :=
    match body with
    | c :: t =>
        if Ascii.eqb c "-" then (true, t)
        else if Ascii.eqb c "+" then (false, t)
        else (false, body)
    | [] => (false, body)
    end in
  match digits ds 0 false with
  | Some n => Ok (if neg then - n else n)
  | None => Raise ValueError
  end.

(** The slice [s[i:i+n]]. *)
Definition slice (s : string) (i n : nat) : string :=
  of_list (firstn n (skipn i (to_list s))).

End Str.

(** ** The CAN frames exchanged with the bus *)

Record Message : Type := mkMessage {
  arbitration_id : Z;
  data : list byte;
  is_extended_id : bool
}.

(** The dictionary returned by [read_status]. *)
Record Status : Type := mkStatus {
  temperature : Z;
  current : F64.float;
  voltage : F64.float;
  power : F64.float;
  input_voltage : Z;
  walk_in : bool;
  float_mode : bool;
  error : bool
}.

(** ** The class [EltekFlatpack] *)

Definition MIN_VOLTAGE : F64.float := F64.lit 435 10.
Definition MAX_VOLTAGE : F64.float := F64.lit 574 10.
Definition MAX_CURRENT : F64.float := F64.lit 417 10.

Definition LOGIN_ID_BASE : Z := 0x05004800.
Definition CONTROL_ID_BASE : Z := 0x05FF4000.
Definition STATUS_ID_BASE : Z := 0x05014000.

(** The attributes of an instance.  [bus_sent] records the frames handed to
    [self.bus.send], oldest first. *)
Record EltekFlatpack : Type := mkEltek {
  unit_id : Z;
  target_voltage : F64.float;
  target_current : F64.float;
  ovp_voltage : F64.float;
  login : list byte;
  login_id : Z;
  control_id : Z;
  status_id1 : Z;
  status_id2 : Z;
  bus_sent : list Message
}.

Definition with_login (self : EltekFlatpack) (l : list byte) : EltekFlatpack :=
  mkEltek (unit_id self) (target_voltage self) (target_current self)
    (ovp_voltage self) l (login_id self) (control_id self)
    (status_id1 self) (status_id2 self) (bus_sent self).

Definition with_setpoints (self : EltekFlatpack) (v c o : F64.float)
  : EltekFlatpack :=
  mkEltek (unit_id self) v c o (login self) (login_id self) (control_id self)
    (status_id1 self) (status_id2 self) (bus_sent self).

(** [self.bus.send(msg)] *)
Definition bus_send (self : EltekFlatpack) (msg : Message) : EltekFlatpack :=
  mkEltek (unit_id self) (target_voltage self) (target_current self)
    (ovp_voltage self) (login self) (login_id self) (control_id self)
    (status_id1 self) (status_id2 self) (bus_sent self ++ [msg]).

(** A method that mutates [self] and may raise: the instance after the
    call together with the outcome.  What was assigned before an exception
    stays assigned. *)
Definition method (A : Type) : Type := EltekFlatpack * result A.

(** The bytes computed by [set_serial_number] (lines 55 to 60). *)
Definition serial_login_bytes (serial : string) : result (list byte) :=
  let serial_str := Str.zfill 12 serial in
  if negb (String.length serial_str =? 12)%nat then Raise ValueError
  else
    serial_bytes <- mapM (fun i => Str.to_int (Str.slice serial_str i 2))
                      [0; 2; 4; 6; 8; 10]%nat ;;
    bytes_of_ints (serial_bytes ++ [0x00; 0x00]).

Definition set_serial_number (self : EltekFlatpack) (serial : string)
  : method unit :=
  match serial_login_bytes serial with
  | Ok b => (with_login self b, Ok tt)
  | Raise e => (self, Raise e)
  end.

Definition default_login : list byte :=
  [x13; x43; x72; x10; x50; x69; x00; x00].

Definition send_login (self : EltekFlatpack) : EltekFlatpack :=
  bus_send self (mkMessage (login_id self) (login self) true).

(** [__init__].  [bus_ok] tells whether [can.interface.Bus] could open the
    channel; [serial_number] is [None] when the argument is omitted, and an
    empty string is as falsy as [None]. *)
Definition init (bus_ok : bool) (unit_id : Z) (serial_number : option string)
  : result EltekFlatpack :=
  if (unit_id <? 1) || (unit_id >? 63) then Raise ValueError
  else
    login_bytes <-
      match serial_number with
      | Some s =>
          if (String.length s =? 0)%nat then Ok default_login
          else serial_login_bytes s
      | None => Ok default_login
      end ;;
    let self :=
      mkEltek unit_id (F64.of_int 48) (F64.of_int 40) (F64.lit 595 10)
        login_bytes
        (LOGIN_ID_BASE + unit_id * 4)
        (CONTROL_ID_BASE + unit_id * 4)
        (STATUS_ID_BASE + unit_id * 4)
        (STATUS_ID_BASE + unit_id * 4 + 4)
        [] in
    if bus_ok then Ok (send_login self) else Raise SystemExit.

(** Lines 68 to 75 of [set_voltage_and_current]: the setpoints are stored,
    voltage and current clamped, the over-voltage protection as given. *)
Definition store_setpoints (self : EltekFlatpack)
    (volts amps ovp : option F64.float) : EltekFlatpack :=
  let v := match volts with
           | Some x => F64.max MIN_VOLTAGE (F64.min x MAX_VOLTAGE)
           | None => target_voltage self
           end in
  let c := match amps with
           | Some x => F64.max F64.zero (F64.min x MAX_CURRENT)
           | None => target_current self
           end in
  let o := match ovp with
           | Some x => x
           | None => ovp_voltage self
           end in
  with_setpoints self v c o.

(** Lines 77 to 88: the control frame built from the stored setpoints. *)
Definition control_frame (self : EltekFlatpack) : result Message :=
  scaled_current <- F64.to_int (F64.mul (target_current self) (F64.of_int 10)) ;;
  scaled_voltage <- F64.to_int (F64.mul (target_voltage self) (F64.of_int 100)) ;;
  scaled_ovp <- F64.to_int (F64.mul (ovp_voltage self) (F64.of_int 100)) ;;
  data <- bytes_of_ints
            [ Z.land scaled_current 0xFF; Z.land (Z.shiftr scaled_current 8) 0xFF;
              Z.land scaled_voltage 0xFF; Z.land (Z.shiftr scaled_voltage 8) 0xFF;
              Z.land scaled_voltage 0xFF; Z.land (Z.shiftr scaled_voltage 8) 0xFF;
              Z.land scaled_ovp 0xFF; Z.land (Z.shiftr scaled_ovp 8) 0xFF ] ;;
  Ok (mkMessage (control_id self) data true).

Definition set_voltage_and_current (self : EltekFlatpack)
    (volts amps ovp : option F64.float) : method unit :=
  let self := store_setpoints self volts amps ovp in
  match control_frame self with
  | Ok msg => (bus_send self msg, Ok tt)
  | Raise e => (self, Raise e)
  end.

(** The frame of [set_default_voltage] (lines 94 to 98). *)
Definition default_voltage_frame (self : EltekFlatpack) (volts : F64.float)
  : result Message :=
  let volts := F64.max MIN_VOLTAGE (F64.min volts MAX_VOLTAGE) in
  centivolts <- F64.to_int (F64.mul volts (F64.of_int 100)) ;;
  tail <- to_bytes2_little centivolts ;;
  let default_id :=
    Z.lor (Z.lor 0x05000000 (Z.shiftl (unit_id self) 16)) 0x9C00 in
  Ok (mkMessage default_id ([x29; x15; x00] ++ tail) true).

Definition set_default_voltage (self : EltekFlatpack) (volts : F64.float)
  : method unit :=
  match default_voltage_frame self volts with
  | Ok msg => (bus_send self msg, Ok tt)
  | Raise e => (self, Raise e)
  end.

(** Lines 109 to 120 of [read_status]: the decoding of the payload of a
    status frame, the bytes read in the order the source reads them. *)
Definition decode_status (d : list byte) : result Status :=
  temp <- index d 0 ;;
  d2 <- index d 2 ;;
  d1 <- index d 1 ;;
  let current := F64.mul (F64.of_int (d2 * 256 + d1)) (F64.lit 1 10) in
  d4 <- index d 4 ;;
  d3 <- index d 3 ;;
  let voltage := F64.mul (F64.of_int (d4 * 256 + d3)) (F64.lit 1 100) in
  let power := F64.mul voltage current in
  input_v <- index d 5 ;;
  d6 <- index d 6 ;;
  d7 <- index d 7 ;;
  let flags := Z.lor d6 (Z.shiftl d7 8) in
  Ok (mkStatus temp current voltage power input_v
        (negb (Z.land flags 0x01 =? 0))
        (negb (Z.land flags 0x02 =? 0))
        (negb (Z.land flags 0x04 =? 0))).

(** [read_status]: [rx] lists what the successive calls of
    [self.bus.recv(timeout=0.1)] return before the deadline, [None] for a
    call that timed out.  The first frame with a status identifier is
    decoded and ends the loop; with no such frame the result is [None]. *)
Fixpoint read_status (self : EltekFlatpack) (rx : list (option Message))
  : result (option Status) :=
  match rx with
  | [] => Ok None
  | Some msg :: rest =>
      if (arbitration_id msg =? status_id1 self)
         || (arbitration_id msg =? status_id2 self)
      then (st <- decode_status (data msg) ;; Ok (Some st))
      else read_status self rest
  | None :: rest => read_status self rest
  end.

(** The instance built by [EltekFlatpack(unit_id=1)] with the default
    serial number, after its initial login frame was sent. *)
Definition unit1 : EltekFlatpack :=
  mkEltek 1 (F64.of_int 48) (F64.of_int 40) (F64.lit 595 10) default_login
    0x05004804 0x05FF4004 0x05014004 0x05014008
    [mkMessage 0x05004804 default_login true].

(** ** Vocabulary of the properties *)

(** The payload 25, 0, 100, 0x88, 0x13, 230, 0x07, 0x00. *)
Definition sample_payload : list byte :=
  [x19; x00; x64; x88; x13; xe6; x07; x00].

(** A 6-byte status payload, on the primary status identifier of unit 1. *)
Definition short_frame : Message :=
  mkMessage 0x05014004 [x19; x00; x64; x88; x13; xe6] true.

(** The decimal values of the successive pairs of characters. *)
Fixpoint pair_values (l : list ascii) : list Z :=
  match l with
  | a :: b :: t => (10 * Str.digit_value a + Str.digit_value b) :: pair_values t
  | _ => []
  end.

(** A serial number of exactly twelve decimal digits. *)
Definition twelve_digits (serial : string) : Prop :=
  String.length serial = 12%nat /\
  forallb Str.is_digit (Str.to_list serial) = true.

(** The credential stored for the serial number 134372105069 when it is
    passed explicitly. *)
Definition explicit_login : list byte :=
  [x0d; x2b; x48; x0a; x32; x45; x00; x00].

(** The positive finite float of mantissa [m] and exponent [e], of value
    [m * 2^e]. *)
Definition fin (m : positive) (e : Z) : F64.float := S754_finite false m e.

(** [max(lo, min(x, hi))], the clamping expression of the source. *)
Definition clamp (lo hi x : F64.float) : F64.float :=
  F64.max lo (F64.min x hi).

(** The record on which [shr] starts for an exact mantissa. *)
Definition shr_start (M : Z) : shr_record := Build_shr_record M false false.

(** The mantissa [M] shifted right by [p] bits and rounded to nearest,
    ties to even, as [binary_round_aux] computes it. *)
Definition rnd (M : Z) (p : positive) : Z :=
  let r := iter_pos shr_1 p (shr_start M) in
  round_nearest_even (shr_m r) (loc_of_shr_record r).

(** What [binary_round_aux] builds from the rounded mantissa [R] at
    exponent [e]: a zero, the float itself, or, when the rounding carried
    into a 54th bit, the power of two one exponent higher. *)
Definition pack (R e : Z) : F64.float :=
  if R =? 0 then S754_zero false
  else if R =? 2 ^ 53 then S754_finite false 4503599627370496 (e + 1)
  else S754_finite false (Z.to_pos R) e.

(** A bit as an integer. *)
Definition b2z (b : bool) : Z := if b then 1 else 0.

(** After [k] right shifts of [M]: twice [M] splits into the kept
    mantissa, the round bit and a remainder [u], the sticky bit telling
    whether the remainder is not zero. *)
Definition shr_inv (M : Z) (k : nat) (r : shr_record) : Prop :=
  0 <= shr_m r /\
  exists u,
    0 <= u < 2 ^ Z.of_nat k /\
    (shr_s r = true <-> 0 < u) /\
    2 * M = (2 * shr_m r + b2z (shr_r r)) * 2 ^ Z.of_nat k + u.

(** The decoding expressions of [read_status] on a 16-bit field. *)
Definition amps_of (n : Z) : F64.float :=
  F64.mul (F64.of_int n) (F64.lit 1 10).

(** [(d[4]*256 + d[3]) * 0.01] for the field [n = d[4]*256 + d[3]]; [amps_of]
    above is [(d[2]*256 + d[1]) * 0.1]. *)
Definition volts_of (n : Z) : F64.float :=
  F64.mul (F64.of_int n) (F64.lit 1 100).

(** The check that the decoded value of the field [s] lies in the bracket
    that [s] leaves for the encoded value. *)
Definition current_close (s : Z) : bool :=
  let D := F64.to_Q (amps_of s) in
  Qle_bool (inject_Z s - inject_Z s * (1 # 18014398509481984))
           (inject_Z 10 * D)
  && Qle_bool (inject_Z 10 * D) (inject_Z s + 1 - (1 # 17592186044416)).

(** The same check for a voltage field, whose encoded values all have the
    exponent of the binade [32, 64). *)
Definition voltage_close (s : Z) : bool :=
  let D := F64.to_Q (volts_of s) in
  Qle_bool (inject_Z s - (1 # 2199023255552)) (inject_Z 100 * D)
  && Qle_bool (inject_Z 100 * D) (inject_Z s + 1 - (1 # 2199023255552)).

(** The integers [lo], ..., [lo + n - 1]. *)
Definition int_range (lo n : nat) : list Z := map Z.of_nat (seq lo n).

(** A byte as the [int] that indexing a [bytes] object returns. *)
Definition byte_int (b : byte) : Z := Z.of_N (Byte.to_N b).

(** Setpoints as the driver holds them: the voltage and the current
    within their bounds, and an over-voltage protection value whose
    hundredfold is a finite number. *)
Definition setpoints_ok (self : EltekFlatpack) : Prop :=
  F64.leb MIN_VOLTAGE (target_voltage self) = true /\
  F64.leb (target_voltage self) MAX_VOLTAGE = true /\
  F64.valid (target_current self) = true /\
  F64.leb F64.zero (target_current self) = true /\
  F64.leb (target_current self) MAX_CURRENT = true /\
  F64.is_finite (F64.mul (ovp_voltage self) (F64.of_int 100)) = true.

(** ** The rest of the program: [monitor] and [main] *)

(** The identifier that [set_default_voltage] computes (line 97). *)
Definition default_id (self : EltekFlatpack) : Z :=
  Z.lor (Z.lor 0x05000000 (Z.shiftl (unit_id self) 16)) 0x9C00.

(** [x - y] on floats, as in [time.time() - last_login]. *)
Definition fsub (x y : F64.float) : F64.float := SFsub F64.prec F64.emax x y.

(** The truth value of a float, as in [if duration] or [if args.voltage]:
    false for the two zeros only (NaN is true). *)
Definition truthy (x : F64.float) : bool := negb (F64.eqb x F64.zero).

(** The truth value of an optional float: [None] is false. *)
Definition given (x : option F64.float) : bool :=
  match x with
  | Some v => truthy v
  | None => false
  end.

(** One iteration of the loop of [monitor], seen from outside: the clock
    read on line 129, the clock read on line 131 (used only when a login
    frame is sent), what [recv] returns during [read_status], and the clock
    read on line 136 (used only when a duration is given). *)
Record Tick : Type := mkTick {
  now_check : F64.float;
  now_login : F64.float;
  received : list (option Message);
  now_end : F64.float
}.

(** How the loop of [monitor] ends without an error: the duration has
    elapsed ([break]), or Ctrl+C was pressed (KeyboardInterrupt, caught on
    line 137). *)
Inductive LoopEnd : Type :=
| Elapsed
| Interrupted.

(** The loop of [monitor] (lines 128 to 136).  [ticks] lists the complete
    iterations that run before KeyboardInterrupt is raised: when they are
    used up, the loop is interrupted.  An exception of [read_status] is not
    caught and ends the loop. *)
Fixpoint monitor_loop (self : EltekFlatpack) (duration : option F64.float)
    (start last_login : F64.float) (ticks : list Tick)
  : EltekFlatpack * result LoopEnd :=
  match ticks with
  | [] => (self, Ok Interrupted)
  | t :: rest =>
      let due := F64.gtb (fsub (now_check t) last_login) (F64.of_int 10) in
      let self := if due then send_login self else self in
      let last_login := if due then now_login t else last_login in
      match read_status self (received t) with
      | Raise e => (self, Raise e)
      | Ok status =>
          if match duration with
             | Some d => truthy d && F64.gtb (fsub (now_end t) start) d
             | None => false
             end
          then (self, Ok Elapsed)
          else monitor_loop self duration start last_login rest
      end
  end.

(** [monitor]: [start] and [last_login] are the two clock readings of
    lines 125 and 126. *)
Definition monitor (self : EltekFlatpack) (duration : option F64.float)
    (start last_login : F64.float) (ticks : list Tick)
  : EltekFlatpack * result LoopEnd :=
  monitor_loop self duration start last_login ticks.

(** The arguments of the command line after [parse_args]: [--serial],
    [--unit-id], [--voltage], [--current], [--ovp], [--default-voltage] and
    [--monitor]; an option that was not passed is [None]. *)
Record Args : Type := mkArgs {
  arg_serial : option string;
  arg_unit_id : Z;
  arg_voltage : option F64.float;
  arg_current : option F64.float;
  arg_ovp : option F64.float;
  arg_default_voltage : option F64.float;
  arg_monitor : bool
}.

(** What a run of [main] leaves behind: the instance, if it was
    constructed, whether [close] shut the bus down, and the exception that
    ended the run, if any. *)
Record Run : Type := mkRun {
  run_fp : option EltekFlatpack;
  bus_closed : bool;
  run_raised : option exn
}.

(** Sequencing of two method calls: an exception skips the second. *)
Definition and_then {A B : Type} (m : EltekFlatpack * result A)
    (k : EltekFlatpack -> EltekFlatpack * result B)
  : EltekFlatpack * result B :=
  match m with
  | (self, Ok _) => k self
  | (self, Raise e) => (self, Raise e)
  end.

(** The body of the [try] block of [main] (lines 161 to 173). *)
Definition main_body (args : Args) (fp : EltekFlatpack)
    (start last_login : F64.float) (ticks : list Tick)
    (rx : list (option Message)) : EltekFlatpack * result unit :=
  and_then
    (if given (arg_voltage args) || given (arg_current args)
        || given (arg_ovp args)
     then set_voltage_and_current fp (arg_voltage args) (arg_current args)
            (arg_ovp args)
     else (fp, Ok tt))
    (fun fp =>
       and_then
         (match arg_default_voltage args with
          | Some v => if truthy v then set_default_voltage fp v
                      else (fp, Ok tt)
          | None => (fp, Ok tt)
          end)
         (fun fp =>
            if arg_monitor args then
              and_then (monitor fp None start last_login ticks)
                       (fun fp => (fp, Ok tt))
            else
              (fp, status <- read_status fp rx ;; Ok tt))).

(** [main] after [parse_args].  [bus_ok], the clock readings, [ticks] and
    [rx] are what the outside world supplies: whether the channel opens,
    the iterations of [monitor], and the frames received by the single
    [read_status] of a run without [--monitor].  The [finally] clause
    closes the bus however the [try] block ends; an exception of the
    constructor is raised before the [try] block is entered. *)
Definition main (args : Args) (bus_ok : bool) (start last_login : F64.float)
    (ticks : list Tick) (rx : list (option Message)) : Run :=
  match init bus_ok (arg_unit_id args) (arg_serial args) with
  | Raise e => mkRun None false (Some e)
  | Ok fp =>
      let r := main_body args fp start last_login ticks rx in
      mkRun (Some (fst r)) true
        match snd r with
        | Ok _ => None
        | Raise e => Some e
        end
  end.

(** ** More vocabulary *)

(** The instance built by [EltekFlatpack(unit_id=2)] with the default
    serial number. *)
Definition unit2 : EltekFlatpack :=
  mkEltek 2 (F64.of_int 48) (F64.of_int 40) (F64.lit 595 10) default_login
    0x05004808 0x05FF4008 0x05014008 0x0501400C
    [mkMessage 0x05004808 default_login true].

(** The identifiers a unit address gives rise to, checked by evaluation:
    they are below [2^29] and pairwise different. *)
Definition ids_distinct (u : Z) : bool :=
  let l := LOGIN_ID_BASE + u * 4 in
  let c := CONTROL_ID_BASE + u * 4 in
  let s1 := STATUS_ID_BASE + u * 4 in
  let s2 := STATUS_ID_BASE + u * 4 + 4 in
  let d := Z.lor (Z.lor 0x05000000 (Z.shiftl u 16)) 0x9C00 in
  forallb (fun x => (0 <=? x) && (x <? 2 ^ 29)) [l; c; s1; s2; d]
  && negb (l =? c) && negb (l =? s1) && negb (l =? s2) && negb (l =? d)
  && negb (c =? s1) && negb (c =? s2) && negb (c =? d)
  && negb (s1 =? s2) && negb (s1 =? d) && negb (s2 =? d).

(** A received item that [read_status] passes over: a timeout, or a frame
    whose identifier is not one of the two status identifiers. *)
Definition skipped (self : EltekFlatpack) (r : option Message) : bool :=
  match r with
  | None => true
  | Some msg =>
      negb ((arbitration_id msg =? status_id1 self)
            || (arbitration_id msg =? status_id2 self))
  end.

(** The flags as [read_status] computes them from bytes 6 and 7, compared
    with bits 0, 1 and 2 of byte 6 alone. *)
Definition flags_from_byte6 (x y : Z) : bool :=
  let flags := Z.lor x (Z.shiftl y 8) in
  Bool.eqb (negb (Z.land flags 0x01 =? 0)) (Z.testbit x 0)
  && Bool.eqb (negb (Z.land flags 0x02 =? 0)) (Z.testbit x 1)
  && Bool.eqb (negb (Z.land flags 0x04 =? 0)) (Z.testbit x 2).

(** The test of line 129 in the iteration [q], for a last login at
    [last_login]: more than 10 seconds have passed. *)
Definition login_due (last_login : F64.float) (q : Tick) : bool :=
  F64.gtb (fsub (now_check q) last_login) (F64.of_int 10).

(** The test of line 136 in the iteration [q]. *)
Definition elapsed (duration : option F64.float) (start : F64.float)
    (q : Tick) : bool :=
  match duration with
  | Some d => truthy d && F64.gtb (fsub (now_end q) start) d
  | None => false
  end.

(** An iteration after which the loop goes on: the status is read without
    an exception and the duration has not elapsed. *)
Definition goes_on (self : EltekFlatpack) (duration : option F64.float)
    (start : F64.float) (q : Tick) : Prop :=
  (exists st, read_status self (received q) = Ok st) /\
  elapsed duration start q = false.

(** An iteration that sends nothing and after which the loop goes on. *)
Definition quiet_tick (self : EltekFlatpack) (duration : option F64.float)
    (start last_login : F64.float) (q : Tick) : Prop :=
  login_due last_login q = false /\ goes_on self duration start q.

(** Whole seconds as clock readings, and an iteration that receives
    nothing, its three clock readings one second apart. *)
Definition tick_at (seconds : Z) : Tick :=
  mkTick (F64.of_int seconds) (F64.of_int (seconds + 1)) []
    (F64.of_int (seconds + 2)).

(** [int()] of a string of two characters, in closed form: two digits; a
    digit with one whitespace character before or after it; a digit after
    a sign.  [None] stands for ValueError. *)
Definition int_of_pair (a b : ascii) : option Z :=
  if Str.is_digit a then
    if Str.is_digit b then Some (10 * Str.digit_value a + Str.digit_value b)
    else if Str.is_space b then Some (Str.digit_value a)
    else None
  else if Str.is_digit b then
    if Str.is_space a then Some (Str.digit_value b)
    else if Ascii.eqb a "+" then Some (Str.digit_value b)
    else if Ascii.eqb a "-" then Some (- Str.digit_value b)
    else None
  else None.

(** The check that [Str.to_int] on the two characters is [int_of_pair]. *)
Definition pair_agrees (a b : ascii) : bool :=
  match Str.to_int (String a (String b EmptyString)), int_of_pair a b with
  | Ok n, Some k => n =? k
  | Raise ValueError, None => true
  | _, _ => false
  end.

(** The 256 characters of the 8-bit range. *)
Definition all_chars : list ascii := map ascii_of_nat (seq 0 256).

(** A pair of characters that [set_serial_number] turns into a byte:
    [int()] accepts it and the value is not negative. *)
Definition pair_byte (a b : ascii) : bool :=
  match int_of_pair a b with
  | Some n => 0 <=? n
  | None => false
  end.

(** The serial numbers that [set_serial_number] accepts: padded by
    [zfill], they have 12 characters, and each of the six pairs of
    characters becomes a byte. *)
Definition serial_accepted (serial : string) : bool :=
  match Str.to_list (Str.zfill 12 serial) with
  | [c0; c1; c2; c3; c4; c5; c6; c7; c8; c9; c10; c11] =>
      pair_byte c0 c1 && pair_byte c2 c3 && pair_byte c4 c5
      && pair_byte c6 c7 && pair_byte c8 c9 && pair_byte c10 c11
  | _ => false
  end.

(** The serial number argument of the constructor is in order: it is
    absent or empty, in which case the default credential is used, or it
    is a serial number that [set_serial_number] accepts. *)
Definition serial_argument_ok (serial : option string) : bool :=
  match serial with
  | Some s => (String.length s =? 0)%nat || serial_accepted s
  | None => true
  end.

(** * Properties *)

Lemma Ok_inj {A : Type} (a b : A) : Ok a = Ok b -> a = b.
Proof.
  intros H.
  exact (f_equal (fun r => match r with Ok x => x | Raise _ => a end) H).
Qed.

(** ** Construction and arbitration identifiers *)

Lemma init_unit1 : init true 1 None = Ok unit1.
Proof. reflexivity. Qed.

(** Construction succeeds only for a unit address between 1 and 63. *)
Lemma init_range (bus_ok : bool) (u : Z) (serial : option string)
    (self : EltekFlatpack) :
  init bus_ok u serial = Ok self -> 1 <= u <= 63.
Proof.
  unfold init.
  destruct (u <? 1) eqn:H1; [discriminate|].
  destruct (u >? 63) eqn:H2; [discriminate|].
  intros _. apply Z.ltb_ge in H1. rewrite Z.gtb_ltb in H2.
  apply Z.ltb_ge in H2. lia.
Qed.

(** Whatever the serial number and the bus, a constructed instance carries
    the identifiers computed from its unit address. *)
Lemma init_ids (bus_ok : bool) (u : Z) (serial : option string)
    (self : EltekFlatpack) :
  init bus_ok u serial = Ok self ->
  unit_id self = u /\
  login_id self = LOGIN_ID_BASE + u * 4 /\
  control_id self = CONTROL_ID_BASE + u * 4 /\
  status_id1 self = STATUS_ID_BASE + u * 4 /\
  status_id2 self = STATUS_ID_BASE + u * 4 + 4.
Proof.
  unfold init.
  destruct ((u <? 1) || (u >? 63)); [discriminate|].
  destruct (match serial with
            | Some s => if (String.length s =? 0)%nat then Ok default_login
                        else serial_login_bytes s
            | None => Ok default_login
            end) as [b|e]; cbn [bind]; [|discriminate].
  destruct bus_ok; [|discriminate].
  intros H. apply Ok_inj in H. subst self. repeat split.
Qed.

(** With the default serial number and an open bus, construction succeeds
    for every such address. *)
Lemma init_default_ok (u : Z) :
  1 <= u <= 63 -> exists self, init true u None = Ok self.
Proof.
  intros Hu. unfold init.
  replace ((u <? 1) || (u >? 63)) with false.
  - cbn [bind]. eexists. reflexivity.
  - symmetry. apply orb_false_iff. split.
    + apply Z.ltb_ge. lia.
    + rewrite Z.gtb_ltb. apply Z.ltb_ge. lia.
Qed.

(** C1: for every unit address [u] in [1,63] construction succeeds (with
    the default serial number and an open bus) and every instance
    constructed for [u] has login_id = 0x05004800 + u*4,
    control_id = 0x05FF4000 + u*4, status_id1 = 0x05014000 + u*4 and
    status_id2 = status_id1 + 4. *)
Theorem arbitration_ids_of_unit (u : Z) :
  1 <= u <= 63 ->
  (exists self, init true u None = Ok self) /\
  forall bus_ok serial self,
    init bus_ok u serial = Ok self ->
    login_id self = 0x05004800 + u * 4 /\
    control_id self = 0x05FF4000 + u * 4 /\
    status_id1 self = 0x05014000 + u * 4 /\
    status_id2 self = status_id1 self + 4.
Proof.
  intros Hu. split; [apply init_default_ok; exact Hu|].
  intros bus_ok serial self H.
  destruct (init_ids _ _ _ _ H) as (_ & Hl & Hc & H1 & H2).
  rewrite Hl, Hc, H1, H2. repeat split.
Qed.

Lemma arbitration_ids_of_unit_witness :
  1 <= 1 <= 63 /\
  ((exists self, init true 1 None = Ok self) /\
   forall bus_ok serial self,
     init bus_ok 1 serial = Ok self ->
     login_id self = 0x05004800 + 1 * 4 /\
     control_id self = 0x05FF4000 + 1 * 4 /\
     status_id1 self = 0x05014000 + 1 * 4 /\
     status_id2 self = status_id1 self + 4).
Proof.
  split; [lia | apply (arbitration_ids_of_unit 1); lia].
Defined.

(** C7, as the specification states it, fails already for unit 1: the
    difference of the two identifiers is not 0x05FA3800. *)
Lemma id_offset_not_05FA3800 :
  init true 1 None = Ok unit1 /\
  control_id unit1 - login_id unit1 <> 0x05FA3800.
Proof. split; [reflexivity | vm_compute; discriminate]. Qed.

(** C7 (amended): for every unit address in [1,63] the difference
    control_id - login_id is the constant 0x00FEF800
    (= 0x05FF4000 - 0x05004800), independent of the unit address. *)
Theorem id_offset_constant (u : Z) :
  1 <= u <= 63 ->
  forall bus_ok serial self,
    init bus_ok u serial = Ok self ->
    control_id self - login_id self = 0x00FEF800.
Proof.
  intros _ bus_ok serial self H.
  destruct (init_ids _ _ _ _ H) as (_ & Hl & Hc & _).
  rewrite Hl, Hc. unfold CONTROL_ID_BASE, LOGIN_ID_BASE. lia.
Qed.

Lemma id_offset_constant_witness :
  1 <= 1 <= 63 /\
  forall bus_ok serial self,
    init bus_ok 1 serial = Ok self ->
    control_id self - login_id self = 0x00FEF800.
Proof.
  split; [lia | apply (id_offset_constant 1); lia].
Defined.

(** ** Status decoding *)

Lemma sample_payload_ints :
  map (fun b => Z.of_N (Byte.to_N b)) sample_payload =
  [25; 0; 100; 0x88; 0x13; 230; 0x07; 0x00].
Proof. reflexivity. Qed.

(** C3, as the specification states it, fails: no decoding of the sample
    payload has current 10.0 and a cleared error flag. *)
Lemma decode_sample_not_as_specified :
  ~ exists st,
      decode_status sample_payload = Ok st /\
      temperature st = 25 /\
      F64.eqb (current st) (F64.of_int 10) = true /\
      F64.eqb (voltage st) (F64.of_int 50) = true /\
      input_voltage st = 230 /\
      walk_in st = true /\ float_mode st = true /\ error st = false.
Proof.
  intros (st & Hd & _ & _ & _ & _ & _ & _ & He).
  vm_compute in Hd. apply Ok_inj in Hd. subst st. discriminate He.
Qed.

(** C3 (amended): decoding the payload [25,0,100,0x88,0x13,230,0x07,0x00]
    yields temperature 25, current 2560.0 (bytes 1 and 2 are 0 and 100, read
    little-endian as 25600 tenths of an amp), voltage 50.0, input voltage
    230, walk_in, float_mode and error all True (0x07 has bit 2 set), and
    power 128000.0. *)
Theorem decode_sample :
  decode_status sample_payload =
  Ok (mkStatus 25 (F64.of_int 2560) (F64.of_int 50) (F64.of_int 128000) 230
        true true true).
Proof. vm_compute. reflexivity. Qed.

(** A payload shorter than eight bytes cannot be decoded: one of the
    indexings [d[0]] ... [d[7]] raises. *)
Lemma decode_status_short (d : list byte) :
  (List.length d < 8)%nat -> decode_status d = Raise IndexError.
Proof.
  intros H.
  do 8 (destruct d as [|? d]; [reflexivity|]).
  cbn [List.length] in H. lia.
Qed.

(** C5, as the specification states it, fails: a short status frame is not
    skipped as a non-matching frame would be; [read_status] raises where
    skipping the frame would have returned [None]. *)
Lemma short_frame_not_ignored :
  arbitration_id short_frame = status_id1 unit1 /\
  List.length (data short_frame) = 6%nat /\
  read_status unit1 [] = Ok None /\
  read_status unit1 [Some short_frame] = Raise IndexError /\
  read_status unit1 [Some short_frame] <> read_status unit1 [].
Proof. repeat split. vm_compute. discriminate. Qed.

(** C5 (amended): for every status payload shorter than 8 bytes the
    decoding fails, with Python's IndexError, and the failure is not
    recovered: when such a frame arrives on a status identifier,
    [read_status] raises the IndexError to its caller, whatever frames would
    follow. *)
Theorem short_status_frame_raises (self : EltekFlatpack) (msg : Message)
    (before rest : list (option Message)) :
  (List.length (data msg) < 8)%nat ->
  arbitration_id msg = status_id1 self \/ arbitration_id msg = status_id2 self ->
  read_status self before = Ok None ->
  decode_status (data msg) = Raise IndexError /\
  read_status self (before ++ Some msg :: rest) = Raise IndexError.
Proof.
  intros Hlen Hid Hbefore.
  assert (Hd : decode_status (data msg) = Raise IndexError)
    by (apply decode_status_short; exact Hlen).
  split; [exact Hd|].
  induction before as [|[m|] before IH]; cbn [app read_status] in *.
  - replace ((arbitration_id msg =? status_id1 self)
             || (arbitration_id msg =? status_id2 self)) with true.
    + rewrite Hd. reflexivity.
    + symmetry. apply orb_true_iff.
      destruct Hid as [-> | ->]; [left | right]; apply Z.eqb_refl.
  - destruct ((arbitration_id m =? status_id1 self)
              || (arbitration_id m =? status_id2 self)).
    + destruct (decode_status (data m)); discriminate Hbefore.
    + apply IH. exact Hbefore.
  - apply IH. exact Hbefore.
Qed.

Lemma short_status_frame_raises_witness :
  (List.length (data short_frame) < 8)%nat /\
  (arbitration_id short_frame = status_id1 unit1 \/
   arbitration_id short_frame = status_id2 unit1) /\
  read_status unit1 [None] = Ok None /\
  decode_status (data short_frame) = Raise IndexError /\
  read_status unit1 ([None] ++ Some short_frame :: [None]) = Raise IndexError.
Proof.
  assert (H1 : (List.length (data short_frame) < 8)%nat) by (cbn; lia).
  assert (H2 : arbitration_id short_frame = status_id1 unit1 \/
               arbitration_id short_frame = status_id2 unit1)
    by (left; reflexivity).
  assert (H3 : read_status unit1 [None] = Ok None) by reflexivity.
  split; [exact H1|]. split; [exact H2|]. split; [exact H3|].
  exact (short_status_frame_raises unit1 short_frame [None] [None] H1 H2 H3).
Defined.

(** ** The login credential *)

Lemma of_to_list (s : string) : Str.of_list (Str.to_list s) = s.
Proof. induction s as [|c s IH]; cbn; [reflexivity | rewrite IH; reflexivity]. Qed.

Lemma to_of_list (l : list ascii) : Str.to_list (Str.of_list l) = l.
Proof. induction l as [|c l IH]; cbn; [reflexivity | rewrite IH; reflexivity]. Qed.

Lemma length_to_list (s : string) :
  List.length (Str.to_list s) = String.length s.
Proof. induction s as [|c s IH]; cbn; [reflexivity | rewrite IH; reflexivity]. Qed.

Lemma length_of_list (l : list ascii) :
  String.length (Str.of_list l) = List.length l.
Proof. rewrite <- length_to_list, to_of_list. reflexivity. Qed.

(** [zfill] returns a string that is long enough as it is. *)
Lemma zfill_long (width : nat) (s : string) :
  (width <= String.length s)%nat -> Str.zfill width s = s.
Proof.
  intros H. unfold Str.zfill. rewrite length_to_list.
  replace (width - String.length s)%nat with 0%nat by lia.
  cbn [repeat app].
  pose proof (of_to_list s) as E.
  destruct (Str.to_list s) as [|c t]; [exact E|].
  destruct (Str.is_sign c); exact E.
Qed.

(** What a decimal digit is not, and the range of its value. *)
Lemma digit_facts (c : ascii) :
  Str.is_digit c = true ->
  Str.is_space c = false /\ Str.is_sign c = false /\
  Ascii.eqb c "-" = false /\ Ascii.eqb c "+" = false /\
  0 <= Str.digit_value c <= 9.
Proof.
  destruct c as [[] [] [] [] [] [] [] []]; intros H;
    try discriminate H; vm_compute; repeat split; congruence.
Qed.

(** [zfill] on a string of digits pads with zeros on the left. *)
Lemma zfill_digits (width : nat) (s : string) :
  forallb Str.is_digit (Str.to_list s) = true ->
  Str.zfill width s =
  Str.of_list (repeat "0"%char (width - String.length s) ++ Str.to_list s).
Proof.
  intros H. unfold Str.zfill. rewrite length_to_list.
  destruct (Str.to_list s) as [|c t] eqn:E.
  - rewrite app_nil_r. reflexivity.
  - cbn [forallb] in H. apply andb_true_iff in H. destruct H as [Hc _].
    destruct (digit_facts c Hc) as (_ & -> & _). reflexivity.
Qed.

(** [int()] of two decimal digits is their decimal value. *)
Lemma to_int_two_digits (a b : ascii) :
  Str.is_digit a = true -> Str.is_digit b = true ->
  Str.to_int (String a (String b EmptyString)) =
  Ok (10 * Str.digit_value a + Str.digit_value b).
Proof.
  intros Ha Hb.
  destruct (digit_facts a Ha) as (Sa & _ & Ma & Pa & _).
  destruct (digit_facts b Hb) as (Sb & _ & _ & _ & _).
  unfold Str.to_int, Str.strip.
  cbn [Str.to_list Str.lstrip]. rewrite Sa.
  cbn [rev app Str.lstrip]. rewrite Sb.
  cbn [rev app]. rewrite Ma, Pa.
  cbn [Str.digits]. rewrite Ha. cbn [Str.digits]. rewrite Hb.
  cbn [Str.digits]. reflexivity.
Qed.

(** [bytes(...)] accepts every integer of [range(256)]. *)
Lemma byte_of_int_ok (z : Z) :
  0 <= z < 256 ->
  exists b, byte_of_int z = Ok b /\ Z.of_N (Byte.to_N b) = z.
Proof.
  intros Hz. unfold byte_of_int.
  replace ((0 <=? z) && (z <? 256)) with true
    by (symmetry; apply andb_true_iff; split;
        [apply Z.leb_le | apply Z.ltb_lt]; lia).
  destruct (Byte.of_N (Z.to_N z)) as [b|] eqn:E.
  - exists b. split; [reflexivity|].
    apply Byte.to_of_N in E. rewrite E. lia.
  - apply Byte.of_N_None_iff in E. lia.
Qed.

Lemma bytes_of_ints_ok (l : list Z) :
  Forall (fun z => 0 <= z < 256) l ->
  exists bs, bytes_of_ints l = Ok bs /\
             map (fun b => Z.of_N (Byte.to_N b)) bs = l.
Proof.
  induction 1 as [|z l Hz _ IH].
  - exists []. split; reflexivity.
  - destruct (byte_of_int_ok z Hz) as (b & Hb & Eb).
    destruct IH as (bs & Hbs & Ebs).
    exists (b :: bs). unfold bytes_of_ints in *. cbn [mapM].
    rewrite Hb. cbn [bind]. rewrite Hbs. cbn [bind].
    split; [reflexivity|]. cbn [map]. rewrite Eb, Ebs. reflexivity.
Qed.

(** Twelve digits are accepted as they are: each pair of digits becomes the
    byte of its decimal value, and two zero bytes follow. *)
Lemma login_bytes_of_12_digits (l : list ascii) :
  List.length l = 12%nat -> forallb Str.is_digit l = true ->
  Str.zfill 12 (Str.of_list l) = Str.of_list l ->
  exists bs,
    serial_login_bytes (Str.of_list l) = Ok bs /\
    map (fun b => Z.of_N (Byte.to_N b)) bs = pair_values l ++ [0; 0].
Proof.
  intros Hlen Hd Hz.
  do 12 (destruct l as [|? l]; [discriminate Hlen|]).
  destruct l; [|discriminate Hlen]. clear Hlen.
  unfold serial_login_bytes. rewrite Hz.
  cbn [forallb] in Hd.
  repeat (apply andb_true_iff in Hd; destruct Hd as [? Hd]).
  cbn [Str.of_list String.length Nat.eqb negb].
  cbn [mapM Str.slice Str.to_list skipn firstn Str.of_list].
  rewrite !to_int_two_digits by assumption.
  cbn [bind app pair_values].
  apply bytes_of_ints_ok.
  repeat match goal with
         | H : Str.is_digit ?c = true |- _ =>
             apply digit_facts in H; destruct H as (_ & _ & _ & _ & H)
         end.
  repeat constructor; lia.
Qed.

(** [set_serial_number] rejects every string of more than 12 characters
    and leaves the instance as it was. *)
Lemma set_serial_number_long (self : EltekFlatpack) (serial : string) :
  (12 < String.length serial)%nat ->
  set_serial_number self serial = (self, Raise ValueError).
Proof.
  intros H. unfold set_serial_number, serial_login_bytes.
  rewrite zfill_long by lia.
  replace (String.length serial =? 12)%nat with false
    by (symmetry; apply Nat.eqb_neq; lia).
  reflexivity.
Qed.

(** It accepts every string of at most 12 digits, read as if zeros had
    been written in front of it. *)
Lemma set_serial_number_digits (self : EltekFlatpack) (serial : string) :
  forallb Str.is_digit (Str.to_list serial) = true ->
  (String.length serial <= 12)%nat ->
  exists bs,
    set_serial_number self serial = (with_login self bs, Ok tt) /\
    login (fst (set_serial_number self serial)) = bs /\
    map (fun b => Z.of_N (Byte.to_N b)) bs =
    pair_values (repeat "0"%char (12 - String.length serial)
                 ++ Str.to_list serial) ++ [0; 0].
Proof.
  intros Hd Hlen.
  set (l := repeat "0"%char (12 - String.length serial) ++ Str.to_list serial).
  assert (Hl : List.length l = 12%nat).
  { unfold l. rewrite length_app, repeat_length, length_to_list. lia. }
  assert (Hdl : forallb Str.is_digit l = true).
  { unfold l. rewrite forallb_app, Hd, andb_true_r.
    apply forallb_forall. intros c Hc. apply repeat_spec in Hc.
    subst c. reflexivity. }
  assert (Hz : Str.zfill 12 serial = Str.of_list l)
    by (apply zfill_digits; exact Hd).
  assert (Hzl : Str.zfill 12 (Str.of_list l) = Str.of_list l)
    by (apply zfill_long; rewrite length_of_list; lia).
  destruct (login_bytes_of_12_digits l Hl Hdl Hzl) as (bs & Hbs & Ebs).
  assert (Hs : serial_login_bytes serial = Ok bs).
  { rewrite <- Hbs. unfold serial_login_bytes. rewrite Hz, Hzl. reflexivity. }
  exists bs. unfold set_serial_number. rewrite Hs.
  split; [reflexivity|]. split; [reflexivity | exact Ebs].
Qed.

(** C6, as the specification states it, fails: the serial "123" does not
    have 12 digits, yet it is accepted and the credential is replaced by
    the bytes of "000000000123". *)
Lemma short_serial_accepted :
  ~ twelve_digits "123"%string /\
  set_serial_number unit1 "123"%string =
  (with_login unit1 [x00; x00; x00; x00; x01; x17; x00; x00], Ok tt) /\
  login (fst (set_serial_number unit1 "123"%string)) <> login unit1.
Proof.
  split; [intros [H _]; discriminate H|].
  split; [reflexivity | vm_compute; discriminate].
Qed.

(** C6 (amended): [set_serial_number] pads the serial number on the left
    with zeros to 12 characters ([zfill]).  A serial of more than 12 digits
    fails with ValueError and leaves the stored credential unchanged; a
    serial of at most 12 digits is accepted, the credential being the six
    decimal pairs of the zero-padded serial followed by two zero bytes. *)
Theorem set_serial_number_length (self : EltekFlatpack) (serial : string) :
  forallb Str.is_digit (Str.to_list serial) = true ->
  ((12 < String.length serial)%nat ->
   set_serial_number self serial = (self, Raise ValueError)) /\
  ((String.length serial <= 12)%nat ->
   exists bs,
     set_serial_number self serial = (with_login self bs, Ok tt) /\
     login (fst (set_serial_number self serial)) = bs /\
     map (fun b => Z.of_N (Byte.to_N b)) bs =
     pair_values (repeat "0"%char (12 - String.length serial)
                  ++ Str.to_list serial) ++ [0; 0]).
Proof.
  intros Hd. split.
  - apply set_serial_number_long.
  - apply set_serial_number_digits. exact Hd.
Qed.

Lemma set_serial_number_length_witness :
  forallb Str.is_digit (Str.to_list "1234567890123"%string) = true /\
  ((12 < String.length "1234567890123"%string)%nat ->
   set_serial_number unit1 "1234567890123"%string = (unit1, Raise ValueError)) /\
  ((String.length "1234567890123"%string <= 12)%nat ->
   exists bs,
     set_serial_number unit1 "1234567890123"%string = (with_login unit1 bs, Ok tt) /\
     login (fst (set_serial_number unit1 "1234567890123"%string)) = bs /\
     map (fun b => Z.of_N (Byte.to_N b)) bs =
     pair_values (repeat "0"%char (12 - String.length "1234567890123"%string)
                  ++ Str.to_list "1234567890123"%string) ++ [0; 0]).
Proof.
  split; [reflexivity|].
  apply (set_serial_number_length unit1 "1234567890123"%string). reflexivity.
Defined.

Example serial_13_digits_rejected :
  set_serial_number unit1 "1234567890123"%string = (unit1, Raise ValueError).
Proof. reflexivity. Qed.

(** C10: [set_serial_number] turns each pair of decimal digits of a
    12-digit serial into the byte of its decimal value and appends two zero
    bytes, and stores these eight bytes as the credential of the instance:
    the call succeeds and [self.login] then holds them.  Hence the default
    serial 134372105069 passed explicitly stores
    0x0D,0x2B,0x48,0x0A,0x32,0x45,0x00,0x00, which differs from the built-in
    default credential 0x13,0x43,0x72,0x10,0x50,0x69,0x00,0x00 used when no
    serial is supplied. *)
Theorem serial_pairs_are_decimal (self : EltekFlatpack) (serial : string) :
  twelve_digits serial ->
  (exists bs,
     set_serial_number self serial = (with_login self bs, Ok tt) /\
     map (fun b => Z.of_N (Byte.to_N b)) bs =
     pair_values (Str.to_list serial) ++ [0; 0]) /\
  snd (set_serial_number self serial) = Ok tt /\
  map byte_int (login (fst (set_serial_number self serial))) =
  pair_values (Str.to_list serial) ++ [0; 0] /\
  set_serial_number self "134372105069"%string = (with_login self explicit_login, Ok tt) /\
  login (fst (set_serial_number self "134372105069"%string)) = explicit_login /\
  (exists fp, init true 1 (Some "134372105069"%string) = Ok fp /\
              login fp = explicit_login) /\
  (exists fp, init true 1 None = Ok fp /\ login fp = default_login) /\
  explicit_login <> default_login.
Proof.
  intros [Hlen Hd].
  destruct (set_serial_number_digits self serial Hd) as (bs & Hs & Hl & Ebs);
    [lia|].
  rewrite Hlen in Ebs. change (repeat "0"%char (12 - 12)) with (@nil ascii) in Ebs.
  cbn [app] in Ebs.
  split; [exists bs; split; [exact Hs | exact Ebs]|].
  split; [rewrite Hs; reflexivity|].
  split; [rewrite Hl; exact Ebs|].
  split; [reflexivity|]. split; [reflexivity|]. split.
  - eexists. split; [vm_compute; reflexivity | reflexivity].
  - split; [exists unit1; split; reflexivity | discriminate].
Qed.

Lemma serial_pairs_are_decimal_witness :
  twelve_digits "134372105069"%string /\
  (exists bs,
     set_serial_number unit1 "134372105069"%string = (with_login unit1 bs, Ok tt) /\
     map (fun b => Z.of_N (Byte.to_N b)) bs =
     pair_values (Str.to_list "134372105069"%string) ++ [0; 0]) /\
  snd (set_serial_number unit1 "134372105069"%string) = Ok tt /\
  map byte_int (login (fst (set_serial_number unit1 "134372105069"%string))) =
  pair_values (Str.to_list "134372105069"%string) ++ [0; 0] /\
  set_serial_number unit1 "134372105069"%string = (with_login unit1 explicit_login, Ok tt) /\
  login (fst (set_serial_number unit1 "134372105069"%string)) = explicit_login /\
  (exists fp, init true 1 (Some "134372105069"%string) = Ok fp /\
              login fp = explicit_login) /\
  (exists fp, init true 1 None = Ok fp /\ login fp = default_login) /\
  explicit_login <> default_login.
Proof.
  assert (H : twelve_digits "134372105069"%string) by (split; reflexivity).
  split; [exact H|].
  exact (serial_pairs_are_decimal unit1 "134372105069"%string H).
Defined.

(** ** Comparisons and clamping *)

Lemma ltb_fin (m1 m2 : positive) (e1 e2 : Z) :
  F64.ltb (fin m1 e1) (fin m2 e2) = true <->
  e1 < e2 \/ (e1 = e2 /\ Z.pos m1 < Z.pos m2).
Proof.
  unfold F64.ltb, SFltb, fin. cbn [SFcompare].
  rewrite Pos.compare_cont_spec. cbn [Pos.switch_Eq].
  destruct (Z.compare_spec e1 e2) as [He|He|He];
    [destruct (Pos.compare_spec m1 m2) as [Hm|Hm|Hm]| |];
    split; intros H; try discriminate H; try reflexivity; try lia.
Qed.

Lemma leb_fin (m1 m2 : positive) (e1 e2 : Z) :
  F64.leb (fin m1 e1) (fin m2 e2) = true <->
  e1 < e2 \/ (e1 = e2 /\ Z.pos m1 <= Z.pos m2).
Proof.
  unfold F64.leb, SFleb, fin. cbn [SFcompare].
  rewrite Pos.compare_cont_spec. cbn [Pos.switch_Eq].
  destruct (Z.compare_spec e1 e2) as [He|He|He];
    [destruct (Pos.compare_spec m1 m2) as [Hm|Hm|Hm]| |];
    split; intros H; try discriminate H; try reflexivity; try lia.
Qed.

Lemma ltb_fin_false (m1 m2 : positive) (e1 e2 : Z) :
  F64.ltb (fin m1 e1) (fin m2 e2) = false <->
  e2 < e1 \/ (e1 = e2 /\ Z.pos m2 <= Z.pos m1).
Proof.
  rewrite <- not_true_iff_false, ltb_fin. lia.
Qed.

Ltac fin_cmp :=
  repeat match goal with
         | H : F64.ltb (fin _ _) (fin _ _) = true |- _ => apply ltb_fin in H
         | H : F64.ltb (fin _ _) (fin _ _) = false |- _ =>
             apply ltb_fin_false in H
         | H : F64.leb (fin _ _) (fin _ _) = true |- _ => apply leb_fin in H
         end.

Section Clamp.

Variables (mlo mhi : positive) (e0 : Z).
Hypothesis lo_le_hi : Z.pos mlo <= Z.pos mhi.

Lemma max_lo_hi : F64.max (fin mlo e0) (fin mhi e0) = fin mhi e0.
Proof.
  unfold F64.max, F64.gtb.
  destruct (F64.ltb (fin mlo e0) (fin mhi e0)) eqn:E; [reflexivity|].
  apply ltb_fin_false in E.
  assert (mlo = mhi) by lia. subst. reflexivity.
Qed.

(** Clamping between two positive finite bounds of one binade: the result
    lies between the bounds, is the argument when the argument does, and is
    the nearer bound otherwise (the lower bound for NaN). *)
Lemma clamp_fin (x : F64.float) :
  let t := clamp (fin mlo e0) (fin mhi e0) x in
  (exists m, t = fin m e0 /\ Z.pos mlo <= Z.pos m <= Z.pos mhi) /\
  (F64.leb (fin mlo e0) x = true -> F64.leb x (fin mhi e0) = true -> t = x) /\
  (F64.ltb x (fin mlo e0) = true -> t = fin mlo e0) /\
  (F64.ltb (fin mhi e0) x = true -> t = fin mhi e0) /\
  (x = S754_nan -> t = fin mlo e0).
Proof.
  assert (Hlo : exists m, fin mlo e0 = fin m e0 /\ Z.pos mlo <= Z.pos m <= Z.pos mhi)
    by (exists mlo; split; [reflexivity | lia]).
  assert (Hhi : exists m, fin mhi e0 = fin m e0 /\ Z.pos mlo <= Z.pos m <= Z.pos mhi)
    by (exists mhi; split; [reflexivity | lia]).
  destruct x as [s|s| |s m e].
  - (* a zero lies below the bounds *)
    change (clamp (fin mlo e0) (fin mhi e0) (S754_zero s)) with (fin mlo e0).
    cbv zeta. repeat split; try discriminate; try reflexivity. exact Hlo.
  - destruct s.
    + change (clamp (fin mlo e0) (fin mhi e0) (S754_infinity true))
        with (fin mlo e0).
      cbv zeta. repeat split; try discriminate; try reflexivity. exact Hlo.
    + change (clamp (fin mlo e0) (fin mhi e0) (S754_infinity false))
        with (F64.max (fin mlo e0) (fin mhi e0)).
      rewrite max_lo_hi.
      cbv zeta. repeat split; try discriminate; try reflexivity. exact Hhi.
  - change (clamp (fin mlo e0) (fin mhi e0) S754_nan) with (fin mlo e0).
    cbv zeta. repeat split; try discriminate; try reflexivity. exact Hlo.
  - destruct s.
    + change (clamp (fin mlo e0) (fin mhi e0) (S754_finite true m e))
        with (fin mlo e0).
      cbv zeta. repeat split; try discriminate; try reflexivity. exact Hlo.
    + change (S754_finite false m e) with (fin m e).
      destruct (F64.ltb (fin mhi e0) (fin m e)) eqn:E1.
      * assert (Ht : clamp (fin mlo e0) (fin mhi e0) (fin m e) = fin mhi e0)
          by (unfold clamp, F64.min; rewrite E1; apply max_lo_hi).
        rewrite Ht.
        cbv zeta. repeat split; try exact Hhi; intros; fin_cmp;
          try reflexivity; try discriminate; lia.
      * destruct (F64.ltb (fin mlo e0) (fin m e)) eqn:E2.
        -- assert (Ht : clamp (fin mlo e0) (fin mhi e0) (fin m e) = fin m e)
             by (unfold clamp, F64.min; rewrite E1; unfold F64.max, F64.gtb;
                 rewrite E2; reflexivity).
           rewrite Ht.
           cbv zeta. repeat split; intros; fin_cmp;
             try reflexivity; try discriminate; try lia.
           exists m. split; [f_equal|]; lia.
        -- assert (Ht : clamp (fin mlo e0) (fin mhi e0) (fin m e) = fin mlo e0)
             by (unfold clamp, F64.min; rewrite E1; unfold F64.max, F64.gtb;
                 rewrite E2; reflexivity).
           rewrite Ht.
           cbv zeta. repeat split; try exact Hlo; intros; fin_cmp;
             try reflexivity; try discriminate; try lia.
           assert (e = e0 /\ m = mlo) as [-> ->] by lia. reflexivity.
Qed.

End Clamp.

(** Clamping between zero and a positive finite bound. *)
Lemma clamp_zero (mhi : positive) (e0 : Z) (x : F64.float) :
  let t := clamp F64.zero (fin mhi e0) x in
  (t = F64.zero \/
   exists m e, t = fin m e /\ (e < e0 \/ (e = e0 /\ Z.pos m <= Z.pos mhi))) /\
  (t = F64.zero \/ t = fin mhi e0 \/ t = x) /\
  (F64.leb F64.zero x = true -> F64.leb x (fin mhi e0) = true ->
   t = x \/ (F64.eqb x F64.zero = true /\ t = F64.zero)) /\
  (F64.ltb x F64.zero = true -> t = F64.zero) /\
  (F64.ltb (fin mhi e0) x = true -> t = fin mhi e0) /\
  (x = S754_nan -> t = F64.zero).
Proof.
  assert (Hhi : exists m e, fin mhi e0 = fin m e /\
                            (e < e0 \/ (e = e0 /\ Z.pos m <= Z.pos mhi))).
  { exists mhi, e0. split; [reflexivity|]. right. split; [reflexivity | lia]. }
  destruct x as [s|s| |s m e].
  - change (clamp F64.zero (fin mhi e0) (S754_zero s)) with F64.zero.
    cbv zeta. repeat split; try discriminate; try reflexivity;
      try (left; reflexivity).
    intros _ _. right. split; [destruct s|]; reflexivity.
  - destruct s.
    + change (clamp F64.zero (fin mhi e0) (S754_infinity true)) with F64.zero.
      cbv zeta. repeat split; try discriminate; try reflexivity;
        left; reflexivity.
    + change (clamp F64.zero (fin mhi e0) (S754_infinity false))
        with (fin mhi e0).
      cbv zeta. repeat split; try discriminate; try reflexivity.
      * right. exact Hhi.
      * right. left. reflexivity.
  - change (clamp F64.zero (fin mhi e0) S754_nan) with F64.zero.
    cbv zeta. repeat split; try discriminate; try reflexivity;
      left; reflexivity.
  - destruct s.
    + change (clamp F64.zero (fin mhi e0) (S754_finite true m e)) with F64.zero.
      cbv zeta. repeat split; try discriminate; try reflexivity;
        left; reflexivity.
    + change (S754_finite false m e) with (fin m e).
      destruct (F64.ltb (fin mhi e0) (fin m e)) eqn:E1.
      * assert (Ht : clamp F64.zero (fin mhi e0) (fin m e) = fin mhi e0)
          by (unfold clamp, F64.min; rewrite E1; reflexivity).
        rewrite Ht.
        cbv zeta. repeat split; intros; fin_cmp;
          try reflexivity; try discriminate; try lia.
        -- right. exact Hhi.
        -- right. left. reflexivity.
      * assert (Ht : clamp F64.zero (fin mhi e0) (fin m e) = fin m e)
          by (unfold clamp, F64.min; rewrite E1; reflexivity).
        rewrite Ht.
        cbv zeta. repeat split; intros; fin_cmp;
          try reflexivity; try discriminate; try lia.
        -- right. exists m, e. split; [reflexivity | lia].
        -- right. right. reflexivity.
        -- left. reflexivity.
Qed.

(** The literals of the class as binary64 numbers: 43.5 is
    [0x1.5c00000000000p+5], 57.4 is [0x1.cb33333333333p+5], 41.7 is
    [0x1.4d9999999999ap+5]; the integers 100 and 10 are exact. *)
Lemma MIN_VOLTAGE_eq : MIN_VOLTAGE = fin 6122080743456768 (-47).
Proof. vm_compute. reflexivity. Qed.

Lemma MAX_VOLTAGE_eq : MAX_VOLTAGE = fin 8078331831595827 (-47).
Proof. vm_compute. reflexivity. Qed.

Lemma MAX_CURRENT_eq : MAX_CURRENT = fin 5868753264417178 (-47).
Proof. vm_compute. reflexivity. Qed.

Lemma hundred_eq : F64.of_int 100 = fin 7036874417766400 (-46).
Proof. vm_compute. reflexivity. Qed.

Lemma ten_eq : F64.of_int 10 = fin 5629499534213120 (-49).
Proof. vm_compute. reflexivity. Qed.

(** The setpoints after [set_voltage_and_current] are those stored by its
    first lines, whether or not the frame could then be built. *)
Lemma setpoints_after_call (self : EltekFlatpack)
    (volts amps ovp : option F64.float) :
  let self' := fst (set_voltage_and_current self volts amps ovp) in
  let stored := store_setpoints self volts amps ovp in
  target_voltage self' = target_voltage stored /\
  target_current self' = target_current stored /\
  ovp_voltage self' = ovp_voltage stored.
Proof.
  unfold set_voltage_and_current.
  destruct (control_frame (store_setpoints self volts amps ovp));
    repeat split.
Qed.

Lemma stored_voltage (self : EltekFlatpack) (x : F64.float)
    (amps ovp : option F64.float) :
  target_voltage (fst (set_voltage_and_current self (Some x) amps ovp)) =
  clamp MIN_VOLTAGE MAX_VOLTAGE x.
Proof.
  destruct (setpoints_after_call self (Some x) amps ovp) as (-> & _).
  reflexivity.
Qed.

Lemma stored_current (self : EltekFlatpack) (x : F64.float)
    (volts ovp : option F64.float) :
  target_current (fst (set_voltage_and_current self volts (Some x) ovp)) =
  clamp F64.zero MAX_CURRENT x.
Proof.
  destruct (setpoints_after_call self volts (Some x) ovp) as (_ & -> & _).
  reflexivity.
Qed.

Lemma stored_ovp (self : EltekFlatpack) (x : F64.float)
    (volts amps : option F64.float) :
  ovp_voltage (fst (set_voltage_and_current self volts amps (Some x))) = x.
Proof.
  destruct (setpoints_after_call self volts amps (Some x)) as (_ & _ & ->).
  reflexivity.
Qed.

(** C4: every call of [set_voltage_and_current] stores a supplied voltage
    clamped into [43.5, 57.4] (100 is stored as 57.4, 0 as 43.5), a supplied
    current clamped into [0, 41.7] (-5 is stored as 0, 999 as 41.7), and a
    supplied over-voltage protection value exactly as given. *)
Theorem setpoints_clamped (self : EltekFlatpack) (x : F64.float)
    (volts amps ovp : option F64.float) :
  let tv := target_voltage (fst (set_voltage_and_current self (Some x) amps ovp)) in
  let tc := target_current (fst (set_voltage_and_current self volts (Some x) ovp)) in
  let to := ovp_voltage (fst (set_voltage_and_current self volts amps (Some x))) in
  (F64.leb MIN_VOLTAGE tv = true /\ F64.leb tv MAX_VOLTAGE = true /\
   (F64.leb MIN_VOLTAGE x = true -> F64.leb x MAX_VOLTAGE = true -> tv = x) /\
   (F64.ltb x MIN_VOLTAGE = true -> tv = MIN_VOLTAGE) /\
   (F64.ltb MAX_VOLTAGE x = true -> tv = MAX_VOLTAGE)) /\
  (F64.leb F64.zero tc = true /\ F64.leb tc MAX_CURRENT = true /\
   (F64.leb F64.zero x = true -> F64.leb x MAX_CURRENT = true ->
    tc = x \/ (F64.eqb x F64.zero = true /\ tc = F64.zero)) /\
   (F64.ltb x F64.zero = true -> tc = F64.zero) /\
   (F64.ltb MAX_CURRENT x = true -> tc = MAX_CURRENT)) /\
  to = x /\
  target_voltage (fst (set_voltage_and_current self (Some (F64.of_int 100)) amps ovp))
    = F64.lit 574 10 /\
  target_voltage (fst (set_voltage_and_current self (Some (F64.of_int 0)) amps ovp))
    = F64.lit 435 10 /\
  target_current (fst (set_voltage_and_current self volts (Some (F64.of_int (-5))) ovp))
    = F64.zero /\
  target_current (fst (set_voltage_and_current self volts (Some (F64.of_int 999)) ovp))
    = F64.lit 417 10.
Proof.
  cbv zeta. rewrite !stored_voltage, !stored_current, stored_ovp.
  split; [|split; [|split; [reflexivity|]]].
  - rewrite MIN_VOLTAGE_eq, MAX_VOLTAGE_eq.
    destruct (clamp_fin 6122080743456768 8078331831595827 (-47)
                ltac:(lia) x) as ((m & Hm & Hb) & Hin & Hlt & Hgt & _).
    rewrite Hm at 1 2.
    split; [apply leb_fin; lia|].
    split; [apply leb_fin; lia|].
    split; [exact Hin|]. split; [exact Hlt | exact Hgt].
  - rewrite MAX_CURRENT_eq.
    destruct (clamp_zero 5868753264417178 (-47) x)
      as (Hs & _ & Hin & Hlt & Hgt & _).
    split; [destruct Hs as [-> | (m & e & -> & _)]; reflexivity|].
    split.
    { destruct Hs as [-> | (m & e & -> & Hb)]; [reflexivity|].
      apply leb_fin. lia. }
    split; [exact Hin|]. split; [exact Hlt | exact Hgt].
  - split; [vm_compute; reflexivity|].
    split; [vm_compute; reflexivity|].
    split; vm_compute; reflexivity.
Qed.

(** ** Rounding to nearest: the product of two positive floats *)

Lemma iter_pos_nat {A : Type} (f : A -> A) (p : positive) (x : A) :
  iter_pos f p x = Nat.iter (Pos.to_nat p) f x.
Proof.
  revert x. induction p as [p IH|p IH|]; intros x; cbn [iter_pos].
  - rewrite !IH, Pos2Nat.inj_xI, <- Nat.iter_add, Nat.iter_swap.
    replace (Pos.to_nat p + Pos.to_nat p)%nat with (2 * Pos.to_nat p)%nat by lia.
    reflexivity.
  - rewrite !IH, Pos2Nat.inj_xO, <- Nat.iter_add.
    replace (Pos.to_nat p + Pos.to_nat p)%nat with (2 * Pos.to_nat p)%nat by lia.
    reflexivity.
  - reflexivity.
Qed.

(** One right shift: the lowest bit becomes the round bit, and the former
    round bit joins the sticky bit. *)
Lemma shr_1_spec (m : Z) (r s : bool) :
  0 <= m ->
  let r' := shr_1 (Build_shr_record m r s) in
  0 <= shr_m r' /\ m = 2 * shr_m r' + b2z (shr_r r') /\
  shr_s r' = (r || s)%bool.
Proof.
  intros Hm. destruct m as [|[p|p|]|p]; cbn; try lia; repeat split; lia.
Qed.

Lemma shr_inv_start (M : Z) : 0 <= M -> shr_inv M 0 (shr_start M).
Proof.
  intros HM. split; [exact HM|]. exists 0. cbn.
  repeat split; try lia; try discriminate.
Qed.

Lemma shr_inv_step (M : Z) (k : nat) (r : shr_record) :
  shr_inv M k r -> shr_inv M (S k) (shr_1 r).
Proof.
  destruct r as [m rb sb]. intros (Hm & u & Hu & Hs & HM).
  cbn [shr_m shr_r shr_s] in *.
  destruct (shr_1_spec m rb sb Hm) as (Hm' & Em & Es).
  split; [exact Hm'|].
  exists (b2z rb * 2 ^ Z.of_nat k + u).
  rewrite Nat2Z.inj_succ, Z.pow_succ_r by lia.
  rewrite Es. split; [|split].
  - destruct rb; cbn [b2z]; lia.
  - split.
    + intros H. apply orb_true_iff in H. destruct H as [-> | H].
      * cbn [b2z]. lia.
      * apply Hs in H. destruct rb; cbn [b2z]; lia.
    + intros H. apply orb_true_iff. destruct rb; [left; reflexivity|].
      right. apply Hs. cbn [b2z] in H. lia.
  - rewrite HM. rewrite Em at 1. ring.
Qed.

Lemma shr_inv_iter (M : Z) (p : positive) :
  0 <= M -> shr_inv M (Pos.to_nat p) (iter_pos shr_1 p (shr_start M)).
Proof.
  intros HM. rewrite iter_pos_nat.
  induction (Pos.to_nat p) as [|k IH].
  - apply shr_inv_start. exact HM.
  - cbn [Nat.iter]. apply shr_inv_step. exact IH.
Qed.

(** The rounded mantissa is within half a unit of the exact quotient. *)
Lemma rnd_spec (M : Z) (p : positive) :
  0 <= M ->
  0 <= rnd M p /\
  Z.abs (2 * M - 2 * rnd M p * 2 ^ Z.pos p) <= 2 ^ Z.pos p.
Proof.
  intros HM. unfold rnd.
  destruct (shr_inv_iter M p HM) as (Hm & u & Hu & Hs & E).
  rewrite positive_nat_Z in *.
  destruct (iter_pos shr_1 p (shr_start M)) as [m rb sb].
  cbn [shr_m shr_r shr_s] in *.
  assert (HP : 0 < 2 ^ Z.pos p) by (apply Z.pow_pos_nonneg; lia).
  set (P := 2 ^ Z.pos p) in *.
  destruct rb, sb; cbn [loc_of_shr_record round_nearest_even b2z] in *.
  - assert (0 < u) by (apply Hs; reflexivity). split; [lia|]. nia.
  - assert (u = 0).
    { destruct (Z.eq_dec u 0) as [|N]; [assumption|].
      assert (H : false = true) by (apply Hs; lia). discriminate H. }
    subst u. destruct (Z.even m); split; try lia; nia.
  - assert (0 < u) by (apply Hs; reflexivity). split; [lia|]. nia.
  - assert (u = 0).
    { destruct (Z.eq_dec u 0) as [|N]; [assumption|].
      assert (H : false = true) by (apply Hs; lia). discriminate H. }
    subst u. split; [lia|]. nia.
Qed.

(** The exponent that binary64 gives to a number of magnitude [2^e]:
    53 bits of mantissa, and no exponent below -1074. *)
Lemma fexp_eq (e : Z) :
  fexp F64.prec F64.emax e = Z.max (e - 53) (-1074).
Proof. reflexivity. Qed.

Lemma digits2_size (p : positive) : digits2_pos p = Pos.size p.
Proof. induction p as [p IH|p IH|]; cbn; [rewrite IH..|]; reflexivity. Qed.

(** The number of binary digits of a positive integer. *)
Lemma Zdigits2_log2 (p : positive) :
  Zdigits2 (Z.pos p) = Z.log2 (Z.pos p) + 1.
Proof.
  cbn [Zdigits2]. rewrite digits2_size.
  destruct p; cbn [Pos.size Z.log2]; lia.
Qed.

Lemma Zdigits2_bounds (p : positive) :
  2 ^ (Zdigits2 (Z.pos p) - 1) <= Z.pos p < 2 ^ Zdigits2 (Z.pos p).
Proof.
  rewrite Zdigits2_log2.
  replace (Z.log2 (Z.pos p) + 1 - 1) with (Z.log2 (Z.pos p)) by lia.
  apply Z.log2_spec. lia.
Qed.

Lemma Zdigits2_unique (p : positive) (d : Z) :
  0 < d -> 2 ^ (d - 1) <= Z.pos p < 2 ^ d -> Zdigits2 (Z.pos p) = d.
Proof.
  intros Hd H. rewrite Zdigits2_log2.
  rewrite (Z.log2_unique (Z.pos p) (d - 1)); [lia | lia |].
  replace (Z.succ (d - 1)) with d by lia. exact H.
Qed.

Lemma Zdigits2_le (p : positive) (d : Z) :
  0 <= d -> Z.pos p < 2 ^ d -> Zdigits2 (Z.pos p) <= d.
Proof.
  intros Hd H. rewrite Zdigits2_log2.
  apply Z.log2_lt_pow2 in H; lia.
Qed.

(** No shift happens when the amount is not positive. *)
Lemma shr_nonpos (r : shr_record) (e n : Z) : n <= 0 -> shr r e n = (r, e).
Proof. destruct n; [reflexivity | lia | reflexivity]. Qed.

(** [binary_round_aux] on an exact positive mantissa that has bits to
    lose: the mantissa is shifted to the exponent [fexp] asks for and
    rounded there. *)
Lemma binary_round_aux_shift (M p : positive) (E e' : Z) :
  e' = fexp F64.prec F64.emax (Zdigits2 (Z.pos M) + E) ->
  e' - E = Z.pos p ->
  e' < 971 ->
  rnd (Z.pos M) p <= 2 ^ 53 /\
  binary_round_aux F64.prec F64.emax false (Z.pos M) E loc_Exact =
  pack (rnd (Z.pos M) p) e'.
Proof.
  intros He' Hp Hmax.
  destruct (rnd_spec (Z.pos M) p ltac:(lia)) as (HR0 & HR).
  pose proof (Zdigits2_bounds M) as HM.
  rewrite fexp_eq in He'.
  assert (HP : 0 < 2 ^ Z.pos p) by (apply Z.pow_pos_nonneg; lia).
  assert (Hle : rnd (Z.pos M) p <= 2 ^ 53).
  { assert (Hd : Zdigits2 (Z.pos M) <= Z.pos p + 53) by lia.
    assert (HM' : Z.pos M < 2 ^ Z.pos p * 2 ^ 53).
    { rewrite <- Z.pow_add_r by lia.
      apply Z.lt_le_trans with (1 := proj2 HM).
      apply Z.pow_le_mono_r; lia. }
    set (P := 2 ^ Z.pos p) in *. set (R := rnd (Z.pos M) p) in *.
    change (2 ^ 53) with 9007199254740992 in *. nia. }
  split; [exact Hle|].
  unfold binary_round_aux, shr_fexp at 1.
  rewrite fexp_eq, <- He', Hp.
  cbn [shr shr_record_of_loc]. fold (shr_start (Z.pos M)).
  change (round_nearest_even
            (shr_m (iter_pos shr_1 p (shr_start (Z.pos M))))
            (loc_of_shr_record (iter_pos shr_1 p (shr_start (Z.pos M)))))
    with (rnd (Z.pos M) p).
  replace (E + Z.pos p) with e' by lia.
  set (R := rnd (Z.pos M) p) in *.
  unfold shr_fexp, pack. rewrite fexp_eq. cbn [shr_record_of_loc].
  destruct (Z.eqb_spec R 0) as [R0|R0].
  - rewrite R0. cbn [Zdigits2]. rewrite shr_nonpos by lia. reflexivity.
  - destruct (Z.eqb_spec R (2 ^ 53)) as [R53|R53].
    + rewrite R53. change (Zdigits2 (2 ^ 53)) with 54.
      replace (Z.max (54 + e' - 53) (-1074) - e') with 1 by lia.
      cbn [shr iter_pos]. change (shr_1 (Build_shr_record (2 ^ 53) false false))
        with (Build_shr_record 4503599627370496 false false).
      cbn [shr_m].
      replace (e' + 1 <=? F64.emax - F64.prec) with true; [reflexivity|].
      symmetry. apply Z.leb_le. change (F64.emax - F64.prec) with 971. lia.
    + destruct R as [|q|q]; [lia | | lia].
      assert (Hq : Zdigits2 (Z.pos q) <= 53)
        by (apply Zdigits2_le; [lia|]; change (2 ^ 53) with 9007199254740992 in *; lia).
      rewrite shr_nonpos by lia. cbn [shr_m Z.to_pos].
      replace (e' <=? F64.emax - F64.prec) with true; [reflexivity|].
      symmetry. apply Z.leb_le. change (F64.emax - F64.prec) with 971. lia.
Qed.

(** [int()] of the rounded product: the floor of its value. *)
Lemma to_int_pack (R e : Z) :
  0 <= R <= 2 ^ 53 -> e < 0 ->
  F64.to_int (pack R e) = Ok (R / 2 ^ (- e)).
Proof.
  intros HR He. unfold pack.
  destruct (Z.eqb_spec R 0) as [R0|R0].
  - rewrite R0. reflexivity.
  - destruct (Z.eqb_spec R (2 ^ 53)) as [R53|R53].
    + cbn [F64.to_int cond_Zopp]. rewrite R53. f_equal.
      destruct (Z.leb_spec 0 (e + 1)) as [H|H].
      * replace e with (-1) by lia. reflexivity.
      * replace (2 ^ (- e)) with (2 * 2 ^ (- (e + 1))).
        -- change (2 ^ 53) with (2 * 4503599627370496).
           rewrite Z.div_mul_cancel_l; [reflexivity | | lia].
           apply Z.pow_nonzero; lia.
        -- rewrite <- Z.pow_succ_r by lia. f_equal. lia.
    + destruct R as [|q|q]; [lia | | lia].
      cbn [F64.to_int cond_Zopp Z.to_pos].
      replace (0 <=? e) with false by (symmetry; apply Z.leb_gt; lia).
      reflexivity.
Qed.

(** The product of two positive floats is [binary_round_aux] on the
    product of the mantissas. *)
Lemma mul_fin (m mk : positive) (e ek : Z) :
  F64.mul (fin m e) (fin mk ek) =
  binary_round_aux F64.prec F64.emax false (Z.pos (m * mk)) (e + ek) loc_Exact.
Proof. reflexivity. Qed.

(** The integer that [int(x * k)] yields for positive floats [x] and [k]
    whose product loses bits: the floor of the rounded product, the
    rounded mantissa [R] being within half a unit of the exact one. *)
Lemma mul_to_int (m mk p : positive) (e ek e' : Z) :
  e' = fexp F64.prec F64.emax (Zdigits2 (Z.pos (m * mk)) + (e + ek)) ->
  e' - (e + ek) = Z.pos p ->
  e' < 0 ->
  exists R,
    0 <= R <= 2 ^ 53 /\
    Z.abs (2 * (Z.pos m * Z.pos mk) - 2 * R * 2 ^ Z.pos p) <= 2 ^ Z.pos p /\
    F64.to_int (F64.mul (fin m e) (fin mk ek)) = Ok (R / 2 ^ (- e')).
Proof.
  intros He' Hp Hneg.
  destruct (binary_round_aux_shift (m * mk) p (e + ek) e' He' Hp ltac:(lia))
    as (Hle & Hr).
  destruct (rnd_spec (Z.pos (m * mk)) p ltac:(lia)) as (H0 & Habs).
  exists (rnd (Z.pos (m * mk)) p).
  split; [lia|]. split.
  - rewrite <- Pos2Z.inj_mul. exact Habs.
  - rewrite mul_fin, Hr. apply to_int_pack; lia.
Qed.

(** Voltages between the bounds: [int(v * 100)] lies between 4350 and
    5740 and brackets [100 * v] up to the rounding of the product. *)
Lemma scaled_voltage_spec (m : positive) :
  6122080743456768 <= Z.pos m <= 8078331831595827 ->
  exists s,
    F64.to_int (F64.mul (fin m (-47)) (F64.of_int 100)) = Ok s /\
    4350 <= s <= 5740 /\
    s * 2 ^ 47 - 64 <= 100 * Z.pos m <= (s + 1) * 2 ^ 47 - 64.
Proof.
  intros Hm. rewrite hundred_eq.
  assert (Hd : Zdigits2 (Z.pos (m * 7036874417766400)) = 106).
  { apply Zdigits2_unique; [lia|]. rewrite Pos2Z.inj_mul.
    change (2 ^ (106 - 1)) with 40564819207303340847894502572032.
    change (2 ^ 106) with 81129638414606681695789005144064. lia. }
  destruct (mul_to_int m 7036874417766400 53 (-47) (-46) (-40))
    as (R & HR & Habs & Hint).
  - rewrite Hd. reflexivity.
  - reflexivity.
  - lia.
  - exists (R / 2 ^ (- -40)). split; [exact Hint|].
    change (2 ^ Z.pos 53) with 9007199254740992 in Habs.
    change (2 ^ (- -40)) with 1099511627776.
    change (2 ^ 47) with 140737488355328.
    pose proof (Z.mul_div_le R 1099511627776 ltac:(lia)) as H1.
    pose proof (Z.mul_succ_div_gt R 1099511627776 ltac:(lia)) as H2.
    set (s := R / 1099511627776) in *. lia.
Qed.

(** ** The default-voltage frame *)

Lemma land_255 (z : Z) : Z.land z 255 = z mod 256.
Proof. change 255 with (Z.ones 8). rewrite Z.land_ones by lia. reflexivity. Qed.

Lemma shiftr_8 (z : Z) : Z.shiftr z 8 = z / 256.
Proof. rewrite Z.shiftr_div_pow2 by lia. reflexivity. Qed.

(** The two bytes of [n.to_bytes(2, 'little')]. *)
Lemma to_bytes2_little_ok (n : Z) :
  0 <= n < 65536 ->
  exists lo hi,
    to_bytes2_little n = Ok [lo; hi] /\
    Z.of_N (Byte.to_N lo) = n mod 256 /\
    Z.of_N (Byte.to_N hi) = n / 256.
Proof.
  intros Hn. unfold to_bytes2_little.
  replace ((0 <=? n) && (n <? 65536)) with true
    by (symmetry; apply andb_true_iff; split;
        [apply Z.leb_le | apply Z.ltb_lt]; lia).
  rewrite shiftr_8, !land_255.
  assert (H1 : 0 <= n mod 256 < 256) by (apply Z.mod_pos_bound; lia).
  assert (H2 : 0 <= n / 256 < 256).
  { split; [apply Z.div_pos; lia|]. apply Z.div_lt_upper_bound; lia. }
  rewrite (Z.mod_small (n / 256)) by exact H2.
  destruct (byte_of_int_ok _ H1) as (lo & Hlo & Elo).
  destruct (byte_of_int_ok _ H2) as (hi & Hhi & Ehi).
  exists lo, hi. unfold bytes_of_ints. cbn [mapM].
  rewrite Hlo, Hhi. cbn [bind]. repeat split; assumption.
Qed.


Example default_voltage_48_5 :
  set_default_voltage unit1 (F64.lit 485 10) =
  (bus_send unit1 (mkMessage 0x05019C00 [x29; x15; x00; xf2; x12] true), Ok tt).
Proof. vm_compute. reflexivity. Qed.

(** ** Currents: the scaled integer for every exponent *)

(** A valid float has a canonical mantissa: at most 53 bits, all 53 unless
    the exponent is the smallest one. *)
Lemma valid_fin (m : positive) (e : Z) :
  F64.valid (fin m e) = true ->
  Z.max (Zdigits2 (Z.pos m) + e - 53) (-1074) = e.
Proof.
  unfold F64.valid, fin, valid_binary, bounded, canonical_mantissa.
  intros H. apply andb_true_iff in H. destruct H as [H _].
  apply Z.eqb_eq in H. rewrite fexp_eq in H. exact H.
Qed.

(** The digits of a product by a 53-bit mantissa. *)
Lemma Zdigits2_mul (m mk : positive) :
  2 ^ 52 <= Z.pos mk < 2 ^ 53 ->
  Zdigits2 (Z.pos m) + 52 <= Zdigits2 (Z.pos (m * mk))
  <= Zdigits2 (Z.pos m) + 53.
Proof.
  intros Hk.
  pose proof (Zdigits2_bounds m) as Hm.
  pose proof (Zdigits2_bounds (m * mk)) as HM.
  assert (Hdm : 1 <= Zdigits2 (Z.pos m))
    by (rewrite Zdigits2_log2; pose proof (Z.log2_nonneg (Z.pos m)); lia).
  assert (Hd : 1 <= Zdigits2 (Z.pos (m * mk)))
    by (rewrite Zdigits2_log2;
        pose proof (Z.log2_nonneg (Z.pos (m * mk))); lia).
  set (dm := Zdigits2 (Z.pos m)) in *.
  set (d := Zdigits2 (Z.pos (m * mk))) in *.
  rewrite Pos2Z.inj_mul in HM.
  split.
  - assert (H : 2 ^ (dm - 1 + 52) < 2 ^ d).
    { rewrite Z.pow_add_r by lia.
      apply Z.le_lt_trans with (Z.pos m * Z.pos mk); [|lia].
      apply Z.mul_le_mono_nonneg; try lia. }
    apply Z.pow_lt_mono_r_iff in H; lia.
  - assert (H : 2 ^ (d - 1) < 2 ^ (dm + 53)).
    { apply Z.le_lt_trans with (Z.pos m * Z.pos mk); [lia|].
      rewrite Z.pow_add_r by lia.
      apply Z.mul_lt_mono_nonneg; lia. }
    apply Z.pow_lt_mono_r_iff in H; lia.
Qed.

(** Currents between 0 and the bound: [int(i * 10)] lies between 0 and
    417, and brackets [10 * i] up to the rounding of the product.  [T] is
    the common denominator [2^(49 - e)] of the product and [P] the weight
    of one unit of the rounded mantissa. *)
Lemma scaled_current_spec (m : positive) (e : Z) :
  F64.valid (fin m e) = true ->
  e < -47 \/ (e = -47 /\ Z.pos m <= 5868753264417178) ->
  exists s T P,
    F64.to_int (F64.mul (fin m e) (F64.of_int 10)) = Ok s /\
    0 <= s <= 417 /\
    T = 2 ^ (49 - e) /\ 0 < P /\
    2 * (Z.pos m * 5629499534213120) <= 2 * (s + 1) * T - P /\
    2 * s * T - P <= 2 * (Z.pos m * 5629499534213120) /\
    s * T <= 2 ^ 53 * P /\
    2 ^ 43 * P <= T.
Proof.
  intros Hv Hr. apply valid_fin in Hv. rewrite ten_eq.
  pose proof (Zdigits2_mul m 5629499534213120 ltac:(split; [discriminate | reflexivity]))
    as Hd.
  pose proof (Zdigits2_bounds m) as Hm.
  set (dm := Zdigits2 (Z.pos m)) in *.
  set (d := Zdigits2 (Z.pos (m * 5629499534213120))) in *.
  set (e' := Z.max (d + (e + -49) - 53) (-1074)).
  assert (He1 : e + -49 < e') by (unfold e'; lia).
  assert (He2 : e' <= -43) by (unfold e'; lia).
  destruct (mul_to_int m 5629499534213120 (Z.to_pos (e' - (e + -49)))
              e (-49) e') as (R & HR & Habs & Hint).
  - rewrite fexp_eq. reflexivity.
  - rewrite Z2Pos.id; lia.
  - lia.
  - rewrite Z2Pos.id in Habs by lia.
    assert (HP : 0 < 2 ^ (e' - (e + -49))) by (apply Z.pow_pos_nonneg; lia).
    assert (HW : 0 < 2 ^ (- e')) by (apply Z.pow_pos_nonneg; lia).
    assert (HW43 : 2 ^ 43 <= 2 ^ (- e')) by (apply Z.pow_le_mono_r; lia).
    assert (HT : 2 ^ (49 - e) = 2 ^ (e' - (e + -49)) * 2 ^ (- e')).
    { rewrite <- Z.pow_add_r by lia. f_equal. lia. }
    pose proof (Z.mul_div_le R (2 ^ (- e')) HW) as H1.
    pose proof (Z.mul_succ_div_gt R (2 ^ (- e')) HW) as H2.
    assert (Hs0 : 0 <= R / 2 ^ (- e')) by (apply Z.div_pos; lia).
    set (s := R / 2 ^ (- e')) in *.
    set (P := 2 ^ (e' - (e + -49))) in *.
    set (W := 2 ^ (- e')) in *.
    set (M := Z.pos m * 5629499534213120) in *.
    change (2 ^ 53) with 9007199254740992 in *.
    change (2 ^ 43) with 8796093022208 in *.
    assert (F1 : 2 * M <= 2 * (s + 1) * (P * W) - P) by nia.
    assert (F3 : 2 * s * (P * W) - P <= 2 * M) by nia.
    assert (F2 : s * (P * W) <= 9007199254740992 * P) by nia.
    assert (F4 : 8796093022208 * P <= P * W) by nia.
    exists s, (2 ^ (49 - e)), P. rewrite HT.
    split; [exact Hint|].
    split; [|repeat split; assumption].
    split; [exact Hs0|].
    destruct (Z.le_gt_cases s 417) as [Hle|Hgt]; [exact Hle | exfalso].
    assert (G : 418 * (P * W) <= s * (P * W)) by nia.
    destruct Hr as [Hlt | [-> Hmc]].
    + assert (Hm53 : Z.pos m < 9007199254740992).
      { apply Z.lt_le_trans with (1 := proj2 Hm).
        change 9007199254740992 with (2 ^ 53).
        apply Z.pow_le_mono_r; lia. }
      assert (HT97 : 2 ^ 97 <= P * W).
      { rewrite <- HT. apply Z.pow_le_mono_r; lia. }
      change (2 ^ 97) with 158456325028528675187087900672 in HT97.
      unfold M in *. lia.
    + change (2 ^ (49 - -47)) with 79228162514264337593543950336 in HT.
      unfold M in *. lia.
Qed.

(** ** From the scaled integer back to the physical value *)

Local Open Scope Q_scope.

(** If [k * x] lies in the bracket that the scaled integer [s] leaves for
    it, and the decoded value [D] was checked against the same bracket,
    then [D] is within [1/k] of [x].  [t] is a common denominator, [p] the
    slack of the bracket, bounded by [a] and [b]. *)
Lemma close_enough (k x D s t p a b : Q) :
  0 < k -> 0 < t ->
  2 * (k * x * t) <= 2 * (s + 1) * t - p ->
  2 * s * t - p <= 2 * (k * x * t) ->
  2 * a * t <= p -> p <= 2 * b * t ->
  s - a <= k * D -> k * D <= s + 1 - b ->
  Qabs (D - x) <= 1 / k.
Proof.
  intros Hk Ht F1 F3 Fa Fb Ca Cb.
  apply Qabs_diff_Qle_condition.
  assert (Hu : (k * x) * t <= (k * D + 1) * t) by nra.
  assert (Hl : (k * D - 1) * t <= (k * x) * t) by nra.
  apply Qmult_le_r in Hu; [|exact Ht].
  apply Qmult_le_r in Hl; [|exact Ht].
  split.
  - apply Qmult_le_l with (z := k); [exact Hk|].
    setoid_replace (k * (D - 1 / k)) with (k * D - 1) by (field; lra).
    exact Hl.
  - apply Qmult_le_l with (z := k); [exact Hk|].
    setoid_replace (k * (D + 1 / k)) with (k * D + 1) by (field; lra).
    exact Hu.
Qed.

(** The same with the bracket stated over the integers. *)
Lemma close_enough_Z (k s T P N : Z) (x D a b : Q) :
  (0 < k)%Z -> (0 < T)%Z ->
  inject_Z k * x * inject_Z T == inject_Z N ->
  (2 * N <= 2 * (s + 1) * T - P)%Z ->
  (2 * s * T - P <= 2 * N)%Z ->
  2 * a * inject_Z T <= inject_Z P ->
  inject_Z P <= 2 * b * inject_Z T ->
  inject_Z s - a <= inject_Z k * D ->
  inject_Z k * D <= inject_Z s + 1 - b ->
  Qabs (D - x) <= 1 / inject_Z k.
Proof.
  intros Hk HT HN F1 F3 Fa Fb Ca Cb.
  rewrite Zlt_Qlt in Hk, HT.
  unfold Z.sub in F1, F3.
  rewrite Zle_Qle in F1, F3.
  repeat (rewrite inject_Z_plus in F1 || rewrite inject_Z_mult in F1
          || rewrite inject_Z_opp in F1).
  repeat (rewrite inject_Z_plus in F3 || rewrite inject_Z_mult in F3
          || rewrite inject_Z_opp in F3).
  change (inject_Z 2) with 2 in F1, F3.
  change (inject_Z 1) with 1 in F1.
  change (inject_Z 0) with 0 in Hk, HT.
  apply (close_enough (inject_Z k) x D (inject_Z s) (inject_Z T)
           (inject_Z P) a b); try assumption.
  - rewrite HN. nra.
  - rewrite HN. nra.
Qed.

Local Close Scope Q_scope.

Lemma in_int_range (lo n : nat) (s : Z) :
  Z.of_nat lo <= s < Z.of_nat lo + Z.of_nat n -> In s (int_range lo n).
Proof.
  intros H. unfold int_range. apply in_map_iff.
  exists (Z.to_nat s). split; [lia|]. apply in_seq. lia.
Qed.

(** The decoded value of every field that a clamped setpoint can be
    encoded to lies in its bracket: 418 current fields and 1391 voltage
    fields, each checked by evaluation. *)
Lemma current_close_all : forallb current_close (int_range 0 418) = true.
Proof. vm_compute. reflexivity. Qed.

Lemma voltage_close_all : forallb voltage_close (int_range 4350 1391) = true.
Proof. vm_compute. reflexivity. Qed.

(** The value of a float with a negative exponent, cleared of its
    denominator. *)
Lemma to_Q_fin (m : positive) (e : Z) :
  e < 0 ->
  (F64.to_Q (fin m e) * inject_Z (2 ^ (- e)) == inject_Z (Z.pos m))%Q.
Proof.
  intros He. unfold F64.to_Q, fin.
  replace (0 <=? e) with false by (symmetry; apply Z.leb_gt; lia).
  assert (HP : 0 < 2 ^ (- e)) by (apply Z.pow_pos_nonneg; lia).
  unfold Qeq, Qmult, inject_Z. cbn [cond_Zopp Qnum Qden].
  rewrite Pos.mul_1_r, Z2Pos.id by exact HP. ring.
Qed.

(** A voltage between the bounds, scaled to centivolts and decoded, is
    recovered within 0.01 V. *)
Lemma voltage_within (m : positive) (s : Z) :
  6122080743456768 <= Z.pos m <= 8078331831595827 ->
  F64.to_int (F64.mul (fin m (-47)) (F64.of_int 100)) = Ok s ->
  (Qabs (F64.to_Q (volts_of s) - F64.to_Q (fin m (-47))) <= 1 # 100)%Q.
Proof.
  intros Hm Hs.
  destruct (scaled_voltage_spec m Hm) as (s' & Hs' & Hr & Hb).
  rewrite Hs in Hs'. apply Ok_inj in Hs'. subst s'.
  assert (Hc : voltage_close s = true).
  { pose proof voltage_close_all as H.
    rewrite forallb_forall in H. apply H. apply in_int_range. lia. }
  unfold voltage_close in Hc. apply andb_true_iff in Hc.
  destruct Hc as [Ca Cb]. apply Qle_bool_iff in Ca, Cb.
  change (1 # 100)%Q with (1 / inject_Z 100)%Q.
  change (2 ^ 47) with 140737488355328 in Hb.
  apply (close_enough_Z 100 s 140737488355328 128 (100 * Z.pos m)
           (F64.to_Q (fin m (-47))) (F64.to_Q (volts_of s))
           (1 # 2199023255552) (1 # 2199023255552)); try assumption; try lia.
  - rewrite <- Qmult_assoc.
    rewrite (to_Q_fin m (-47) ltac:(lia)).
    rewrite inject_Z_mult. reflexivity.
  - vm_compute. discriminate.
  - vm_compute. discriminate.
Qed.

Ltac Z_to_Q H :=
  unfold Z.sub in H; rewrite Zle_Qle in H;
  repeat (rewrite inject_Z_plus in H || rewrite inject_Z_mult in H
          || rewrite inject_Z_opp in H).

(** A current between 0 and the bound, scaled to tenths of an amp and
    decoded, is recovered within 0.1 A. *)
Lemma current_within (m : positive) (e s : Z) :
  F64.valid (fin m e) = true ->
  e < -47 \/ (e = -47 /\ Z.pos m <= 5868753264417178) ->
  F64.to_int (F64.mul (fin m e) (F64.of_int 10)) = Ok s ->
  (Qabs (F64.to_Q (amps_of s) - F64.to_Q (fin m e)) <= 1 # 10)%Q.
Proof.
  intros Hv Hr Hs.
  destruct (scaled_current_spec m e Hv Hr)
    as (s' & T & P & Hs' & Hs417 & HT & HP & F1 & F3 & F2 & F4).
  rewrite Hs in Hs'. apply Ok_inj in Hs'. subst s'.
  assert (Hc : current_close s = true).
  { pose proof current_close_all as H.
    rewrite forallb_forall in H. apply H. apply in_int_range. lia. }
  unfold current_close in Hc. apply andb_true_iff in Hc.
  destruct Hc as [Ca Cb]. apply Qle_bool_iff in Ca, Cb.
  assert (He : e < 0) by lia.
  assert (HT' : T = 562949953421312 * 2 ^ (- e)).
  { rewrite HT. change 562949953421312 with (2 ^ 49).
    rewrite <- Z.pow_add_r by lia. reflexivity. }
  assert (HT0 : 0 < T) by (rewrite HT; apply Z.pow_pos_nonneg; lia).
  change (2 ^ 53) with 9007199254740992 in F2.
  change (2 ^ 43) with 8796093022208 in F4.
  change (1 # 10)%Q with (1 / inject_Z 10)%Q.
  apply (close_enough_Z 10 s T P (Z.pos m * 5629499534213120)
           (F64.to_Q (fin m e)) (F64.to_Q (amps_of s))
           (inject_Z s * (1 # 18014398509481984))%Q (1 # 17592186044416)%Q);
    try assumption; try lia.
  - rewrite HT', !inject_Z_mult.
    rewrite <- (to_Q_fin m e He).
    change (inject_Z 10) with (10 # 1)%Q.
    change (inject_Z 562949953421312) with (562949953421312 # 1)%Q.
    change (inject_Z 5629499534213120) with (5629499534213120 # 1)%Q.
    ring.
  - Z_to_Q F2.
    change (inject_Z 9007199254740992) with (9007199254740992 # 1)%Q in F2.
    nra.
  - Z_to_Q F4.
    change (inject_Z 8796093022208) with (8796093022208 # 1)%Q in F4.
    lra.
Qed.

(** ** The control frame *)

Lemma voltage_range_fin (v : F64.float) :
  F64.leb MIN_VOLTAGE v = true -> F64.leb v MAX_VOLTAGE = true ->
  exists m, v = fin m (-47) /\
            6122080743456768 <= Z.pos m <= 8078331831595827.
Proof.
  rewrite MIN_VOLTAGE_eq, MAX_VOLTAGE_eq.
  destruct v as [s|s| |s m e]; intros H1 H2; try discriminate H1.
  - destruct s; [discriminate H1 | discriminate H2].
  - destruct s; [discriminate H1|].
    change (S754_finite false m e) with (fin m e) in *.
    apply leb_fin in H1, H2.
    exists m. split; [f_equal|]; lia.
Qed.

(** A current between 0 and 41.7 is a zero or a positive float of the
    binade of 41.7 or below. *)
Lemma current_range_fin (i : F64.float) :
  F64.leb F64.zero i = true -> F64.leb i MAX_CURRENT = true ->
  (exists s, i = S754_zero s) \/
  (exists m e, i = fin m e /\
               (e < -47 \/ (e = -47 /\ Z.pos m <= 5868753264417178))).
Proof.
  rewrite MAX_CURRENT_eq.
  destruct i as [s|s| |s m e]; intros H1 H2; try discriminate H1.
  - left. exists s. reflexivity.
  - destruct s; [discriminate H1 | discriminate H2].
  - destruct s; [discriminate H1|].
    change (S754_finite false m e) with (fin m e) in *.
    apply leb_fin in H2. right. exists m, e. split; [reflexivity | lia].
Qed.

Lemma to_int_finite (x : F64.float) :
  F64.is_finite x = true -> exists z, F64.to_int x = Ok z.
Proof.
  destruct x; intros H; try discriminate H; eexists; reflexivity.
Qed.

Lemma scaled_current_range (i : F64.float) :
  F64.valid i = true ->
  F64.leb F64.zero i = true -> F64.leb i MAX_CURRENT = true ->
  exists sc, F64.to_int (F64.mul i (F64.of_int 10)) = Ok sc /\ 0 <= sc <= 417.
Proof.
  intros Hv H1 H2.
  destruct (current_range_fin i H1 H2) as [(s & ->) | (m & e & -> & Hr)].
  - exists 0. split; [rewrite ten_eq; reflexivity | lia].
  - destruct (scaled_current_spec m e Hv Hr) as (sc & _ & _ & Hs & Hr' & _).
    exists sc. split; assumption.
Qed.

(** The bytes of the control frame. *)
Lemma control_frame_bytes (self : EltekFlatpack) :
  setpoints_ok self ->
  exists sc sv so c0 c1 v0 v1 o0 o1,
    F64.to_int (F64.mul (target_current self) (F64.of_int 10)) = Ok sc /\
    F64.to_int (F64.mul (target_voltage self) (F64.of_int 100)) = Ok sv /\
    F64.to_int (F64.mul (ovp_voltage self) (F64.of_int 100)) = Ok so /\
    0 <= sc <= 417 /\ 4350 <= sv <= 5740 /\
    control_frame self =
    Ok (mkMessage (control_id self) [c0; c1; v0; v1; v0; v1; o0; o1] true) /\
    byte_int c0 = sc mod 256 /\ byte_int c1 = sc / 256 /\
    byte_int v0 = sv mod 256 /\ byte_int v1 = sv / 256 /\
    byte_int o0 = so mod 256 /\ byte_int o1 = (so / 256) mod 256.
Proof.
  intros (Hv1 & Hv2 & Hcv & Hc1 & Hc2 & Ho).
  destruct (voltage_range_fin _ Hv1 Hv2) as (m & Ev & Hm).
  destruct (scaled_voltage_spec m Hm) as (sv & Hsv & Hrv & _).
  rewrite <- Ev in Hsv.
  destruct (scaled_current_range _ Hcv Hc1 Hc2) as (sc & Hsc & Hrc).
  destruct (to_int_finite _ Ho) as (so & Hso).
  assert (B : forall z, 0 <= z mod 256 < 256)
    by (intros z; apply Z.mod_pos_bound; lia).
  assert (Bc : 0 <= sc / 256 < 256).
  { split; [apply Z.div_pos; lia | apply Z.div_lt_upper_bound; lia]. }
  assert (Bv : 0 <= sv / 256 < 256).
  { split; [apply Z.div_pos; lia | apply Z.div_lt_upper_bound; lia]. }
  destruct (byte_of_int_ok _ (B sc)) as (c0 & Hc0 & Ec0).
  destruct (byte_of_int_ok _ Bc) as (c1 & Hc1' & Ec1).
  destruct (byte_of_int_ok _ (B sv)) as (v0 & Hv0 & Ev0).
  destruct (byte_of_int_ok _ Bv) as (v1 & Hv1' & Ev1).
  destruct (byte_of_int_ok _ (B so)) as (o0 & Ho0 & Eo0).
  destruct (byte_of_int_ok _ (B (so / 256))) as (o1 & Ho1 & Eo1).
  exists sc, sv, so, c0, c1, v0, v1, o0, o1.
  split; [exact Hsc|]. split; [exact Hsv|]. split; [exact Hso|].
  split; [exact Hrc|]. split; [exact Hrv|].
  split; [|unfold byte_int; repeat split; assumption].
  unfold control_frame. rewrite Hsc, Hsv, Hso. cbn [bind].
  rewrite !shiftr_8. change 0xFF with 255. rewrite !land_255.
  rewrite (Z.mod_small (sc / 256)) by exact Bc.
  rewrite (Z.mod_small (sv / 256)) by exact Bv.
  unfold bytes_of_ints. cbn [mapM].
  rewrite Hc0, Hc1', Hv0, Hv1', Ho0, Ho1. reflexivity.
Qed.

(** A call that supplies no new value leaves the setpoints as they are. *)
Lemma store_nothing (self : EltekFlatpack) :
  store_setpoints self None None None = self.
Proof. destruct self. reflexivity. Qed.

(** C2, as the specification states it, fails for over-voltage protection
    values that the driver accepts: with NaN no frame is built at all
    ([int()] raises), and with 700.0 the scaled value 70000 does not fit
    bytes 6-7, which hold 0x70, 0x11, that is 4464. *)
Lemma ovp_not_always_encoded :
  set_voltage_and_current unit1 None None (Some S754_nan) =
  (with_setpoints unit1 (F64.of_int 48) (F64.of_int 40) S754_nan,
   Raise ValueError) /\
  F64.to_int (F64.mul (F64.of_int 700) (F64.of_int 100)) = Ok 70000 /\
  control_frame (store_setpoints unit1 None None (Some (F64.of_int 700))) =
  Ok (mkMessage 0x05FF4004 [x90; x01; xc0; x12; xc0; x12; x70; x11] true) /\
  byte_int x70 + 256 * byte_int x11 <> 70000.
Proof.
  split; [vm_compute; reflexivity|].
  split; [vm_compute; reflexivity|].
  split; [vm_compute; reflexivity|].
  vm_compute. discriminate.
Qed.

(** C2 (amended): for every current and voltage held as setpoints (within
    [0, 41.7] and [43.5, 57.4]) and every over-voltage protection value
    whose hundredfold is finite, the control frame has the arbitration
    identifier [control_id] and 8 data bytes: [int(i*10)], at most 417, as
    unsigned 16-bit little-endian in bytes 0-1; [int(v*100)], between 4350
    and 5740, as unsigned 16-bit little-endian in bytes 2-3 and again in
    bytes 4-5; and the low 16 bits of [int(o*100)], little-endian, in bytes
    6-7.  Calling [set_voltage_and_current] with no new value sends exactly
    this frame. *)
Theorem control_frame_payload (self : EltekFlatpack) :
  setpoints_ok self ->
  exists sc sv so payload,
    F64.to_int (F64.mul (target_current self) (F64.of_int 10)) = Ok sc /\
    F64.to_int (F64.mul (target_voltage self) (F64.of_int 100)) = Ok sv /\
    F64.to_int (F64.mul (ovp_voltage self) (F64.of_int 100)) = Ok so /\
    0 <= sc <= 417 /\ 4350 <= sv <= 5740 /\
    control_frame self = Ok (mkMessage (control_id self) payload true) /\
    set_voltage_and_current self None None None =
    (bus_send self (mkMessage (control_id self) payload true), Ok tt) /\
    map byte_int payload =
    [sc mod 256; sc / 256; sv mod 256; sv / 256; sv mod 256; sv / 256;
     so mod 256; (so / 256) mod 256] /\
    sc mod 256 + 256 * (sc / 256) = sc /\
    sv mod 256 + 256 * (sv / 256) = sv /\
    so mod 256 + 256 * ((so / 256) mod 256) = so mod 65536.
Proof.
  intros H.
  destruct (control_frame_bytes self H)
    as (sc & sv & so & c0 & c1 & v0 & v1 & o0 & o1 & Hsc & Hsv & Hso & Hrc
        & Hrv & Hf & E0 & E1 & E2 & E3 & E4 & E5).
  exists sc, sv, so, [c0; c1; v0; v1; v0; v1; o0; o1].
  split; [exact Hsc|]. split; [exact Hsv|]. split; [exact Hso|].
  split; [exact Hrc|]. split; [exact Hrv|]. split; [exact Hf|].
  split.
  { unfold set_voltage_and_current. rewrite store_nothing, Hf. reflexivity. }
  split.
  { cbn [map]. rewrite E0, E1, E2, E3, E4, E5. reflexivity. }
  split; [|split].
  - pose proof (Z.div_mod sc 256 ltac:(lia)). lia.
  - pose proof (Z.div_mod sv 256 ltac:(lia)). lia.
  - change 65536 with (256 * 256). rewrite Z.rem_mul_r by lia. lia.
Qed.

(** The setpoints of a new instance are within bounds. *)
Lemma unit1_setpoints_ok : setpoints_ok unit1.
Proof. repeat split. Qed.

Lemma control_frame_payload_witness :
  setpoints_ok unit1 /\
  exists sc sv so payload,
    F64.to_int (F64.mul (target_current unit1) (F64.of_int 10)) = Ok sc /\
    F64.to_int (F64.mul (target_voltage unit1) (F64.of_int 100)) = Ok sv /\
    F64.to_int (F64.mul (ovp_voltage unit1) (F64.of_int 100)) = Ok so /\
    0 <= sc <= 417 /\ 4350 <= sv <= 5740 /\
    control_frame unit1 = Ok (mkMessage (control_id unit1) payload true) /\
    set_voltage_and_current unit1 None None None =
    (bus_send unit1 (mkMessage (control_id unit1) payload true), Ok tt) /\
    map byte_int payload =
    [sc mod 256; sc / 256; sv mod 256; sv / 256; sv mod 256; sv / 256;
     so mod 256; (so / 256) mod 256] /\
    sc mod 256 + 256 * (sc / 256) = sc /\
    sv mod 256 + 256 * (sv / 256) = sv /\
    so mod 256 + 256 * ((so / 256) mod 256) = so mod 65536.
Proof.
  split; [exact unit1_setpoints_ok|].
  exact (control_frame_payload unit1 unit1_setpoints_ok).
Defined.

(** ** Encoding a setpoint and decoding it as a status field *)

(** The decoding of a payload of eight bytes. *)
Lemma decode_status_8 (b0 b1 b2 b3 b4 b5 b6 b7 : byte) :
  decode_status [b0; b1; b2; b3; b4; b5; b6; b7] =
  Ok (mkStatus (byte_int b0)
        (amps_of (byte_int b2 * 256 + byte_int b1))
        (volts_of (byte_int b4 * 256 + byte_int b3))
        (F64.mul (volts_of (byte_int b4 * 256 + byte_int b3))
                 (amps_of (byte_int b2 * 256 + byte_int b1)))
        (byte_int b5)
        (negb (Z.land (Z.lor (byte_int b6) (Z.shiftl (byte_int b7) 8)) 0x01 =? 0))
        (negb (Z.land (Z.lor (byte_int b6) (Z.shiftl (byte_int b7) 8)) 0x02 =? 0))
        (negb (Z.land (Z.lor (byte_int b6) (Z.shiftl (byte_int b7) 8)) 0x04 =? 0))).
Proof. reflexivity. Qed.

(** C8, as the specification states it, fails: [decode_status] reads the
    current from bytes 1-2 and the voltage from bytes 3-4, while the control
    frame carries them in bytes 0-1 and 2-3.  For the setpoints 48.0 V and
    40.0 A the control payload decodes to 491.7 V and 4915.3 A. *)
Lemma control_payload_misread :
  exists msg st,
    control_frame unit1 = Ok msg /\
    data msg = [x90; x01; xc0; x12; xc0; x12; x3e; x17] /\
    decode_status (data msg) = Ok st /\
    voltage st = F64.lit 4917 10 /\
    current st = F64.lit 49153 10 /\
    ~ (Qabs (F64.to_Q (voltage st) - F64.to_Q (target_voltage unit1))
       <= 1 # 100)%Q /\
    ~ (Qabs (F64.to_Q (current st) - F64.to_Q (target_current unit1))
       <= 1 # 10)%Q.
Proof.
  eexists. eexists.
  split; [vm_compute; reflexivity|].
  split; [reflexivity|].
  split; [vm_compute; reflexivity|].
  split; [vm_compute; reflexivity|].
  split; [vm_compute; reflexivity|].
  split; intros H; apply Qle_bool_iff in H; vm_compute in H; discriminate H.
Qed.

(** C8 (amended): for every voltage in [43.5, 57.4] and current in
    [0, 41.7] held as setpoints, the 16-bit fields that the control frame
    encodes (current in bytes 0-1, voltage in bytes 2-3), once placed where
    a status frame carries them (current in bytes 1-2, voltage in bytes
    3-4), are decoded by [decode_status] to a voltage within 0.01 V and a
    current within 0.1 A of the setpoints.  The control payload itself is
    not laid out as a status payload, so decoding it directly does not
    return the setpoints. *)
Theorem setpoint_fields_decode_close (self : EltekFlatpack)
    (temp input flags_lo flags_hi : byte) :
  setpoints_ok self ->
  exists c0 c1 v0 v1 o0 o1 st,
    control_frame self =
    Ok (mkMessage (control_id self) [c0; c1; v0; v1; v0; v1; o0; o1] true) /\
    decode_status [temp; c0; c1; v0; v1; input; flags_lo; flags_hi] = Ok st /\
    (Qabs (F64.to_Q (voltage st) - F64.to_Q (target_voltage self))
     <= 1 # 100)%Q /\
    (Qabs (F64.to_Q (current st) - F64.to_Q (target_current self))
     <= 1 # 10)%Q.
Proof.
  intros H.
  destruct (control_frame_bytes self H)
    as (sc & sv & so & c0 & c1 & v0 & v1 & o0 & o1 & Hsc & Hsv & Hso & Hrc
        & Hrv & Hf & E0 & E1 & E2 & E3 & _).
  destruct H as (Hv1 & Hv2 & Hcv & Hc1 & Hc2 & _).
  exists c0, c1, v0, v1, o0, o1. eexists.
  split; [exact Hf|]. split; [apply decode_status_8|].
  cbn [voltage current].
  rewrite E0, E1, E2, E3.
  replace (sv / 256 * 256 + sv mod 256) with sv
    by (pose proof (Z.div_mod sv 256 ltac:(lia)); lia).
  replace (sc / 256 * 256 + sc mod 256) with sc
    by (pose proof (Z.div_mod sc 256 ltac:(lia)); lia).
  split.
  - destruct (voltage_range_fin _ Hv1 Hv2) as (m & Ev & Hm).
    rewrite Ev in *. apply voltage_within; assumption.
  - destruct (current_range_fin _ Hc1 Hc2) as [(s & Ei) | (m & e & Ei & Hr)];
      rewrite Ei in *.
    + rewrite ten_eq in Hsc. apply Ok_inj in Hsc. subst sc.
      apply Qle_bool_iff. reflexivity.
    + apply current_within; assumption.
Qed.

Lemma setpoint_fields_decode_close_witness :
  setpoints_ok unit1 /\
  exists c0 c1 v0 v1 o0 o1 st,
    control_frame unit1 =
    Ok (mkMessage (control_id unit1) [c0; c1; v0; v1; v0; v1; o0; o1] true) /\
    decode_status [x19; c0; c1; v0; v1; xe6; x07; x00] = Ok st /\
    (Qabs (F64.to_Q (voltage st) - F64.to_Q (target_voltage unit1))
     <= 1 # 100)%Q /\
    (Qabs (F64.to_Q (current st) - F64.to_Q (target_current unit1))
     <= 1 # 10)%Q.
Proof.
  split; [exact unit1_setpoints_ok|].
  exact (setpoint_fields_decode_close unit1 x19 xe6 x07 x00 unit1_setpoints_ok).
Defined.

(** ** The setpoints the driver can hold *)

(** A new instance holds 48.0 V, 40.0 A and 59.5 V. *)
Lemma init_setpoints_ok (bus_ok : bool) (u : Z) (serial : option string)
    (self : EltekFlatpack) :
  init bus_ok u serial = Ok self -> setpoints_ok self.
Proof.
  unfold init.
  destruct ((u <? 1) || (u >? 63)); [discriminate|].
  destruct (match serial with
            | Some s => if (String.length s =? 0)%nat then Ok default_login
                        else serial_login_bytes s
            | None => Ok default_login
            end) as [b|e]; cbn [bind]; [|discriminate].
  destruct bus_ok; [|discriminate].
  intros H. apply Ok_inj in H. subst self. exact unit1_setpoints_ok.
Qed.

(** Storing new setpoints keeps them within bounds, provided the new
    current is a binary64 value and the hundredfold of the new
    over-voltage protection value is finite. *)
Lemma store_setpoints_ok (self : EltekFlatpack)
    (volts amps ovp : option F64.float) :
  setpoints_ok self ->
  (forall x, amps = Some x -> F64.valid x = true) ->
  (forall x, ovp = Some x ->
             F64.is_finite (F64.mul x (F64.of_int 100)) = true) ->
  setpoints_ok (store_setpoints self volts amps ovp).
Proof.
  intros (Hv1 & Hv2 & Hcv & Hc1 & Hc2 & Ho) Ha Hovp.
  unfold setpoints_ok, store_setpoints.
  cbn [with_setpoints target_voltage target_current ovp_voltage].
  assert (Gv :
    F64.leb MIN_VOLTAGE
      match volts with
      | Some x => F64.max MIN_VOLTAGE (F64.min x MAX_VOLTAGE)
      | None => target_voltage self
      end = true /\
    F64.leb
      match volts with
      | Some x => F64.max MIN_VOLTAGE (F64.min x MAX_VOLTAGE)
      | None => target_voltage self
      end MAX_VOLTAGE = true).
  { destruct volts as [x|]; [|split; assumption].
    change (F64.max MIN_VOLTAGE (F64.min x MAX_VOLTAGE))
      with (clamp MIN_VOLTAGE MAX_VOLTAGE x).
    rewrite MIN_VOLTAGE_eq, MAX_VOLTAGE_eq.
    destruct (clamp_fin 6122080743456768 8078331831595827 (-47)
                ltac:(lia) x) as ((m & -> & Hb) & _).
    split; apply leb_fin; lia. }
  assert (Gc :
    let c := match amps with
             | Some x => F64.max F64.zero (F64.min x MAX_CURRENT)
             | None => target_current self
             end in
    F64.valid c = true /\ F64.leb F64.zero c = true /\
    F64.leb c MAX_CURRENT = true).
  { destruct amps as [x|]; [|repeat split; assumption].
    change (F64.max F64.zero (F64.min x MAX_CURRENT))
      with (clamp F64.zero MAX_CURRENT x).
    specialize (Ha x eq_refl). cbv zeta.
    rewrite MAX_CURRENT_eq.
    destruct (clamp_zero 5868753264417178 (-47) x) as (Hs & Hw & _).
    split; [|split].
    - destruct Hw as [-> | [-> | ->]]; [reflexivity | reflexivity | exact Ha].
    - destruct Hs as [-> | (m & e & -> & _)]; reflexivity.
    - destruct Hs as [-> | (m & e & -> & Hb)]; [reflexivity|].
      apply leb_fin. lia. }
  cbv zeta in Gc.
  destruct Gv as (G1 & G2). destruct Gc as (G3 & G4 & G5).
  split; [exact G1|]. split; [exact G2|]. split; [exact G3|].
  split; [exact G4|]. split; [exact G5|].
  destruct ovp as [x|]; [apply Hovp; reflexivity | exact Ho].
Qed.

(** * Further properties *)

(** ** Construction *)

Lemma Some_inj {A : Type} (a b : A) : Some a = Some b -> a = b.
Proof.
  intros H. exact (f_equal (fun o => match o with Some x => x | None => a end) H).
Qed.

Lemma Raise_inj {A : Type} (e1 e2 : exn) :
  @Raise A e1 = Raise e2 -> e1 = e2.
Proof.
  intros H.
  exact (f_equal (fun r => match r with Raise e => e | Ok _ => e1 end) H).
Qed.

Lemma mapM_app {A B : Type} (f : A -> result B) (l1 l2 : list A)
    (r : list B) :
  mapM f (l1 ++ l2) = Ok r ->
  exists r1 r2, mapM f l1 = Ok r1 /\ mapM f l2 = Ok r2 /\ r = r1 ++ r2.
Proof.
  revert r. induction l1 as [|x l1 IH]; intros r H.
  - exists [], r. repeat split. exact H.
  - cbn [app mapM] in *. destruct (f x) as [y|e]; cbn [bind] in *; [|discriminate].
    destruct (mapM f (l1 ++ l2)) as [r'|e]; cbn [bind] in *; [|discriminate].
    apply Ok_inj in H. subst r.
    destruct (IH r' eq_refl) as (r1 & r2 & -> & H2 & ->).
    exists (y :: r1), r2. cbn [bind app]. repeat split. exact H2.
Qed.

Lemma mapM_length {A B : Type} (f : A -> result B) (l : list A)
    (r : list B) :
  mapM f l = Ok r -> List.length r = List.length l.
Proof.
  revert r. induction l as [|x l IH]; intros r H; cbn [mapM] in H.
  - apply Ok_inj in H. subst r. reflexivity.
  - destruct (f x) as [y|e]; cbn [bind] in H; [|discriminate].
    destruct (mapM f l) as [r'|e]; cbn [bind] in H; [|discriminate].
    apply Ok_inj in H. subst r. cbn [List.length]. rewrite (IH r' eq_refl).
    reflexivity.
Qed.

(** Whatever raises in [mapM] was raised by the function on an element. *)
Lemma mapM_raise {A B : Type} (f : A -> result B) (l : list A) (e : exn) :
  mapM f l = Raise e -> exists x, In x l /\ f x = Raise e.
Proof.
  induction l as [|x l IH]; cbn [mapM]; intros H; [discriminate|].
  destruct (f x) as [y|e'] eqn:E; cbn [bind] in H.
  - destruct (mapM f l) as [r'|e'']; cbn [bind] in H; [discriminate|].
    apply Raise_inj in H. subst e''.
    destruct (IH eq_refl) as (x' & Hin & Hx).
    exists x'. split; [right; exact Hin | exact Hx].
  - apply Raise_inj in H. subst e'.
    exists x. split; [left; reflexivity | exact E].
Qed.

(** A credential is eight bytes, the last two of them zero. *)
Lemma serial_login_bytes_shape (serial : string) (bs : list byte) :
  serial_login_bytes serial = Ok bs ->
  exists six, bs = six ++ [x00; x00] /\ List.length six = 6%nat.
Proof.
  unfold serial_login_bytes.
  destruct (negb (String.length (Str.zfill 12 serial) =? 12)%nat);
    [discriminate|].
  destruct (mapM (fun i => Str.to_int (Str.slice (Str.zfill 12 serial) i 2))
              [0; 2; 4; 6; 8; 10]%nat) as [sb|e] eqn:E;
    cbn [bind]; [|discriminate].
  intros H. apply mapM_app in H.
  destruct H as (r1 & r2 & H1 & H2 & ->).
  apply Ok_inj in H2. subst r2.
  exists r1. split; [reflexivity|].
  apply mapM_length in H1. apply mapM_length in E.
  rewrite H1, E. reflexivity.
Qed.

(** The credential can only be refused with ValueError. *)
Lemma serial_login_bytes_error (serial : string) (e : exn) :
  serial_login_bytes serial = Raise e -> e = ValueError.
Proof.
  assert (Hb : forall z e0, byte_of_int z = Raise e0 -> e0 = ValueError).
  { intros z e0. unfold byte_of_int.
    destruct ((0 <=? z) && (z <? 256)); [destruct (Byte.of_N (Z.to_N z))|];
      intros H; try discriminate H; apply Raise_inj in H; symmetry; exact H. }
  assert (Hi : forall s e0, Str.to_int s = Raise e0 -> e0 = ValueError).
  { intros s e0. unfold Str.to_int.
    destruct (match Str.strip (Str.to_list s) with
              | [] => (false, Str.strip (Str.to_list s))
              | c :: t =>
                  if Ascii.eqb c "-" then (true, t)
                  else if Ascii.eqb c "+" then (false, t)
                  else (false, Str.strip (Str.to_list s))
              end) as [neg ds].
    destruct (Str.digits ds 0 false); intros H;
      [discriminate H | apply Raise_inj in H; symmetry; exact H]. }
  unfold serial_login_bytes.
  destruct (negb (String.length (Str.zfill 12 serial) =? 12)%nat).
  - intros H. apply Raise_inj in H. symmetry. exact H.
  - destruct (mapM (fun i => Str.to_int (Str.slice (Str.zfill 12 serial) i 2))
                [0; 2; 4; 6; 8; 10]%nat) as [sb|e'] eqn:E; cbn [bind].
    + intros H. apply mapM_raise in H. destruct H as (z & _ & Hz).
      exact (Hb z e Hz).
    + intros H. apply Raise_inj in H. subst e'.
      apply mapM_raise in E. destruct E as (i & _ & Hz).
      exact (Hi _ e Hz).
Qed.

(** *** Which serial numbers are accepted *)

Lemma in_all_chars (c : ascii) : In c all_chars.
Proof.
  unfold all_chars. rewrite <- (ascii_nat_embedding c).
  apply in_map. apply in_seq. pose proof (nat_ascii_bounded c). lia.
Qed.

Lemma pair_agrees_all :
  forallb (fun a => forallb (pair_agrees a) all_chars) all_chars = true.
Proof. vm_compute. reflexivity. Qed.

(** [int()] on a pair of characters, for every pair. *)
Lemma to_int_pair (a b : ascii) :
  Str.to_int (String a (String b EmptyString)) =
  match int_of_pair a b with
  | Some n => Ok n
  | None => Raise ValueError
  end.
Proof.
  pose proof pair_agrees_all as A. rewrite forallb_forall in A.
  specialize (A a (in_all_chars a)). rewrite forallb_forall in A.
  specialize (A b (in_all_chars b)). unfold pair_agrees in A.
  destruct (Str.to_int (String a (String b EmptyString))) as [n|[]];
    destruct (int_of_pair a b) as [k|]; try discriminate A; [|reflexivity].
  apply Z.eqb_eq in A. subst k. reflexivity.
Qed.

(** The separators 28 to 31 are not whitespace for [int()]: a serial
    number that holds one is refused with ValueError, by [set_serial_number]
    and by the constructor, whether or not the bus can be opened. *)
Example separator_serial_refused :
  Forall (fun c =>
            Str.to_int (String c "1") = Raise ValueError /\
            Str.to_int (String "1" (String c EmptyString)) = Raise ValueError)
         ["028"%char; "029"%char; "030"%char; "031"%char] /\
  set_serial_number unit1 (String "028"%char "10000000000") =
  (unit1, Raise ValueError) /\
  init true 1 (Some (String "028"%char "10000000000")) = Raise ValueError /\
  init false 1 (Some (String "028"%char "10000000000")) = Raise ValueError.
Proof.
  split; [repeat constructor|].
  split; [reflexivity|]. split; reflexivity.
Qed.

Lemma int_of_pair_bound (a b : ascii) (n : Z) :
  int_of_pair a b = Some n -> n <= 99.
Proof.
  unfold int_of_pair.
  destruct (Str.is_digit a) eqn:Ha; destruct (Str.is_digit b) eqn:Hb;
    try (apply digit_facts in Ha; destruct Ha as (_ & _ & _ & _ & Ha));
    try (apply digit_facts in Hb; destruct Hb as (_ & _ & _ & _ & Hb));
    repeat match goal with
           | |- context [if ?c then _ else _] => destruct c
           end;
    intros H; try discriminate H; apply Some_inj in H; lia.
Qed.

(** [set_serial_number] builds the credential exactly for the accepted
    serial numbers. *)
Lemma serial_login_bytes_cases (serial : string) :
  (serial_accepted serial = true /\
   exists bs, serial_login_bytes serial = Ok bs) \/
  (serial_accepted serial = false /\
   serial_login_bytes serial = Raise ValueError).
Proof.
  assert (Short : forall l : list ascii,
             List.length l <> 12%nat ->
             match l with
             | [c0; c1; c2; c3; c4; c5; c6; c7; c8; c9; c10; c11] =>
                 pair_byte c0 c1 && pair_byte c2 c3 && pair_byte c4 c5
                 && pair_byte c6 c7 && pair_byte c8 c9 && pair_byte c10 c11
             | _ => false
             end = false).
  { intros l Hl.
    do 12 (destruct l as [|? l]; [reflexivity|]).
    destruct l; [exfalso; apply Hl; reflexivity | reflexivity]. }
  unfold serial_accepted, serial_login_bytes.
  rewrite <- (of_to_list (Str.zfill 12 serial)).
  rewrite to_of_list, length_of_list.
  set (l := Str.to_list (Str.zfill 12 serial)). clearbody l.
  destruct (List.length l =? 12)%nat eqn:El; cbn [negb].
  2:{ right. split; [|reflexivity]. apply Short. apply Nat.eqb_neq. exact El. }
  apply Nat.eqb_eq in El.
  do 12 (destruct l as [|? l]; [discriminate El|]).
  destruct l; [|discriminate El]. clear El Short.
  cbn [mapM Str.slice Str.to_list Str.of_list skipn firstn].
  rewrite !to_int_pair. unfold pair_byte.
  repeat match goal with
         | |- context [int_of_pair ?x ?y] =>
             let E := fresh "E" in
             destruct (int_of_pair x y) eqn:E; cbn [bind andb];
             [apply int_of_pair_bound in E
             |right; split; [rewrite ?andb_false_r; reflexivity | reflexivity]]
         end.
  cbn [app]. unfold bytes_of_ints. cbn [mapM].
  repeat match goal with
         | |- context [0 <=? ?n] =>
             let E := fresh "P" in
             destruct (0 <=? n) eqn:E; cbn [andb];
             [apply Z.leb_le in E;
              let y := fresh "y" in
              let Hy := fresh "Hy" in
              destruct (byte_of_int_ok n ltac:(lia)) as (y & Hy & _);
              rewrite Hy; cbn [bind]
             |right; split; [reflexivity|];
              unfold byte_of_int at 1; rewrite E; reflexivity]
         end.
  left. split; [reflexivity|]. eexists. reflexivity.
Qed.

(** X1: how the constructor fails.  A unit address outside 1..63 raises
    ValueError whatever the serial number and the bus; a serial number of
    more than 12 characters raises ValueError whether or not the bus can be
    opened, since it is examined first.  No other exception than
    ValueError and SystemExit leaves the constructor, and SystemExit means
    exactly that unit address and serial number were accepted and the bus
    could not be opened.  In full: ValueError exactly when the unit address
    is out of range or the serial number is one that [set_serial_number]
    refuses, SystemExit exactly when both are in order and the bus does not
    open, success exactly when both are in order and the bus opens. *)
Theorem init_failures (bus_ok : bool) (u : Z) (serial : option string) :
  (u < 1 \/ 63 < u -> init bus_ok u serial = Raise ValueError) /\
  (forall s, serial = Some s -> (12 < String.length s)%nat ->
             init bus_ok u serial = Raise ValueError) /\
  (forall e, init bus_ok u serial = Raise e ->
             e = ValueError \/ e = SystemExit) /\
  (init bus_ok u serial = Raise SystemExit <->
   bus_ok = false /\ exists self, init true u serial = Ok self) /\
  (init bus_ok u serial = Raise ValueError <->
   (u < 1 \/ 63 < u) \/ serial_argument_ok serial = false) /\
  (init bus_ok u serial = Raise SystemExit <->
   1 <= u <= 63 /\ serial_argument_ok serial = true /\ bus_ok = false) /\
  ((exists self, init bus_ok u serial = Ok self) <->
   1 <= u <= 63 /\ serial_argument_ok serial = true /\ bus_ok = true).
Proof.
  unfold init.
  destruct ((u <? 1) || (u >? 63)) eqn:Er.
  { apply orb_true_iff in Er. rewrite Z.gtb_ltb in Er.
    assert (Hu : u < 1 \/ 63 < u)
      by (destruct Er as [Er|Er]; apply Z.ltb_lt in Er; [left | right]; lia).
    split; [reflexivity|]. split; [reflexivity|].
    split; [intros e K; apply Raise_inj in K; left; symmetry; exact K|].
    split; [split; [intros K; discriminate K
                   |intros (_ & self & K); discriminate K]|].
    split; [split; [intros _; left; exact Hu | reflexivity]|].
    split; [split; [intros K; discriminate K | intros (K & _); lia]|].
    split; [intros (self & K); discriminate K | intros (K & _); lia]. }
  apply orb_false_iff in Er. rewrite Z.gtb_ltb in Er.
  destruct Er as [E1 E2]. apply Z.ltb_ge in E1, E2.
  split; [intros K; lia|].
  split.
  { intros s -> Hs.
    replace (String.length s =? 0)%nat with false
      by (symmetry; apply Nat.eqb_neq; lia).
    unfold serial_login_bytes. rewrite zfill_long by lia.
    replace (String.length s =? 12)%nat with false
      by (symmetry; apply Nat.eqb_neq; lia).
    reflexivity. }
  assert (Hc :
    (serial_argument_ok serial = true /\
     exists b, match serial with
               | Some s => if (String.length s =? 0)%nat then Ok default_login
                           else serial_login_bytes s
               | None => Ok default_login
               end = Ok b) \/
    (serial_argument_ok serial = false /\
     match serial with
     | Some s => if (String.length s =? 0)%nat then Ok default_login
                 else serial_login_bytes s
     | None => Ok default_login
     end = Raise ValueError)).
  { unfold serial_argument_ok. destruct serial as [s|].
    - destruct (String.length s =? 0)%nat; cbn [orb].
      + left. split; [reflexivity|]. eexists. reflexivity.
      + destruct (serial_login_bytes_cases s) as [(Ha & bs & E) | (Ha & E)];
          rewrite Ha, E; [left | right]; split; try reflexivity.
        eexists. reflexivity.
    - left. split; [reflexivity|]. eexists. reflexivity. }
  destruct Hc as [(Ha & b & Ec) | (Ha & Ec)]; rewrite Ec, Ha; cbn [bind].
  - destruct bus_ok.
    + split; [intros e K; discriminate K|].
      split; [split; [intros K; discriminate K
                     |intros (K & _); discriminate K]|].
      split; [split; [intros K; discriminate K
                     |intros [K|K]; [lia | discriminate K]]|].
      split; [split; [intros K; discriminate K
                     |intros (_ & _ & K); discriminate K]|].
      split; [intros _; split; [lia | split; reflexivity]|].
      intros _. eexists. reflexivity.
    + split; [intros e K; apply Raise_inj in K; right; symmetry; exact K|].
      split; [split; [intros _; split; [reflexivity | eexists; reflexivity]
                     |reflexivity]|].
      split; [split; [intros K; discriminate K
                     |intros [K|K]; [lia | discriminate K]]|].
      split; [split; [intros _; split; [lia | split; reflexivity]
                     |reflexivity]|].
      split; [intros (self & K); discriminate K
             |intros (_ & _ & K); discriminate K].
  - split; [intros e K; apply Raise_inj in K; left; symmetry; exact K|].
    split; [split; [intros K; discriminate K
                   |intros (_ & self & K); discriminate K]|].
    split; [split; [intros _; right; reflexivity | reflexivity]|].
    split; [split; [intros K; discriminate K
                   |intros (_ & K & _); discriminate K]|].
    split; [intros (self & K); discriminate K
           |intros (_ & K & _); discriminate K].
Qed.

(** X2: a constructed instance holds the unit address, the setpoints
    48.0 V, 40.0 A and 59.5 V and a credential of eight bytes ending in two
    zero bytes, and it has sent exactly one frame: the login frame, with the
    login identifier, the credential as data and the extended flag. *)
Theorem init_sends_login (bus_ok : bool) (u : Z) (serial : option string)
    (self : EltekFlatpack) :
  init bus_ok u serial = Ok self ->
  unit_id self = u /\
  target_voltage self = F64.of_int 48 /\
  target_current self = F64.of_int 40 /\
  ovp_voltage self = F64.lit 595 10 /\
  (exists six, login self = six ++ [x00; x00] /\ List.length six = 6%nat) /\
  bus_sent self = [mkMessage (login_id self) (login self) true].
Proof.
  unfold init.
  destruct ((u <? 1) || (u >? 63)); [discriminate|].
  destruct (match serial with
            | Some s => if (String.length s =? 0)%nat then Ok default_login
                        else serial_login_bytes s
            | None => Ok default_login
            end) as [b|e] eqn:E; cbn [bind]; [|discriminate].
  destruct bus_ok; [|discriminate].
  intros H. apply Ok_inj in H. subst self.
  split; [reflexivity|]. split; [reflexivity|]. split; [reflexivity|].
  split; [reflexivity|]. split; [|reflexivity].
  cbn [send_login bus_send login].
  assert (D : exists six, default_login = six ++ [x00; x00]
                          /\ List.length six = 6%nat)
    by (exists [x13; x43; x72; x10; x50; x69]; split; reflexivity).
  destruct serial as [s|].
  - destruct (String.length s =? 0)%nat.
    + apply Ok_inj in E. subst b. exact D.
    + apply serial_login_bytes_shape with (serial := s). exact E.
  - apply Ok_inj in E. subst b. exact D.
Qed.

Lemma init_sends_login_witness :
  init true 1 None = Ok unit1 /\
  unit_id unit1 = 1 /\
  target_voltage unit1 = F64.of_int 48 /\
  target_current unit1 = F64.of_int 40 /\
  ovp_voltage unit1 = F64.lit 595 10 /\
  (exists six, login unit1 = six ++ [x00; x00] /\ List.length six = 6%nat) /\
  bus_sent unit1 = [mkMessage (login_id unit1) (login unit1) true].
Proof.
  assert (H : init true 1 None = Ok unit1) by reflexivity.
  split; [exact H | exact (init_sends_login true 1 None unit1 H)].
Defined.

(** ** Identifiers *)

Lemma ids_distinct_all : forallb ids_distinct (int_range 1 63) = true.
Proof. vm_compute. reflexivity. Qed.

(** X3: the five identifiers of a constructed instance (login, control,
    the two status identifiers and the default-voltage identifier) are
    29-bit values, as an extended CAN identifier must be, and pairwise
    different. *)
Theorem ids_valid_and_distinct (bus_ok : bool) (u : Z)
    (serial : option string) (self : EltekFlatpack) :
  init bus_ok u serial = Ok self ->
  Forall (fun x => 0 <= x < 2 ^ 29)
    [login_id self; control_id self; status_id1 self; status_id2 self;
     default_id self] /\
  NoDup [login_id self; control_id self; status_id1 self; status_id2 self;
         default_id self].
Proof.
  intros H.
  pose proof (init_range _ _ _ _ H) as Hu.
  destruct (init_ids _ _ _ _ H) as (Eu & El & Ec & E1 & E2).
  unfold default_id. rewrite Eu, El, Ec, E1, E2.
  assert (Hc : ids_distinct u = true).
  { pose proof ids_distinct_all as A. rewrite forallb_forall in A.
    apply A. apply in_int_range. lia. }
  unfold ids_distinct in Hc. cbv zeta in Hc.
  set (l := LOGIN_ID_BASE + u * 4) in *.
  set (c := CONTROL_ID_BASE + u * 4) in *.
  set (s1 := STATUS_ID_BASE + u * 4) in *.
  set (s2 := STATUS_ID_BASE + u * 4 + 4) in *.
  set (d := Z.lor (Z.lor 83886080 (Z.shiftl u 16)) 39936) in *.
  cbn [forallb] in Hc.
  repeat match goal with
         | K : _ && _ = true |- _ =>
             apply andb_true_iff in K; destruct K
         | K : negb (_ =? _) = true |- _ =>
             apply negb_true_iff in K; apply Z.eqb_neq in K
         | K : (_ <=? _) = true |- _ => apply Z.leb_le in K
         | K : (_ <? _) = true |- _ => apply Z.ltb_lt in K
         end.
  split.
  - repeat (apply Forall_cons; [split; assumption|]). apply Forall_nil.
  - repeat constructor; cbn [In]; intuition congruence.
Qed.

Lemma ids_valid_and_distinct_witness :
  init true 1 None = Ok unit1 /\
  Forall (fun x => 0 <= x < 2 ^ 29)
    [login_id unit1; control_id unit1; status_id1 unit1; status_id2 unit1;
     default_id unit1] /\
  NoDup [login_id unit1; control_id unit1; status_id1 unit1; status_id2 unit1;
         default_id unit1].
Proof.
  assert (H : init true 1 None = Ok unit1) by reflexivity.
  split; [exact H | exact (ids_valid_and_distinct true 1 None unit1 H)].
Defined.

(** ** Status frames *)

(** A payload of at least eight bytes is decoded, from its first eight
    bytes. *)
Lemma decode_status_long (d : list byte) :
  (8 <= List.length d)%nat ->
  exists st, decode_status d = Ok st /\ decode_status (firstn 8 d) = Ok st.
Proof.
  intros H.
  do 8 (destruct d as [|? d]; [cbn [List.length] in H; lia|]).
  eexists. split; reflexivity.
Qed.

(** X4: decoding a status payload succeeds exactly when it has at least
    eight bytes; with fewer it raises IndexError, and bytes after the eighth
    are never looked at. *)
Theorem decode_status_length (d : list byte) :
  ((List.length d < 8)%nat <-> decode_status d = Raise IndexError) /\
  ((8 <= List.length d)%nat <->
   exists st, decode_status d = Ok st) /\
  ((8 <= List.length d)%nat -> decode_status d = decode_status (firstn 8 d)).
Proof.
  destruct (Nat.lt_ge_cases (List.length d) 8) as [Hs|Hl].
  - pose proof (decode_status_short d Hs) as E.
    split; [split; [intros _; exact E | intros _; exact Hs]|].
    split; [|intros K; lia].
    split; [intros K; lia|].
    intros (st & Hst). rewrite E in Hst. discriminate Hst.
  - destruct (decode_status_long d Hl) as (st & E1 & E2).
    split; [split; [intros K; lia | intros K; rewrite E1 in K; discriminate K]|].
    split; [split; [intros _; exists st; exact E1 | intros _; exact Hl]|].
    intros _. rewrite E1, E2. reflexivity.
Qed.

Lemma byte_int_range (b : byte) : 0 <= byte_int b < 256.
Proof.
  unfold byte_int. pose proof (Byte.to_N_bounded b) as H. lia.
Qed.

Lemma in_byte_range (b : byte) : In (byte_int b) (int_range 0 256).
Proof.
  apply in_int_range. change (Z.of_nat 0 + Z.of_nat 256) with 256.
  change (Z.of_nat 0) with 0. apply byte_int_range.
Qed.

Lemma flags_from_byte6_all :
  forallb (fun x => forallb (flags_from_byte6 x) (int_range 0 256))
    (int_range 0 256) = true.
Proof. vm_compute. reflexivity. Qed.

(** X5: the three flags of a decoded status are bits 0, 1 and 2 of byte 6;
    byte 7 is read and merged into the flag word, but no value of it changes
    the decoded status.  Temperature and input voltage are bytes 0 and 5. *)
Theorem status_flags_from_byte6 (b0 b1 b2 b3 b4 b5 b6 b7 b7' : byte) :
  exists st,
    decode_status [b0; b1; b2; b3; b4; b5; b6; b7] = Ok st /\
    decode_status [b0; b1; b2; b3; b4; b5; b6; b7'] = Ok st /\
    walk_in st = Z.testbit (byte_int b6) 0 /\
    float_mode st = Z.testbit (byte_int b6) 1 /\
    error st = Z.testbit (byte_int b6) 2 /\
    temperature st = byte_int b0 /\ input_voltage st = byte_int b5.
Proof.
  assert (F : forall b, flags_from_byte6 (byte_int b6) (byte_int b) = true).
  { intros b. pose proof flags_from_byte6_all as A.
    rewrite forallb_forall in A.
    specialize (A (byte_int b6) (in_byte_range b6)).
    rewrite forallb_forall in A. apply A. apply in_byte_range. }
  pose proof (F b7) as F7. pose proof (F b7') as F7'.
  unfold flags_from_byte6 in F7, F7'. cbv zeta in F7, F7'.
  repeat (apply andb_true_iff in F7; destruct F7 as [F7 ?]).
  repeat (apply andb_true_iff in F7'; destruct F7' as [F7' ?]).
  repeat match goal with
         | K : Bool.eqb _ _ = true |- _ => apply Bool.eqb_prop in K
         end.
  eexists. rewrite !decode_status_8.
  split; [reflexivity|].
  cbn [walk_in float_mode error temperature input_voltage].
  split; [|repeat split; assumption].
  f_equal. f_equal; congruence.
Qed.

(** Timeouts and frames with other identifiers at the head of what is
    received change nothing. *)
Lemma read_status_skip (self : EltekFlatpack)
    (before rest : list (option Message)) :
  forallb (skipped self) before = true ->
  read_status self (before ++ rest) = read_status self rest.
Proof.
  induction before as [|[m|] before IH]; cbn [forallb app read_status skipped];
    intros H; [reflexivity | |apply IH; exact H].
  apply andb_true_iff in H. destruct H as [Hm Hb].
  apply negb_true_iff in Hm. rewrite Hm. apply IH. exact Hb.
Qed.

(** X6: [read_status] returns None exactly when nothing but timeouts and
    frames with other identifiers arrived before the deadline. *)
Theorem read_status_none_iff (self : EltekFlatpack)
    (rx : list (option Message)) :
  read_status self rx = Ok None <-> forallb (skipped self) rx = true.
Proof.
  induction rx as [|[m|] rx IH]; cbn [forallb read_status skipped].
  - split; reflexivity.
  - destruct ((arbitration_id m =? status_id1 self)
              || (arbitration_id m =? status_id2 self)); cbn [negb andb].
    + split; [|discriminate].
      destruct (decode_status (data m)); cbn [bind]; discriminate.
    + exact IH.
  - exact IH.
Qed.

(** X7: the first frame with a status identifier decides the result of
    [read_status]: what arrived before it is passed over, what arrives after
    it is not read, and with a payload of at least eight bytes the result is
    its decoding. *)
Theorem read_status_first_status_frame (self : EltekFlatpack) (msg : Message)
    (before rest : list (option Message)) :
  forallb (skipped self) before = true ->
  skipped self (Some msg) = false ->
  (8 <= List.length (data msg))%nat ->
  exists st,
    decode_status (data msg) = Ok st /\
    read_status self (before ++ Some msg :: rest) = Ok (Some st) /\
    read_status self (before ++ Some msg :: rest) =
    read_status self [Some msg].
Proof.
  intros Hb Hm Hl.
  destruct (decode_status_long (data msg) Hl) as (st & Hst & _).
  exists st. split; [exact Hst|].
  rewrite read_status_skip by exact Hb.
  cbn [skipped] in Hm. apply negb_false_iff in Hm.
  cbn [read_status]. rewrite Hm, Hst. split; reflexivity.
Qed.

Lemma read_status_first_status_frame_witness :
  forallb (skipped unit1) [None] = true /\
  skipped unit1 (Some (mkMessage 0x05014004 sample_payload true)) = false /\
  (8 <= List.length (data (mkMessage 0x05014004 sample_payload true)))%nat /\
  exists st,
    decode_status (data (mkMessage 0x05014004 sample_payload true)) = Ok st /\
    read_status unit1
      ([None] ++ Some (mkMessage 0x05014004 sample_payload true)
              :: [Some short_frame]) = Ok (Some st) /\
    read_status unit1
      ([None] ++ Some (mkMessage 0x05014004 sample_payload true)
              :: [Some short_frame]) =
    read_status unit1 [Some (mkMessage 0x05014004 sample_payload true)].
Proof.
  assert (H1 : forallb (skipped unit1) [None] = true) by reflexivity.
  assert (H2 : skipped unit1
                 (Some (mkMessage 0x05014004 sample_payload true)) = false)
    by reflexivity.
  assert (H3 : (8 <= List.length
                      (data (mkMessage 0x05014004 sample_payload true)))%nat)
    by (cbn; lia).
  split; [exact H1|]. split; [exact H2|]. split; [exact H3|].
  exact (read_status_first_status_frame unit1
           (mkMessage 0x05014004 sample_payload true)
           [None] [Some short_frame] H1 H2 H3).
Defined.

(** X8: the secondary status identifier of unit [u] is the primary status
    identifier of unit [u + 1], so an instance for unit [u] decodes and
    returns a status frame that unit [u + 1] sent on its primary
    identifier. *)
Theorem status_ids_of_neighbours_overlap (u : Z) (a b : EltekFlatpack)
    (msg : Message) (rest : list (option Message)) :
  init true u None = Ok a ->
  init true (u + 1) None = Ok b ->
  arbitration_id msg = status_id1 b ->
  (8 <= List.length (data msg))%nat ->
  status_id2 a = status_id1 b /\
  exists st,
    decode_status (data msg) = Ok st /\
    read_status a (Some msg :: rest) = Ok (Some st).
Proof.
  intros Ha Hb Hid Hl.
  destruct (init_ids _ _ _ _ Ha) as (_ & _ & _ & _ & E2).
  destruct (init_ids _ _ _ _ Hb) as (_ & _ & _ & E1 & _).
  assert (E : status_id2 a = status_id1 b) by (rewrite E1, E2; lia).
  split; [exact E|].
  destruct (decode_status_long (data msg) Hl) as (st & Hst & _).
  exists st. split; [exact Hst|].
  cbn [read_status]. rewrite Hid, <- E, Z.eqb_refl, orb_true_r, Hst.
  reflexivity.
Qed.

Lemma status_ids_of_neighbours_overlap_witness :
  init true 1 None = Ok unit1 /\
  init true (1 + 1) None = Ok unit2 /\
  arbitration_id (mkMessage 0x05014008 sample_payload true) = status_id1 unit2 /\
  (8 <= List.length (data (mkMessage 0x05014008 sample_payload true)))%nat /\
  status_id2 unit1 = status_id1 unit2 /\
  exists st,
    decode_status (data (mkMessage 0x05014008 sample_payload true)) = Ok st /\
    read_status unit1 [Some (mkMessage 0x05014008 sample_payload true)]
    = Ok (Some st).
Proof.
  assert (H1 : init true 1 None = Ok unit1) by reflexivity.
  assert (H2 : init true (1 + 1) None = Ok unit2) by reflexivity.
  assert (H3 : arbitration_id (mkMessage 0x05014008 sample_payload true)
               = status_id1 unit2) by reflexivity.
  assert (H4 : (8 <= List.length
                      (data (mkMessage 0x05014008 sample_payload true)))%nat)
    by (cbn; lia).
  split; [exact H1|]. split; [exact H2|]. split; [exact H3|].
  split; [exact H4|].
  exact (status_ids_of_neighbours_overlap 1 unit1 unit2
           (mkMessage 0x05014008 sample_payload true) [] H1 H2 H3 H4).
Defined.

(** ** The credential, again *)


(** ** Live setpoints: when the control frame is sent *)

Lemma to_int_error (x : F64.float) (e : exn) :
  F64.to_int x = Raise e ->
  F64.is_finite x = false /\ (e = ValueError \/ e = OverflowError).
Proof.
  destruct x; cbn [F64.to_int F64.is_finite]; intros H;
    try discriminate H; apply Raise_inj in H; subst e;
    split; auto.
Qed.

Lemma to_int_ok (x : F64.float) (z : Z) :
  F64.to_int x = Ok z -> F64.is_finite x = true.
Proof. destruct x; cbn [F64.to_int F64.is_finite]; intros H;
         try discriminate H; reflexivity. Qed.

(** The eight masked integers of the control frame are always bytes. *)
Lemma masked_bytes (a b c : Z) :
  exists bs,
    bytes_of_ints
      [ Z.land a 0xFF; Z.land (Z.shiftr a 8) 0xFF;
        Z.land b 0xFF; Z.land (Z.shiftr b 8) 0xFF;
        Z.land b 0xFF; Z.land (Z.shiftr b 8) 0xFF;
        Z.land c 0xFF; Z.land (Z.shiftr c 8) 0xFF ] = Ok bs /\
    List.length bs = 8%nat.
Proof.
  assert (B : forall z, 0 <= Z.land z 0xFF < 256).
  { intros z. change 0xFF with 255. rewrite land_255.
    apply Z.mod_pos_bound. lia. }
  destruct (bytes_of_ints_ok
              [ Z.land a 0xFF; Z.land (Z.shiftr a 8) 0xFF;
                Z.land b 0xFF; Z.land (Z.shiftr b 8) 0xFF;
                Z.land b 0xFF; Z.land (Z.shiftr b 8) 0xFF;
                Z.land c 0xFF; Z.land (Z.shiftr c 8) 0xFF ])
    as (bs & Hbs & Em).
  { repeat (apply Forall_cons; [apply B|]). apply Forall_nil. }
  exists bs. split; [exact Hbs|].
  rewrite <- (length_map (fun b0 => Z.of_N (Byte.to_N b0))), Em. reflexivity.
Qed.

(** The control frame is built exactly when the three scaled setpoints are
    finite; otherwise [int()] raises. *)
Lemma control_frame_cases (self : EltekFlatpack) :
  (F64.is_finite (F64.mul (target_current self) (F64.of_int 10))
   && F64.is_finite (F64.mul (target_voltage self) (F64.of_int 100))
   && F64.is_finite (F64.mul (ovp_voltage self) (F64.of_int 100)) = true /\
   exists payload,
     List.length payload = 8%nat /\
     control_frame self = Ok (mkMessage (control_id self) payload true)) \/
  (F64.is_finite (F64.mul (target_current self) (F64.of_int 10))
   && F64.is_finite (F64.mul (target_voltage self) (F64.of_int 100))
   && F64.is_finite (F64.mul (ovp_voltage self) (F64.of_int 100)) = false /\
   exists e,
     (e = ValueError \/ e = OverflowError) /\ control_frame self = Raise e).
Proof.
  unfold control_frame.
  destruct (F64.to_int (F64.mul (target_current self) (F64.of_int 10)))
    as [sc|e] eqn:Ec; cbn [bind].
  2:{ right. destruct (to_int_error _ _ Ec) as (-> & He).
      split; [reflexivity|]. exists e. split; [exact He | reflexivity]. }
  rewrite (to_int_ok _ _ Ec).
  destruct (F64.to_int (F64.mul (target_voltage self) (F64.of_int 100)))
    as [sv|e] eqn:Ev; cbn [bind].
  2:{ right. destruct (to_int_error _ _ Ev) as (-> & He).
      split; [reflexivity|]. exists e. split; [exact He | reflexivity]. }
  rewrite (to_int_ok _ _ Ev).
  destruct (F64.to_int (F64.mul (ovp_voltage self) (F64.of_int 100)))
    as [so|e] eqn:Eo; cbn [bind].
  2:{ right. destruct (to_int_error _ _ Eo) as (-> & He).
      split; [reflexivity|]. exists e. split; [exact He | reflexivity]. }
  rewrite (to_int_ok _ _ Eo).
  left. split; [reflexivity|].
  destruct (masked_bytes sc sv so) as (bs & -> & Hl).
  exists bs. split; [exact Hl | reflexivity].
Qed.


(** X11: bounds are kept from call to call.  On an instance whose
    setpoints are within bounds, a call whose new current is a binary64
    number and whose new over-voltage value has a finite hundredfold
    succeeds, sends exactly one frame (eight bytes, control identifier,
    extended), leaves the setpoints within bounds and leaves the
    credential and the identifiers as they were. *)
Theorem set_voltage_and_current_keeps_bounds (self : EltekFlatpack)
    (volts amps ovp : option F64.float) :
  setpoints_ok self ->
  (forall x, amps = Some x -> F64.valid x = true) ->
  (forall x, ovp = Some x ->
             F64.is_finite (F64.mul x (F64.of_int 100)) = true) ->
  let r := set_voltage_and_current self volts amps ovp in
  snd r = Ok tt /\
  setpoints_ok (fst r) /\
  (exists payload,
     List.length payload = 8%nat /\
     bus_sent (fst r) =
     bus_sent self ++ [mkMessage (control_id self) payload true]) /\
  login (fst r) = login self /\
  unit_id (fst r) = unit_id self /\
  login_id (fst r) = login_id self /\
  control_id (fst r) = control_id self /\
  status_id1 (fst r) = status_id1 self /\
  status_id2 (fst r) = status_id2 self.
Proof.
  intros Hok Ha Ho. cbv zeta.
  pose proof (store_setpoints_ok self volts amps ovp Hok Ha Ho) as Hs.
  destruct (control_frame_bytes _ Hs)
    as (sc & sv & so & c0 & c1 & v0 & v1 & o0 & o1 & _ & _ & _ & _ & _
        & Hf & _).
  unfold set_voltage_and_current. rewrite Hf. cbn [fst snd].
  split; [reflexivity|]. split; [exact Hs|].
  split; [|repeat split].
  exists [c0; c1; v0; v1; v0; v1; o0; o1]. split; reflexivity.
Qed.

Lemma set_voltage_and_current_keeps_bounds_witness :
  setpoints_ok unit1 /\
  F64.valid (F64.of_int 20) = true /\
  F64.is_finite (F64.mul (F64.of_int 60) (F64.of_int 100)) = true /\
  snd (set_voltage_and_current unit1 (Some (F64.of_int 100))
         (Some (F64.of_int 20)) (Some (F64.of_int 60))) = Ok tt /\
  setpoints_ok
    (fst (set_voltage_and_current unit1 (Some (F64.of_int 100))
            (Some (F64.of_int 20)) (Some (F64.of_int 60)))).
Proof.
  assert (H1 : F64.valid (F64.of_int 20) = true) by (vm_compute; reflexivity).
  assert (H2 : F64.is_finite (F64.mul (F64.of_int 60) (F64.of_int 100)) = true)
    by (vm_compute; reflexivity).
  split; [exact unit1_setpoints_ok|]. split; [exact H1|]. split; [exact H2|].
  destruct (set_voltage_and_current_keeps_bounds unit1
              (Some (F64.of_int 100)) (Some (F64.of_int 20))
              (Some (F64.of_int 60)) unit1_setpoints_ok) as (R1 & R2 & _).
  - intros x H. apply Some_inj in H. subst x. exact H1.
  - intros x H. apply Some_inj in H. subst x. exact H2.
  - split; [exact R1 | exact R2].
Defined.

(** ** The default voltage, again *)

(** The frames of the two bounds. *)
Lemma default_frame_of_clamped (self : EltekFlatpack) (volts : F64.float)
    (m : positive) :
  clamp MIN_VOLTAGE MAX_VOLTAGE volts = fin m (-47) ->
  default_voltage_frame self volts =
  (centivolts <- F64.to_int (F64.mul (fin m (-47)) (F64.of_int 100)) ;;
   tail <- to_bytes2_little centivolts ;;
   Ok (mkMessage (default_id self) ([x29; x15; x00] ++ tail) true)).
Proof.
  intros H. unfold default_voltage_frame.
  change (F64.max MIN_VOLTAGE (F64.min volts MAX_VOLTAGE))
    with (clamp MIN_VOLTAGE MAX_VOLTAGE volts).
  rewrite H. reflexivity.
Qed.



(** Whatever the voltage, the frame is built and sent. *)
Lemma set_default_voltage_sends (self : EltekFlatpack) (volts : F64.float) :
  exists lo hi,
    set_default_voltage self volts =
    (bus_send self (mkMessage (default_id self) [x29; x15; x00; lo; hi] true),
     Ok tt).
Proof.
  unfold set_default_voltage.
  pose proof (clamp_fin 6122080743456768 8078331831595827 (-47)
                ltac:(lia) volts) as H.
  cbv zeta in H. rewrite <- MIN_VOLTAGE_eq, <- MAX_VOLTAGE_eq in H.
  destruct H as ((m & Hm & Hb) & _).
  rewrite (default_frame_of_clamped self volts m Hm).
  destruct (scaled_voltage_spec m Hb) as (s & -> & Hr & _).
  destruct (to_bytes2_little_ok s ltac:(lia)) as (lo & hi & Hb2 & _).
  cbn [bind]. rewrite Hb2. exists lo, hi. reflexivity.
Qed.


(** ** What a serial number can store *)

Lemma lstrip_length (l : list ascii) :
  (List.length (Str.lstrip l) <= List.length l)%nat.
Proof.
  induction l as [|c t IH]; cbn [Str.lstrip]; [lia|].
  destruct (Str.is_space c); cbn [List.length]; lia.
Qed.

Lemma strip_length (l : list ascii) :
  (List.length (Str.strip l) <= List.length l)%nat.
Proof.
  unfold Str.strip. rewrite length_rev.
  pose proof (lstrip_length (rev (Str.lstrip l))) as H1.
  rewrite length_rev in H1.
  pose proof (lstrip_length l). lia.
Qed.

(** The digits read by [int()] give a number below the power of ten of
    their count. *)
Lemma digits_bound (l : list ascii) :
  forall (acc : Z) (after_digit : bool) (n : Z),
    0 <= acc ->
    Str.digits l acc after_digit = Some n ->
    0 <= n < (acc + 1) * 10 ^ Z.of_nat (List.length l).
Proof.
  induction l as [|c t IH]; intros acc ad n Ha H.
  - cbn [Str.digits] in H. destruct ad; [|discriminate H].
    apply Some_inj in H. subst n. cbn [List.length]. change (10 ^ Z.of_nat 0) with 1.
    lia.
  - cbn [List.length]. rewrite Nat2Z.inj_succ, Z.pow_succ_r by lia.
    assert (Hp : 0 < 10 ^ Z.of_nat (List.length t))
      by (apply Z.pow_pos_nonneg; lia).
    cbn [Str.digits] in H.
    destruct (Str.is_digit c) eqn:Hc.
    + destruct (digit_facts c Hc) as (_ & _ & _ & _ & Hd).
      apply IH in H; [|lia]. nia.
    + destruct (Ascii.eqb c "_" && ad)%bool; [|discriminate H].
      destruct t as [|d t']; [discriminate H|].
      destruct (Str.is_digit d); [|discriminate H].
      apply IH in H; [|lia]. nia.
Qed.

Lemma to_int_bound (s : string) (n : Z) :
  Str.to_int s = Ok n ->
  - 10 ^ Z.of_nat (String.length s) < n < 10 ^ Z.of_nat (String.length s).
Proof.
  unfold Str.to_int. rewrite <- length_to_list.
  pose proof (strip_length (Str.to_list s)) as Hl.
  set (body := Str.strip (Str.to_list s)) in *.
  assert (Hm : forall a b : nat, (a <= b)%nat ->
                                 10 ^ Z.of_nat a <= 10 ^ Z.of_nat b)
    by (intros a b Hab; apply Z.pow_le_mono_r; lia).
  assert (G : forall neg ds,
             (List.length ds <= List.length body)%nat ->
             match Str.digits ds 0 false with
             | Some n0 => Ok (if neg : bool then - n0 else n0)
             | None => Raise ValueError
             end = Ok n ->
             - 10 ^ Z.of_nat (List.length (Str.to_list s)) < n
             < 10 ^ Z.of_nat (List.length (Str.to_list s))).
  { intros neg ds Hds H.
    destruct (Str.digits ds 0 false) as [n0|] eqn:E; [|discriminate H].
    apply Ok_inj in H. apply digits_bound in E; [|lia].
    pose proof (Hm _ _ Hds). pose proof (Hm _ _ Hl).
    destruct neg; lia. }
  clearbody body. clear Hl.
  destruct body as [|c t].
  - intros H. apply (G false []); [cbn [List.length]; lia | exact H].
  - destruct (Ascii.eqb c "-").
    + intros H. apply (G true t); [cbn [List.length]; lia | exact H].
    + destruct (Ascii.eqb c "+"); intros H.
      * apply (G false t); [cbn [List.length]; lia | exact H].
      * apply (G false (c :: t)); [cbn [List.length]; lia | exact H].
Qed.

Lemma slice_length (s : string) (i n : nat) :
  (String.length (Str.slice s i n) <= n)%nat.
Proof.
  unfold Str.slice. rewrite length_of_list. apply firstn_le_length.
Qed.

Lemma mapM_Forall {A B : Type} (f : A -> result B) (P : B -> Prop)
    (l : list A) :
  (forall x y, f x = Ok y -> P y) ->
  forall ys, mapM f l = Ok ys -> Forall P ys.
Proof.
  intros Hf. induction l as [|x t IH]; intros ys H; cbn [mapM] in H.
  - apply Ok_inj in H. subst ys. apply Forall_nil.
  - destruct (f x) as [y|] eqn:E; cbn [bind] in H; [|discriminate H].
    destruct (mapM f t) as [ys'|]; cbn [bind] in H; [|discriminate H].
    apply Ok_inj in H. subst ys.
    apply Forall_cons; [exact (Hf x y E) | apply IH; reflexivity].
Qed.

Lemma byte_of_int_value (z : Z) (b : byte) :
  byte_of_int z = Ok b -> byte_int b = z.
Proof.
  unfold byte_of_int.
  destruct ((0 <=? z) && (z <? 256)) eqn:E; [|discriminate].
  apply andb_true_iff in E. destruct E as [E1 E2].
  apply Z.leb_le in E1. apply Z.ltb_lt in E2.
  destruct (byte_of_int_ok z (conj E1 E2)) as (b' & Hb' & Eb').
  unfold byte_of_int in Hb'.
  replace ((0 <=? z) && (z <? 256)) with true in Hb'
    by (symmetry; apply andb_true_iff; split;
        [apply Z.leb_le | apply Z.ltb_lt]; lia).
  intros H. rewrite Hb' in H. apply Ok_inj in H. subst b'. exact Eb'.
Qed.

Lemma bytes_of_ints_le (k : Z) (l : list Z) :
  Forall (fun z => z <= k) l ->
  forall bs, bytes_of_ints l = Ok bs ->
             Forall (fun b => byte_int b <= k) bs.
Proof.
  unfold bytes_of_ints.
  induction 1 as [|z l Hz _ IH]; intros bs H; cbn [mapM] in H.
  - apply Ok_inj in H. subst bs. apply Forall_nil.
  - destruct (byte_of_int z) as [b|] eqn:E; cbn [bind] in H; [|discriminate H].
    destruct (mapM byte_of_int l) as [bs'|]; cbn [bind] in H; [|discriminate H].
    apply Ok_inj in H. subst bs.
    apply Forall_cons; [|apply IH; reflexivity].
    rewrite (byte_of_int_value z b E). exact Hz.
Qed.

Lemma serial_login_bytes_le_99 (serial : string) (bs : list byte) :
  serial_login_bytes serial = Ok bs ->
  Forall (fun b => byte_int b <= 99) bs.
Proof.
  unfold serial_login_bytes.
  destruct (negb (String.length (Str.zfill 12 serial) =? 12)%nat);
    [discriminate|].
  destruct (mapM (fun i => Str.to_int (Str.slice (Str.zfill 12 serial) i 2))
              [0; 2; 4; 6; 8; 10]%nat) as [ns|] eqn:E; cbn [bind];
    [|discriminate].
  intros H. apply (bytes_of_ints_le 99 (ns ++ [0; 0])); [|exact H].
  apply Forall_app. split.
  - apply (mapM_Forall _ (fun z => z <= 99) _) with (2 := E). intros i n Hn.
    apply to_int_bound in Hn.
    pose proof (slice_length (Str.zfill 12 serial) i 2) as Hl.
    assert (10 ^ Z.of_nat (String.length (Str.slice (Str.zfill 12 serial) i 2))
            <= 10 ^ 2) by (apply Z.pow_le_mono_r; lia).
    lia.
  - repeat (apply Forall_cons; [lia|]). apply Forall_nil.
Qed.

(** X13: a credential stored by [set_serial_number] has no byte above 99,
    since every byte is the value of at most two decimal digits.  The
    built-in default credential has the byte 0x72 (114): no serial number
    passed to the driver stores the default credential, not even
    134372105069, the number the driver prints for it. *)
Theorem serial_credential_bytes_at_most_99 (self : EltekFlatpack)
    (serial : string) :
  snd (set_serial_number self serial) = Ok tt ->
  Forall (fun b => byte_int b <= 99)
         (login (fst (set_serial_number self serial))) /\
  login (fst (set_serial_number self serial)) <> default_login.
Proof.
  unfold set_serial_number.
  destruct (serial_login_bytes serial) as [bs|e] eqn:E; cbn [fst snd];
    [|discriminate].
  intros _. cbn [with_login login].
  pose proof (serial_login_bytes_le_99 serial bs E) as H.
  split; [exact H|].
  intros K. rewrite K in H. unfold default_login in H.
  apply Forall_inv_tail, Forall_inv_tail, Forall_inv in H.
  vm_compute in H. apply H. reflexivity.
Qed.

Lemma serial_credential_bytes_at_most_99_witness :
  snd (set_serial_number unit1 "134372105069"%string) = Ok tt /\
  Forall (fun b => byte_int b <= 99)
         (login (fst (set_serial_number unit1 "134372105069"%string))) /\
  login (fst (set_serial_number unit1 "134372105069"%string)) <> default_login.
Proof.
  assert (H : snd (set_serial_number unit1 "134372105069"%string) = Ok tt)
    by reflexivity.
  split; [exact H|].
  exact (serial_credential_bytes_at_most_99 unit1 "134372105069"%string H).
Defined.

(** ** Monitoring *)

Lemma read_status_error (self : EltekFlatpack) (rx : list (option Message))
    (e : exn) :
  read_status self rx = Raise e -> e = IndexError.
Proof.
  induction rx as [|[m|] rx IH]; cbn [read_status]; [discriminate| |exact IH].
  destruct ((arbitration_id m =? status_id1 self)
            || (arbitration_id m =? status_id2 self)); [|exact IH].
  destruct (Nat.lt_ge_cases (List.length (data m)) 8) as [Hl|Hl].
  - rewrite (decode_status_short _ Hl). cbn [bind]. intros H.
    apply Raise_inj in H. symmetry. exact H.
  - destruct (decode_status_long _ Hl) as (st & -> & _). cbn [bind].
    discriminate.
Qed.

(** The instance after [k] more login frames. *)
Lemma monitor_loop_sent (duration : option F64.float) (start : F64.float)
    (ticks : list Tick) :
  forall (self : EltekFlatpack) (last_login : F64.float),
  exists k,
    (k <= List.length ticks)%nat /\
    fst (monitor_loop self duration start last_login ticks) =
    mkEltek (unit_id self) (target_voltage self) (target_current self)
      (ovp_voltage self) (login self) (login_id self) (control_id self)
      (status_id1 self) (status_id2 self)
      (bus_sent self ++ repeat (mkMessage (login_id self) (login self) true) k).
Proof.
  induction ticks as [|t rest IH]; intros self last_login.
  - exists 0%nat. split; [reflexivity|]. cbn [monitor_loop fst repeat].
    rewrite app_nil_r. destruct self. reflexivity.
  - cbn [monitor_loop].
    destruct (F64.gtb (fsub (now_check t) last_login) (F64.of_int 10)).
    + destruct (read_status (send_login self) (received t)) as [st|e].
      * destruct (match duration with
                  | Some d => truthy d && F64.gtb (fsub (now_end t) start) d
                  | None => false
                  end).
        -- exists 1%nat. split; [cbn [List.length]; lia | reflexivity].
        -- destruct (IH (send_login self) (now_login t)) as (k & Hk & ->).
           exists (S k). split; [cbn [List.length]; lia|].
           unfold send_login, bus_send.
           cbn [unit_id target_voltage target_current ovp_voltage login
                login_id control_id status_id1 status_id2 bus_sent repeat].
           rewrite <- app_assoc. reflexivity.
      * exists 1%nat. split; [cbn [List.length]; lia | reflexivity].
    + destruct (read_status self (received t)) as [st|e].
      * destruct (match duration with
                  | Some d => truthy d && F64.gtb (fsub (now_end t) start) d
                  | None => false
                  end).
        -- exists 0%nat. split; [lia|]. cbn [fst repeat].
           rewrite app_nil_r. destruct self. reflexivity.
        -- destruct (IH self last_login) as (k & Hk & ->).
           exists k. split; [cbn [List.length]; lia | reflexivity].
      * exists 0%nat. split; [lia|]. cbn [fst repeat].
        rewrite app_nil_r. destruct self. reflexivity.
Qed.

Lemma monitor_loop_error (duration : option F64.float) (start : F64.float)
    (ticks : list Tick) :
  forall (self : EltekFlatpack) (last_login : F64.float) (e : exn),
    snd (monitor_loop self duration start last_login ticks) = Raise e ->
    e = IndexError.
Proof.
  induction ticks as [|t rest IH]; intros self last_login e;
    cbn [monitor_loop]; [discriminate|].
  set (self1 := if F64.gtb (fsub (now_check t) last_login) (F64.of_int 10)
                then send_login self else self).
  destruct (read_status self1 (received t)) as [st|e0] eqn:E.
  - destruct (match duration with
              | Some d => truthy d && F64.gtb (fsub (now_end t) start) d
              | None => false
              end); [discriminate | apply IH].
  - cbn [snd]. intros H. apply Raise_inj in H. subst e0.
    exact (read_status_error _ _ _ E).
Qed.

(** X14: whatever happens, [monitor] sends nothing but login frames, at
    most one per iteration, each with the login identifier and the
    credential of the instance, and it changes nothing else of the
    instance: setpoints, credential and identifiers stay.  The only
    exception that leaves [monitor] is the IndexError of a short status
    frame: it is not caught, since only KeyboardInterrupt is. *)
Theorem monitor_sends_only_login_frames (self : EltekFlatpack)
    (duration : option F64.float) (start last_login : F64.float)
    (ticks : list Tick) :
  let r := monitor self duration start last_login ticks in
  (exists k,
     (k <= List.length ticks)%nat /\
     fst r =
     mkEltek (unit_id self) (target_voltage self) (target_current self)
       (ovp_voltage self) (login self) (login_id self) (control_id self)
       (status_id1 self) (status_id2 self)
       (bus_sent self
        ++ repeat (mkMessage (login_id self) (login self) true) k)) /\
  (forall e, snd r = Raise e -> e = IndexError).
Proof.
  cbv zeta. unfold monitor. split.
  - apply monitor_loop_sent.
  - apply monitor_loop_error.
Qed.

(** X15: a duration of zero does not stop [monitor]: being false as a
    condition, [duration=0] (or [0.0], or [-0.0]) behaves as no duration at
    all, and the loop then never ends because time has elapsed. *)
Theorem monitor_duration_zero (self : EltekFlatpack) (d : F64.float)
    (start last_login : F64.float) (ticks : list Tick) :
  F64.eqb d F64.zero = true ->
  monitor self (Some d) start last_login ticks =
  monitor self None start last_login ticks /\
  snd (monitor self (Some d) start last_login ticks) <> Ok Elapsed.
Proof.
  intros Hd. unfold monitor.
  assert (G : forall self last_login,
             monitor_loop self (Some d) start last_login ticks =
             monitor_loop self None start last_login ticks /\
             snd (monitor_loop self None start last_login ticks)
             <> Ok Elapsed).
  { clear self last_login.
    induction ticks as [|t rest IH]; intros self last_login;
      cbn [monitor_loop]; [split; [reflexivity | discriminate]|].
    unfold truthy. rewrite Hd. cbn [negb andb].
    destruct (read_status _ (received t)); [apply IH|].
    split; [reflexivity | discriminate]. }
  destruct (G self last_login) as (G1 & G2).
  split; [exact G1|]. rewrite G1. exact G2.
Qed.

Lemma monitor_duration_zero_witness :
  F64.eqb F64.zero F64.zero = true /\
  monitor unit1 (Some F64.zero) (F64.of_int 100) (F64.of_int 100)
    [mkTick (F64.of_int 200) (F64.of_int 200) [] (F64.of_int 201)] =
  monitor unit1 None (F64.of_int 100) (F64.of_int 100)
    [mkTick (F64.of_int 200) (F64.of_int 200) [] (F64.of_int 201)] /\
  snd (monitor unit1 (Some F64.zero) (F64.of_int 100) (F64.of_int 100)
         [mkTick (F64.of_int 200) (F64.of_int 200) [] (F64.of_int 201)])
  <> Ok Elapsed.
Proof.
  assert (H : F64.eqb F64.zero F64.zero = true) by reflexivity.
  split; [exact H|].
  exact (monitor_duration_zero unit1 F64.zero (F64.of_int 100) (F64.of_int 100)
           [mkTick (F64.of_int 200) (F64.of_int 200) [] (F64.of_int 201)] H).
Defined.

(** The frames are filtered by the two status identifiers only. *)
Lemma read_status_send_login (self : EltekFlatpack)
    (rx : list (option Message)) :
  read_status (send_login self) rx = read_status self rx.
Proof.
  induction rx as [|[m|] rx IH]; cbn [read_status]; [reflexivity| |exact IH].
  rewrite IH. reflexivity.
Qed.

Lemma goes_on_send_login (self : EltekFlatpack) (duration : option F64.float)
    (start : F64.float) (q : Tick) :
  goes_on self duration start q -> goes_on (send_login self) duration start q.
Proof.
  intros ((st & Hs) & He). split; [|exact He].
  exists st. rewrite read_status_send_login. exact Hs.
Qed.

(** Iterations that are not due and after which the loop goes on leave
    everything as it is: the instance, and the time of the last login. *)
Lemma monitor_loop_quiet (self : EltekFlatpack) (duration : option F64.float)
    (start last_login : F64.float) (quiet rest : list Tick) :
  Forall (quiet_tick self duration start last_login) quiet ->
  monitor_loop self duration start last_login (quiet ++ rest) =
  monitor_loop self duration start last_login rest.
Proof.
  induction 1 as [|q quiet (Hd & (st & Hs) & He) _ IH]; [reflexivity|].
  cbn [app monitor_loop]. unfold login_due in Hd. unfold elapsed in He.
  rewrite Hd, Hs, He. exact IH.
Qed.

(** An iteration that is due sends the login frame and takes the clock
    reading of line 131 as the time of the last login. *)
Lemma monitor_loop_due (self : EltekFlatpack) (duration : option F64.float)
    (start last_login : F64.float) (t : Tick) (rest : list Tick) :
  login_due last_login t = true ->
  goes_on self duration start t ->
  monitor_loop self duration start last_login (t :: rest) =
  monitor_loop (send_login self) duration start (now_login t) rest.
Proof.
  intros Hd ((st & Hs) & He). cbn [monitor_loop].
  unfold login_due in Hd. unfold elapsed in He.
  rewrite Hd, read_status_send_login, Hs, He. reflexivity.
Qed.

(** X16: the keep-alive is counted from the last login.  As long as the
    clock read at the top of the loop is not more than 10 seconds past the
    last login, [monitor] sends nothing.  The first iteration whose clock
    is more than 10 seconds past it sends a login frame before it reads
    the status, and the clock read right after that frame (line 131)
    becomes the time of the last login: the iterations that follow send
    nothing as long as their clock is not more than 10 seconds past that
    reading, however long ago the login before was, and the run goes on as
    a run that starts with that reading as its last login. *)
Theorem monitor_login_when_due (self : EltekFlatpack)
    (duration : option F64.float) (start last_login : F64.float)
    (quiet : list Tick) (t : Tick) :
  Forall (quiet_tick self duration start last_login) quiet ->
  login_due last_login t = true ->
  monitor self duration start last_login quiet = (self, Ok Interrupted) /\
  (forall rest, exists tail,
     bus_sent (fst (monitor self duration start last_login
                      (quiet ++ t :: rest))) =
     bus_sent self ++ mkMessage (login_id self) (login self) true :: tail) /\
  (goes_on self duration start t ->
   forall quiet',
     Forall (quiet_tick self duration start (now_login t)) quiet' ->
     monitor self duration start last_login (quiet ++ t :: quiet') =
     (send_login self, Ok Interrupted) /\
     (forall rest,
        monitor self duration start last_login (quiet ++ t :: quiet' ++ rest) =
        monitor (send_login self) duration start (now_login t) rest) /\
     (forall t' rest,
        login_due (now_login t) t' = true ->
        exists tail,
          bus_sent (fst (monitor self duration start last_login
                           (quiet ++ t :: quiet' ++ t' :: rest))) =
          bus_sent self
          ++ mkMessage (login_id self) (login self) true
          :: mkMessage (login_id self) (login self) true :: tail)).
Proof.
  intros Hq Ht. unfold monitor.
  assert (First : forall (s : EltekFlatpack) (l : F64.float) (t0 : Tick)
                         (rest : list Tick),
             login_due l t0 = true ->
             exists tail,
               bus_sent (fst (monitor_loop s duration start l (t0 :: rest))) =
               bus_sent s ++ mkMessage (login_id s) (login s) true :: tail).
  { intros s l t0 rest Hd. cbn [monitor_loop].
    unfold login_due in Hd. rewrite Hd.
    destruct (read_status (send_login s) (received t0)) as [s1|e1].
    - destruct (match duration with
                | Some d => truthy d && F64.gtb (fsub (now_end t0) start) d
                | None => false
                end).
      + exists []. reflexivity.
      + destruct (monitor_loop_sent duration start rest (send_login s)
                    (now_login t0)) as (k' & _ & ->).
        exists (repeat (mkMessage (login_id s) (login s) true) k').
        unfold send_login, bus_send.
        cbn [unit_id target_voltage target_current ovp_voltage login
             login_id control_id status_id1 status_id2 bus_sent].
        rewrite <- app_assoc. reflexivity.
    - exists []. reflexivity. }
  split; [|split].
  - rewrite <- (app_nil_r quiet).
    rewrite (monitor_loop_quiet _ _ _ _ _ [] Hq). reflexivity.
  - intros rest. rewrite (monitor_loop_quiet _ _ _ _ _ _ Hq).
    apply First. exact Ht.
  - intros Hg quiet' Hq'.
    assert (Hq2 : Forall (quiet_tick (send_login self) duration start
                            (now_login t)) quiet').
    { apply Forall_impl with (2 := Hq'). intros q (Hd & Hgo).
      split; [exact Hd | apply goes_on_send_login; exact Hgo]. }
    assert (Go : forall rest,
               monitor_loop self duration start last_login
                 (quiet ++ t :: quiet' ++ rest) =
               monitor_loop (send_login self) duration start (now_login t)
                 rest).
    { intros rest. rewrite (monitor_loop_quiet _ _ _ _ _ _ Hq).
      rewrite (monitor_loop_due _ _ _ _ _ _ Ht Hg).
      apply monitor_loop_quiet. exact Hq2. }
    split; [|split].
    + rewrite <- (app_nil_r quiet') at 1. rewrite Go. reflexivity.
    + exact Go.
    + intros t' rest Hd'. rewrite Go.
      destruct (First (send_login self) (now_login t) t' rest Hd')
        as (tail & ->).
      exists tail. unfold send_login, bus_send.
      cbn [login login_id bus_sent]. rewrite <- app_assoc. reflexivity.
Qed.

Lemma monitor_login_when_due_witness :
  Forall (quiet_tick unit1 (Some (F64.of_int 60)) (F64.of_int 100)
            (F64.of_int 100)) [tick_at 105] /\
  login_due (F64.of_int 100) (tick_at 111) = true /\
  goes_on unit1 (Some (F64.of_int 60)) (F64.of_int 100) (tick_at 111) /\
  Forall (quiet_tick unit1 (Some (F64.of_int 60)) (F64.of_int 100)
            (now_login (tick_at 111))) [tick_at 121] /\
  login_due (F64.of_int 100) (tick_at 121) = true /\
  monitor unit1 (Some (F64.of_int 60)) (F64.of_int 100) (F64.of_int 100)
    [tick_at 105] = (unit1, Ok Interrupted) /\
  monitor unit1 (Some (F64.of_int 60)) (F64.of_int 100) (F64.of_int 100)
    ([tick_at 105] ++ tick_at 111 :: [tick_at 121]) =
  (send_login unit1, Ok Interrupted).
Proof.
  assert (H1 : Forall (quiet_tick unit1 (Some (F64.of_int 60)) (F64.of_int 100)
                         (F64.of_int 100)) [tick_at 105]).
  { apply Forall_cons; [|apply Forall_nil].
    split; [vm_compute; reflexivity|].
    split; [exists None; reflexivity | vm_compute; reflexivity]. }
  assert (H2 : login_due (F64.of_int 100) (tick_at 111) = true)
    by (vm_compute; reflexivity).
  assert (H3 : goes_on unit1 (Some (F64.of_int 60)) (F64.of_int 100)
                 (tick_at 111)).
  { split; [exists None; reflexivity | vm_compute; reflexivity]. }
  assert (H4 : Forall (quiet_tick unit1 (Some (F64.of_int 60)) (F64.of_int 100)
                         (now_login (tick_at 111))) [tick_at 121]).
  { apply Forall_cons; [|apply Forall_nil].
    split; [vm_compute; reflexivity|].
    split; [exists None; reflexivity | vm_compute; reflexivity]. }
  assert (H5 : login_due (F64.of_int 100) (tick_at 121) = true)
    by (vm_compute; reflexivity).
  destruct (monitor_login_when_due unit1 (Some (F64.of_int 60))
              (F64.of_int 100) (F64.of_int 100) [tick_at 105] (tick_at 111)
              H1 H2) as (R1 & _ & R3).
  destruct (R3 H3 [tick_at 121] H4) as (R4 & _).
  split; [exact H1|]. split; [exact H2|]. split; [exact H3|].
  split; [exact H4|]. split; [exact H5|]. split; [exact R1 | exact R4].
Defined.

(** A run of seven iterations without a duration, the clock read at
    seconds 105, 111, 121, 122, 123, 130 and 134 after a login at second
    100: login frames are sent in the iterations of seconds 111 and 123
    only, each more than 10 seconds after the login before. *)
Example monitor_keep_alive_run :
  bus_sent
    (fst (monitor unit1 None (F64.of_int 100) (F64.of_int 100)
            [tick_at 105; tick_at 111; tick_at 121; tick_at 122; tick_at 123;
             tick_at 130; tick_at 134])) =
  bus_sent unit1
  ++ [mkMessage (login_id unit1) (login unit1) true;
      mkMessage (login_id unit1) (login unit1) true].
Proof. vm_compute. reflexivity. Qed.

(** ** The command line *)

Lemma init_first_frame (bus_ok : bool) (u : Z) (serial : option string)
    (self : EltekFlatpack) :
  init bus_ok u serial = Ok self ->
  bus_sent self = [mkMessage (login_id self) (login self) true] /\
  target_voltage self = F64.of_int 48.
Proof.
  unfold init.
  destruct ((u <? 1) || (u >? 63)); [discriminate|].
  destruct (match serial with
            | Some s => if (String.length s =? 0)%nat then Ok default_login
                        else serial_login_bytes s
            | None => Ok default_login
            end) as [b|e]; cbn [bind]; [|discriminate].
  destruct bus_ok; [|discriminate].
  intros H. apply Ok_inj in H. subst self. split; reflexivity.
Qed.

(** The first step of [main]: the live setpoints, if any option asks for
    them. *)
Lemma main_head_frames (cond : bool) (fp : EltekFlatpack)
    (v c o : option F64.float) :
  let stored := if cond then store_setpoints fp v c o else fp in
  let r := if cond then set_voltage_and_current fp v c o else (fp, Ok tt) in
  exists ctl,
    fst r =
    mkEltek (unit_id fp) (target_voltage stored) (target_current stored)
      (ovp_voltage stored) (login fp) (login_id fp) (control_id fp)
      (status_id1 fp) (status_id2 fp) (bus_sent fp ++ ctl) /\
    (ctl = [] \/
     exists payload, ctl = [mkMessage (control_id fp) payload true] /\
                     List.length payload = 8%nat) /\
    (cond = false -> ctl = []) /\
    (forall e, snd r = Raise e -> ctl = []).
Proof.
  cbv zeta. destruct cond.
  - unfold set_voltage_and_current.
    destruct (control_frame_cases (store_setpoints fp v c o))
      as [(_ & payload & Hl & ->) | (_ & e0 & _ & ->)]; cbn [fst snd].
    + exists [mkMessage (control_id fp) payload true].
      split; [reflexivity|].
      split; [right; exists payload; split; [reflexivity | exact Hl]|].
      split; intros; discriminate.
    + exists []. rewrite app_nil_r.
      split; [reflexivity|]. split; [left; reflexivity|].
      split; reflexivity.
  - exists []. rewrite app_nil_r. cbn [fst snd].
    split; [destruct fp; reflexivity|]. split; [left; reflexivity|].
    split; reflexivity.
Qed.

(** The rest of [main]: the default voltage, then [monitor] or one
    [read_status]. *)
Lemma main_tail_frames (dvolt : option F64.float) (mon : bool)
    (fp : EltekFlatpack) (start last_login : F64.float) (ticks : list Tick)
    (rx : list (option Message)) :
  let r :=
    and_then
      (match dvolt with
       | Some v => if truthy v then set_default_voltage fp v else (fp, Ok tt)
       | None => (fp, Ok tt)
       end)
      (fun fp =>
         if mon then
           and_then (monitor fp None start last_login ticks)
                    (fun fp => (fp, Ok tt))
         else (fp, status <- read_status fp rx ;; Ok tt)) in
  exists dv k,
    fst r =
    mkEltek (unit_id fp) (target_voltage fp) (target_current fp)
      (ovp_voltage fp) (login fp) (login_id fp) (control_id fp)
      (status_id1 fp) (status_id2 fp)
      (bus_sent fp ++ dv
       ++ repeat (mkMessage (login_id fp) (login fp) true) k) /\
    (dv = [] \/
     exists lo hi,
       dv = [mkMessage (default_id fp) [x29; x15; x00; lo; hi] true]) /\
    (given dvolt = false -> dv = []) /\
    (mon = false -> k = 0%nat).
Proof.
  cbv zeta.
  assert (G : forall (fp1 : EltekFlatpack) (dv : list Message),
    fp1 =
    mkEltek (unit_id fp) (target_voltage fp) (target_current fp)
      (ovp_voltage fp) (login fp) (login_id fp) (control_id fp)
      (status_id1 fp) (status_id2 fp) (bus_sent fp ++ dv) ->
    exists k,
      fst (if mon then
             and_then (monitor fp1 None start last_login ticks)
                      (fun fp => (fp, Ok tt))
           else (fp1, status <- read_status fp1 rx ;; Ok tt)) =
      mkEltek (unit_id fp) (target_voltage fp) (target_current fp)
        (ovp_voltage fp) (login fp) (login_id fp) (control_id fp)
        (status_id1 fp) (status_id2 fp)
        (bus_sent fp ++ dv
         ++ repeat (mkMessage (login_id fp) (login fp) true) k) /\
      (mon = false -> k = 0%nat)).
  { intros fp1 dv E. destruct mon.
    - destruct (monitor_loop_sent None start ticks fp1 last_login)
        as (k & _ & Hk).
      exists k. split; [|discriminate].
      unfold monitor.
      destruct (monitor_loop fp1 None start last_login ticks) as [fp2 [u|e]];
        cbn [and_then fst] in *; rewrite Hk, E;
        cbn [unit_id target_voltage target_current ovp_voltage login
             login_id control_id status_id1 status_id2 bus_sent];
        rewrite <- app_assoc; reflexivity.
    - exists 0%nat. split; [|reflexivity].
      cbn [fst repeat]. rewrite app_nil_r. exact E. }
  assert (E0 : forall dv, dv = [] ->
    fp =
    mkEltek (unit_id fp) (target_voltage fp) (target_current fp)
      (ovp_voltage fp) (login fp) (login_id fp) (control_id fp)
      (status_id1 fp) (status_id2 fp) (bus_sent fp ++ dv)).
  { intros dv ->. rewrite app_nil_r. destruct fp. reflexivity. }
  destruct dvolt as [v|]; cbn [given]; [destruct (truthy v)|].
  - destruct (set_default_voltage_sends fp v) as (lo & hi & ->).
    cbn [and_then].
    destruct (G (bus_send fp (mkMessage (default_id fp)
                                [x29; x15; x00; lo; hi] true))
                [mkMessage (default_id fp) [x29; x15; x00; lo; hi] true]
                eq_refl) as (k & Hk & Hm).
    exists [mkMessage (default_id fp) [x29; x15; x00; lo; hi] true], k.
    split; [exact Hk|].
    split; [right; exists lo, hi; reflexivity|].
    split; [discriminate | exact Hm].
  - cbn [and_then].
    destruct (G fp [] (E0 [] eq_refl)) as (k & Hk & Hm).
    exists [], k. split; [exact Hk|]. split; [left; reflexivity|].
    split; [reflexivity | exact Hm].
  - cbn [and_then].
    destruct (G fp [] (E0 [] eq_refl)) as (k & Hk & Hm).
    exists [], k. split; [exact Hk|]. split; [left; reflexivity|].
    split; [reflexivity | exact Hm].
Qed.

(** The frames of the [try] block, and what it leaves of the instance. *)
Lemma main_body_frames (args : Args) (fp : EltekFlatpack)
    (start last_login : F64.float) (ticks : list Tick)
    (rx : list (option Message)) :
  let cond := given (arg_voltage args) || given (arg_current args)
              || given (arg_ovp args) in
  let stored :=
    if cond
    then store_setpoints fp (arg_voltage args) (arg_current args)
           (arg_ovp args)
    else fp in
  exists ctl dv k,
    fst (main_body args fp start last_login ticks rx) =
    mkEltek (unit_id fp) (target_voltage stored) (target_current stored)
      (ovp_voltage stored) (login fp) (login_id fp) (control_id fp)
      (status_id1 fp) (status_id2 fp)
      (bus_sent fp ++ ctl ++ dv
       ++ repeat (mkMessage (login_id fp) (login fp) true) k) /\
    (ctl = [] \/
     exists payload, ctl = [mkMessage (control_id fp) payload true] /\
                     List.length payload = 8%nat) /\
    (dv = [] \/
     exists lo hi,
       dv = [mkMessage (default_id fp) [x29; x15; x00; lo; hi] true]) /\
    (cond = false -> ctl = []) /\
    (given (arg_default_voltage args) = false -> dv = []) /\
    (arg_monitor args = false -> k = 0%nat).
Proof.
  cbv zeta. unfold main_body.
  set (cond := given (arg_voltage args) || given (arg_current args)
               || given (arg_ovp args)).
  destruct (main_head_frames cond fp (arg_voltage args) (arg_current args)
              (arg_ovp args)) as (ctl & H1 & Hctl & Hc0 & Hce).
  cbv zeta in H1, Hce.
  match goal with
  | |- context [and_then ?m _] =>
      match type of H1 with fst _ = ?R => change (fst m = R) in H1 end;
      change (forall e, snd m = Raise e -> ctl = []) in Hce;
      destruct m as [fp1 [u|e]]
  end; cbn [fst snd and_then] in *.
  - destruct (main_tail_frames (arg_default_voltage args) (arg_monitor args)
                fp1 start last_login ticks rx)
      as (dv & k & H2 & Hdv & Hd0 & Hk0).
    cbv zeta in H2. cbn [fst snd and_then] in H2. rewrite H2. subst fp1.
    cbn [unit_id target_voltage target_current ovp_voltage login
         login_id control_id status_id1 status_id2 bus_sent default_id]
      in *.
    exists ctl, dv, k. rewrite <- app_assoc.
    split; [reflexivity|]. split; [exact Hctl|]. split; [exact Hdv|].
    split; [exact Hc0|]. split; [exact Hd0 | exact Hk0].
  - rewrite (Hce e eq_refl) in *.
    exists [], [], 0%nat. cbn [app repeat].
    split; [exact H1|]. split; [left; reflexivity|].
    split; [left; reflexivity|]. repeat split.
Qed.

(** X17: what a run of [main] puts on the bus.  When the instance can be
    constructed, the frames are, in this order: the login frame of the
    constructor; at most one control frame, and none at all when
    [--voltage], [--current] and [--ovp] are all absent or zero; at most
    one default-voltage frame, and none when [--default-voltage] is absent
    or zero; then login frames only, and none without [--monitor].  The bus
    is closed at the end however the run went.  When the constructor
    raises, nothing is sent and nothing is closed. *)
Theorem main_frames_in_order (args : Args) (bus_ok : bool)
    (start last_login : F64.float) (ticks : list Tick)
    (rx : list (option Message)) :
  let run := main args bus_ok start last_login ticks rx in
  (forall e, init bus_ok (arg_unit_id args) (arg_serial args) = Raise e ->
             run = mkRun None false (Some e)) /\
  (forall fp0, init bus_ok (arg_unit_id args) (arg_serial args) = Ok fp0 ->
     bus_closed run = true /\
     exists fp ctl dv k,
       run_fp run = Some fp /\
       bus_sent fp =
       mkMessage (login_id fp0) (login fp0) true
       :: ctl ++ dv ++ repeat (mkMessage (login_id fp0) (login fp0) true) k /\
       (ctl = [] \/
        exists payload, ctl = [mkMessage (control_id fp0) payload true] /\
                        List.length payload = 8%nat) /\
       (dv = [] \/
        exists lo hi,
          dv = [mkMessage (default_id fp0) [x29; x15; x00; lo; hi] true]) /\
       (given (arg_voltage args) || given (arg_current args)
        || given (arg_ovp args) = false -> ctl = []) /\
       (given (arg_default_voltage args) = false -> dv = []) /\
       (arg_monitor args = false -> k = 0%nat)).
Proof.
  cbv zeta. unfold main. split.
  - intros e ->. reflexivity.
  - intros fp0 E. rewrite E. cbn [bus_closed run_fp].
    split; [reflexivity|].
    destruct (init_first_frame _ _ _ _ E) as (Hs & _).
    destruct (main_body_frames args fp0 start last_login ticks rx)
      as (ctl & dv & k & H & Hctl & Hdv & Hc0 & Hd0 & Hk0).
    cbv zeta in H.
    exists (fst (main_body args fp0 start last_login ticks rx)), ctl, dv, k.
    split; [reflexivity|].
    split; [rewrite H; cbn [bus_sent]; rewrite Hs; reflexivity|].
    split; [exact Hctl|]. split; [exact Hdv|]. split; [exact Hc0|].
    split; [exact Hd0 | exact Hk0].
Qed.

(** X18: an option given as zero counts as absent in the test that decides
    whether the live setpoints are sent.  With [--voltage 0] and neither a
    nonzero [--current] nor a nonzero [--ovp], the voltage stays at the
    48.0 V of the constructor; with a nonzero [--current] or [--ovp]
    beside it, the zero is passed on and stored, clamped to 43.5 V. *)
Theorem main_zero_voltage (args : Args) (bus_ok : bool)
    (start last_login : F64.float) (ticks : list Tick)
    (rx : list (option Message)) (z : F64.float) (fp0 : EltekFlatpack) :
  arg_voltage args = Some z ->
  F64.eqb z F64.zero = true ->
  init bus_ok (arg_unit_id args) (arg_serial args) = Ok fp0 ->
  exists fp,
    run_fp (main args bus_ok start last_login ticks rx) = Some fp /\
    (given (arg_current args) || given (arg_ovp args) = false ->
     target_voltage fp = F64.of_int 48) /\
    (given (arg_current args) || given (arg_ovp args) = true ->
     target_voltage fp = MIN_VOLTAGE).
Proof.
  intros Hv Hz E. unfold main. rewrite E. cbn [run_fp].
  destruct (init_first_frame _ _ _ _ E) as (_ & H48).
  destruct (main_body_frames args fp0 start last_login ticks rx)
    as (ctl & dv & k & H & _).
  cbv zeta in H.
  exists (fst (main_body args fp0 start last_login ticks rx)).
  split; [reflexivity|]. rewrite H. cbn [target_voltage].
  rewrite Hv.
  assert (Hg : given (Some z) = false)
    by (unfold given, truthy; rewrite Hz; reflexivity).
  rewrite Hg. cbn [orb].
  split; intros K; rewrite K.
  - exact H48.
  - unfold store_setpoints. cbn [with_setpoints target_voltage].
    change (F64.max MIN_VOLTAGE (F64.min z MAX_VOLTAGE))
      with (clamp MIN_VOLTAGE MAX_VOLTAGE z).
    pose proof (clamp_fin 6122080743456768 8078331831595827 (-47)
                  ltac:(lia) z) as C.
    cbv zeta in C. rewrite <- MIN_VOLTAGE_eq, <- MAX_VOLTAGE_eq in C.
    destruct C as (_ & _ & Hlt & _).
    apply Hlt. destruct z as [s|[]| |[] m e]; try discriminate Hz.
    reflexivity.
Qed.

Lemma main_zero_voltage_witness :
  arg_voltage (mkArgs None 1 (Some F64.zero) (Some (F64.of_int 5)) None None
                 false) = Some F64.zero /\
  F64.eqb F64.zero F64.zero = true /\
  init true 1 None = Ok unit1 /\
  exists fp,
    run_fp (main (mkArgs None 1 (Some F64.zero) (Some (F64.of_int 5)) None
                    None false)
              true (F64.of_int 100) (F64.of_int 100) [] []) = Some fp /\
    target_voltage fp = MIN_VOLTAGE.
Proof.
  assert (H1 : arg_voltage (mkArgs None 1 (Some F64.zero)
                              (Some (F64.of_int 5)) None None false)
               = Some F64.zero) by reflexivity.
  assert (H2 : F64.eqb F64.zero F64.zero = true) by reflexivity.
  assert (H3 : init true 1 None = Ok unit1) by reflexivity.
  split; [exact H1|]. split; [exact H2|]. split; [exact H3|].
  destruct (main_zero_voltage
              (mkArgs None 1 (Some F64.zero) (Some (F64.of_int 5)) None None
                 false)
              true (F64.of_int 100) (F64.of_int 100) [] [] F64.zero unit1
              H1 H2 H3) as (fp & Hr & _ & Hmin).
  exists fp. split; [exact Hr|]. apply Hmin. vm_compute. reflexivity.
Defined.
